(** * MyData app for MyTardis: REST resources and uploader models

    A shallow embedding of [api.py] and [models/uploader.py].

    Python dictionaries ([bundle.data], [request.GET]) are finite maps
    keyed by strings, database tables are lists of rows in scan order,
    exceptions are the [Raise] branch of [result], and code that writes
    to the database or reads the clock runs in a state monad over
    [World] that keeps the writes made before an exception. *)

From stdpp Require Import gmap strings list fin_maps pretty.
From Stdlib Require Import ZArith Ascii.

Open Scope Z_scope.

(** ** Exceptions *)

Inductive exn :=
  | KeyError (key : string)
  | DoesNotExist
  | MultipleObjectsReturned
  | UnboundLocalError (name : string)
  | AttributeError
  | TypeError
  | IndexError
  | IntegrityError (msg : string)
  | ImmediateHttpResponse (status : Z)
  | NotImplementedError
  | InvalidFilterError (field : string)
  | HostError (msg : string).

Inductive result (A : Type) :=
  | Ok (a : A)
  | Raise (e : exn).
Arguments Ok {A} a.
Arguments Raise {A} e.

Global Instance exn_eq_dec : EqDecision exn.
Proof. solve_decision. Defined.

(** Django's [FieldError]: a lookup by a keyword that is no field of
    the model. *)
Definition FieldError : exn := HostError "FieldError".

Global Instance result_ret : MRet result := λ A a, Ok a.
Global Instance result_bind : MBind result := λ A B f m,
  match m with
  | Ok a => f a
  | Raise e => Raise e
  end.

(** [d[key]] on a dict or a QueryDict. *)
Definition getitem {V} (d : gmap string V) (key : string) : result V :=
  match d !! key with
  | Some v => Ok v
  | None => Raise (KeyError key)
  end.

(** Reading a function-local name that may not have been assigned. *)
Definition read_local {V} (name : string) (v : option V) : result V :=
  match v with
  | Some x => Ok x
  | None => Raise (UnboundLocalError name)
  end.

(** ** String methods

    Strings are the UTF-8 bytes of Python's unicode strings.  Equality,
    [startswith] with an ASCII prefix and [in] with an ASCII pattern are
    exact on them.  [lower()], [strip()] and the database's [iexact]
    know all of Unicode: they are taken from the host. *)

Class Text := {
  lower : string → string;
  strip : string → string;
  iexact : string → string → bool;
}.

(** [s.startswith(p)] *)
Definition startswith (s p : string) : bool := String.prefix p s.

(** [p in s] for strings. *)
Fixpoint contains (p s : string) : bool :=
  String.prefix p s ||
  match s with
  | EmptyString => false
  | String _ s' => contains p s'
  end.

(** ** Values carried by a bundle's data dictionary *)

Inductive pyval :=
  | VNone
  | VBool (b : bool)
  | VInt (n : Z)
  | VStr (s : string)
  | VTime (t : Z)
  | VDicts (l : list (gmap string string)).

Global Instance pyval_eq_dec : EqDecision pyval.
Proof. solve_decision. Defined.

(** [a == b]: a bool is the integer 0 or 1, values of other different
    types are not equal. *)
Definition py_eq (a b : pyval) : bool :=
  match a, b with
  | VBool x, VInt n | VInt n, VBool x => bool_decide (n = if x then 1 else 0)
  | _, _ => bool_decide (a = b)
  end.

(** ** models/uploader.py *)

(** [class Uploader(models.Model)].  Nullable columns are options.
    [attrs] holds the attributes of the Python object that are not
    fields of the class: what [obj.x = v] sets for such an [x], and what
    [obj.x] raises AttributeError for when it was never set. *)
Record Uploader := {
  uploader_id : option Z;
  name : string;
  contact_name : string;
  contact_email : string;
  instruments : list Z;
  user_agent_name : option string;
  user_agent_version : option string;
  user_agent_install_location : option string;
  os_platform : option string;
  os_system : option string;
  os_release : option string;
  os_version : option string;
  os_username : option string;
  machine : option string;
  architecture : option string;
  processor : option string;
  memory : option string;
  cpus : option Z;
  disk_usage : option string;
  data_path : option string;
  default_user : option string;
  interface : string;
  mac_address : string;
  ipv4_address : option string;
  ipv6_address : option string;
  subnet_mask : option string;
  hostname : option string;
  wan_ip_address : option string;
  created_time : option Z;
  updated_time : option Z;
  attrs : gmap string pyval;
}.

Definition set_uploader_id (i : option Z) (u : Uploader) : Uploader :=
  let 'Build_Uploader _ a1 a2 a3 a4 a5 a6 a7 a8 a9 a10 a11 a12 a13 a14 a15
        a16 a17 a18 a19 a20 a21 a22 a23 a24 a25 a26 a27 a28 a29 a30 := u in
  Build_Uploader i a1 a2 a3 a4 a5 a6 a7 a8 a9 a10 a11 a12 a13 a14 a15
        a16 a17 a18 a19 a20 a21 a22 a23 a24 a25 a26 a27 a28 a29 a30.

Definition set_attrs (d : gmap string pyval) (u : Uploader) : Uploader :=
  let 'Build_Uploader a0 a1 a2 a3 a4 a5 a6 a7 a8 a9 a10 a11 a12 a13 a14 a15
        a16 a17 a18 a19 a20 a21 a22 a23 a24 a25 a26 a27 a28 a29 _ := u in
  Build_Uploader a0 a1 a2 a3 a4 a5 a6 a7 a8 a9 a10 a11 a12 a13 a14 a15
        a16 a17 a18 a19 a20 a21 a22 a23 a24 a25 a26 a27 a28 a29 d.

(** [obj.settings_updated = t]: the class has no such field, so this is
    an attribute of the object only. *)
Definition set_settings_updated (t : Z) (u : Uploader) : Uploader :=
  set_attrs (<["settings_updated" := VTime t]> (attrs u)) u.

(** What [save()] writes of an uploader: its fields. *)
Definition columns (u : Uploader) : Uploader := set_attrs ∅ u.

(** [getattr(obj, name)] for a name that is not a field of the class. *)
Definition getattr (u : Uploader) (name : string) : result pyval :=
  match attrs u !! name with
  | Some v => Ok v
  | None => Raise AttributeError
  end.

(** [class UploaderStagingHost(models.Model)] *)
Record UploaderStagingHost := {
  staging_host_id : option Z;
  host : string;
  uses_hosts_allow : bool;
  uses_iptables_firewall : bool;
  uses_external_firewall : bool;
}.

(** [class UploaderRegistrationRequest(models.Model)] *)
Record UploaderRegistrationRequest := {
  request_id : option Z;
  uploader : Z;
  requester_name : string;
  requester_email : string;
  requester_public_key : string;
  requester_key_fingerprint : string;
  request_time : option Z;
  approved : bool;
  approved_staging_host : option Z;
  approved_username : option string;
  approver_comments : option string;
  approval_expiry : option Z;
  approval_time : option Z;
}.

Definition set_request_id (i : option Z) (r : UploaderRegistrationRequest)
  : UploaderRegistrationRequest :=
  {| request_id := i;
     uploader := uploader r;
     requester_name := requester_name r;
     requester_email := requester_email r;
     requester_public_key := requester_public_key r;
     requester_key_fingerprint := requester_key_fingerprint r;
     request_time := request_time r;
     approved := approved r;
     approved_staging_host := approved_staging_host r;
     approved_username := approved_username r;
     approver_comments := approver_comments r;
     approval_expiry := approval_expiry r;
     approval_time := approval_time r |}.

(** Modelled from the spec: the class [UploaderSetting], which api.py
    imports from models.uploader and that file does not define.  It is
    a key/value pair scoped to an uploader. *)
Record UploaderSetting := {
  setting_id : option Z;
  setting_uploader : Z;
  setting_key : string;
  setting_value : string;
}.

Definition set_setting_id (i : option Z) (s : UploaderSetting) : UploaderSetting :=
  {| setting_id := i;
     setting_uploader := setting_uploader s;
     setting_key := setting_key s;
     setting_value := setting_value s |}.

Definition set_setting_value (v : string) (s : UploaderSetting) : UploaderSetting :=
  {| setting_id := setting_id s;
     setting_uploader := setting_uploader s;
     setting_key := setting_key s;
     setting_value := v |}.

(** *** The model interface

    What [models.Model] gives every class above: a primary key and the
    UNIQUE indexes its declaration asks for, one projection per index
    ([unique=True] on a field, [unique_together] in [Meta]). *)
Class Model (R : Type) := {
  pk : R → option Z;
  set_pk : option Z → R → R;
  unique_indexes : list (R → list pyval);
}.

(** [mac_address = models.CharField(max_length=64, unique=True, ...)] *)
Global Instance Uploader_model : Model Uploader := {|
  pk := uploader_id;
  set_pk := set_uploader_id;
  unique_indexes := [λ u, [VStr (mac_address u)]];
|}.

Global Instance UploaderStagingHost_model : Model UploaderStagingHost := {|
  pk := staging_host_id;
  set_pk := λ i h, {| staging_host_id := i; host := host h;
                      uses_hosts_allow := uses_hosts_allow h;
                      uses_iptables_firewall := uses_iptables_firewall h;
                      uses_external_firewall := uses_external_firewall h |};
  unique_indexes := [];
|}.

(** [unique_together = ['uploader', 'requester_key_fingerprint']] *)
Global Instance UploaderRegistrationRequest_model
  : Model UploaderRegistrationRequest := {|
  pk := request_id;
  set_pk := set_request_id;
  unique_indexes :=
    [λ r, [VInt (uploader r); VStr (requester_key_fingerprint r)]];
|}.

Global Instance UploaderSetting_model : Model UploaderSetting := {|
  pk := setting_id;
  set_pk := set_setting_id;
  unique_indexes := [];
|}.

(** *** Tables

    A table is the list of its rows.  [save] is [Model.save()]: an
    UPDATE when the instance has a primary key that is in the table, an
    INSERT otherwise, with a fresh key when the instance has none.  The
    database refuses a row that repeats the value of a UNIQUE index.

    [fresh_pk] is a key above every key of the table: what the sequence
    of the key column gives as long as the row with the largest key
    was not deleted.  The sequence itself is not part of a table
    here. *)
Section Tables.
Context {R : Type} `{Model R}.

Definition has_pk (i : Z) (r : R) : bool := bool_decide (pk r = Some i).

Definition fresh_pk (tbl : list R) : Z :=
  1 + foldr (λ r m, Z.max (default 0 (pk r)) m) 0 tbl.

Definition clashes (r : R) (others : list R) : bool :=
  existsb (λ key, existsb (λ r', bool_decide (key r' = key r)) others)
          unique_indexes.

Definition duplicate_key : exn :=
  IntegrityError "duplicate key value violates unique constraint".

Definition save (r : R) (tbl : list R) : result (R * list R) :=
  match pk r with
  | Some i =>
      if existsb (has_pk i) tbl then
        if clashes r (filter (λ r', has_pk i r' = false) tbl)
        then Raise duplicate_key
        else Ok (r, (λ r', if has_pk i r' then r else r') <$> tbl)
      else
        if clashes r tbl then Raise duplicate_key
        else Ok (r, tbl ++ [r])
  | None =>
      let r' := set_pk (Some (fresh_pk tbl)) r in
      if clashes r' tbl then Raise duplicate_key
      else Ok (r', tbl ++ [r'])
  end.

(** [Model.delete()] *)
Definition delete_row (i : Z) (tbl : list R) : list R :=
  filter (λ r', has_pk i r' = false) tbl.

(** [objects.get(...)]: exactly one row must satisfy the lookup. *)
Definition objects_get (P : R → bool) (tbl : list R) : result R :=
  match filter (λ r, P r = true) tbl with
  | [] => Raise DoesNotExist
  | [r] => Ok r
  | _ => Raise MultipleObjectsReturned
  end.

(** The tables that [save] and [delete] can produce from the empty one. *)
Inductive reachable : list R → Prop :=
  | reachable_empty : reachable []
  | reachable_save r tbl r' tbl' :
      reachable tbl → save r tbl = Ok (r', tbl') → reachable tbl'
  | reachable_delete i tbl :
      reachable tbl → reachable (delete_row i tbl).

(** [written tbl tbl']: the table [tbl'] is what saves and deletions
    make of [tbl]. *)
Inductive written (tbl : list R) : list R → Prop :=
  | written_none : written tbl tbl
  | written_save r r' tbl1 tbl2 :
      written tbl tbl1 → save r tbl1 = Ok (r', tbl2) → written tbl tbl2
  | written_delete i tbl1 :
      written tbl tbl1 → written tbl (delete_row i tbl1).
End Tables.

(** What a model's [set_pk] must do for [save] to make sense. *)
Class ModelLaws (R : Type) `{Model R} := {
  pk_set_pk : ∀ (i : option Z) (r : R), pk (set_pk i r) = i;
}.

(** The state of a table that the database keeps: every row has a
    primary key, and primary keys and the values of every UNIQUE index
    occur once. *)
Definition table_ok `{Model R} (tbl : list R) : Prop :=
  Forall (λ r, is_Some (pk r)) tbl ∧
  NoDup (pk <$> tbl) ∧
  Forall (λ key : R → list pyval, NoDup (key <$> tbl)) unique_indexes.

(** At most one row of the table for each value of [key]. *)
Definition unique_on {R K} (key : R → K) (tbl : list R) : Prop :=
  ∀ (i j : nat) (r1 r2 : R),
    tbl !! i = Some r1 → tbl !! j = Some r2 → key r1 = key r2 → i = j.

(** ** Requests, bundles and the world a request runs in *)

Record AuthUser := {
  auth_user_id : Z;
  is_authenticated : bool;
  is_superuser : bool;
}.

Record Request := {
  GET : gmap string string;
  META : gmap string string;
  user : AuthUser;
}.

(** A Tastypie bundle.  [obj_update_done] is an attribute that
    [obj_update] adds to a bundle: [None] while it is not there. *)
Record Bundle (O : Type) := {
  obj : O;
  data : gmap string pyval;
  request : Request;
  obj_update_done : option bool;
}.
Arguments obj {O} _.
Arguments data {O} _.
Arguments request {O} _.
Arguments obj_update_done {O} _.
Arguments Build_Bundle {O} _ _ _ _.

Definition set_data {O} (d : gmap string pyval) (b : Bundle O) : Bundle O :=
  {| obj := obj b; data := d; request := request b;
     obj_update_done := obj_update_done b |}.

Definition set_obj {O} (o : O) (b : Bundle O) : Bundle O :=
  {| obj := o; data := data b; request := request b;
     obj_update_done := obj_update_done b |}.

Definition set_obj_update_done {O} (f : option bool) (b : Bundle O) : Bundle O :=
  {| obj := obj b; data := data b; request := request b;
     obj_update_done := f |}.

Record DataFile := {
  datafile_id : Z;
  dataset_instrument : option Z;
}.

(** The classes [isinstance] tells apart in the authorization hooks. *)
Inductive Obj :=
  | ObjUploader (u : Uploader)
  | ObjUploaderSetting (s : UploaderSetting)
  | ObjUploaderRegistrationRequest (r : UploaderRegistrationRequest)
  | ObjDataFileObject (datafile : DataFile)
  | ObjOther.

(** The tables of this app, the number of clock readings made so far,
    and the resource attribute [temp_url]. *)
Record World := {
  reads : nat;
  uploaders : list Uploader;
  uploader_settings : list UploaderSetting;
  registration_requests : list UploaderRegistrationRequest;
  temp_url : option string;
}.

Definition set_reads (n : nat) (w : World) : World :=
  {| reads := n; uploaders := uploaders w;
     uploader_settings := uploader_settings w;
     registration_requests := registration_requests w;
     temp_url := temp_url w |}.

Definition set_uploaders (t : list Uploader) (w : World) : World :=
  {| reads := reads w; uploaders := t;
     uploader_settings := uploader_settings w;
     registration_requests := registration_requests w;
     temp_url := temp_url w |}.

Definition set_uploader_settings (t : list UploaderSetting) (w : World) : World :=
  {| reads := reads w; uploaders := uploaders w;
     uploader_settings := t;
     registration_requests := registration_requests w;
     temp_url := temp_url w |}.

Definition set_registration_requests (t : list UploaderRegistrationRequest)
    (w : World) : World :=
  {| reads := reads w; uploaders := uploaders w;
     uploader_settings := uploader_settings w;
     registration_requests := t;
     temp_url := temp_url w |}.

Definition set_temp_url (u : option string) (w : World) : World :=
  {| reads := reads w; uploaders := uploaders w;
     uploader_settings := uploader_settings w;
     registration_requests := registration_requests w;
     temp_url := u |}.

(** State and exceptions: the world after a [Raise] holds the writes
    made before it. *)
Definition M (A : Type) : Type := World → result A * World.

Global Instance M_ret : MRet M := λ A a w, (Ok a, w).
Global Instance M_bind : MBind M := λ A B f m w,
  match m w with
  | (Ok a, w') => f a w'
  | (Raise e, w') => (Raise e, w')
  end.

(** A computation that changes the table of registration requests by
    [Model.save()] and [Model.delete()] only, whatever else it does. *)
Definition writes_by_model {A} (m : M A) : Prop :=
  ∀ w, written (registration_requests w) (registration_requests (m w).2).

Definition raise {A} (e : exn) : M A := λ w, (Raise e, w).
Definition lift {A} (r : result A) : M A := λ w, (r, w).

(** [try: m  except: h]  with a handler for every exception. *)
Definition try_except {A} (m : M A) (h : exn → M A) : M A := λ w,
  match m w with
  | (Ok a, w') => (Ok a, w')
  | (Raise e, w') => h e w'
  end.

(** ** The read-only tables of the portal *)

Record User := {
  username : string;
  email : string;
}.

Record Schema := {
  schema_id : Z;
  namespace : string;
}.

Record Experiment := {
  title : string;
}.

Record ExperimentParameterSet := {
  pset_id : Z;
  pset_experiment : Z;
  pset_schema : Z;
}.

(** [param_name] is [exp_param.name.name]; [string_value] is a string,
    as the scans call [lower()] on it. *)
Record ExperimentParameter := {
  parameterset : Z;
  param_name : string;
  string_value : string;
}.

(** Experiments are keyed by primary key; parameter sets and parameters
    are in the order a query yields them.  [safe_all u] lists the keys
    of [Experiment.safe.all(u)]. *)
Record Database := {
  users : list User;
  schemas : list Schema;
  experiments : gmap Z Experiment;
  parametersets : list ExperimentParameterSet;
  parameters : list ExperimentParameter;
  safe_all : AuthUser → list Z;
}.

(** ** The host framework

    What the portal, Tastypie and ipware do when this app calls them:
    the parent classes' methods, [facilities_managed_by],
    [has_datafile_access], [get_ip], and the readings of
    [datetime.now()]. *)
Class Host := {
  facilities_managed_by : AuthUser → list Z;
  has_datafile_access : Request → Z → bool;
  super_read_list : list Obj → Bundle Obj → result (list Obj);
  super_read_detail : list Obj → Bundle Obj → result bool;
  super_create_detail : list Obj → Bundle Obj → result bool;
  super_update_detail : list Obj → Bundle Obj → result bool;
  get_ip : Request → option string;
  clock : nat → Z;
  super_obj_create : Bundle Uploader → M (Bundle Uploader);
  super_obj_update : Bundle Uploader → M (Bundle Uploader);
  super_hydrate_m2m : Bundle Uploader → M (Bundle Uploader);
  super_hydrate :
    Bundle UploaderRegistrationRequest → M (Bundle UploaderRegistrationRequest);
  super_obj_get_list : Request → Database → result (list (Z * Experiment));
  super_datafile_obj_create : Bundle DataFile → M (Bundle DataFile);
  get_receiving_storage_box : DataFile → M (option Z);
  create_dfo : DataFile → Z → M string;
}.

(** What Django's sites and mail framework and the parent resource do
    when a registration request is created. *)
Class Notifier := {
  super_request_obj_create :
    Bundle UploaderRegistrationRequest → M (Bundle UploaderRegistrationRequest);
  current_site_domain : M string;
  mail_admins : string → string → M unit;
}.

(** [datetime.now()] *)
Definition datetime_now `{Host} : M Z := λ w,
  (Ok (clock (reads w)), set_reads (S (reads w)) w).

(** ** api.py *)

(** [for x in l: body(x)] *)
Fixpoint for_each {A} (body : A → M unit) (l : list A) : M unit :=
  match l with
  | [] => mret ()
  | x :: l' => body x ≫= λ _, for_each body l'
  end.

(** [Model.save()] on a table of the world. *)
Definition save_in `{Model R} (get : World → list R)
    (set : list R → World → World) (r : R) : M R := λ w,
  match save r (get w) with
  | Ok (r', tbl) => (Ok r', set tbl w)
  | Raise e => (Raise e, w)
  end.

(** What Tastypie's [check_filtering] does with a resource's
    [Meta.filtering]: a field that is not listed does not allow
    filtering, a listed one allows the lookup types next to it. *)
Definition check_filtering (filtering : list (string * list string))
    (field_name filter_type : string) : result unit :=
  match list_find (λ entry, entry.1 = field_name) filtering with
  | None => Raise (InvalidFilterError field_name)
  | Some (_, (_, allowed)) =>
      if bool_decide (filter_type ∈ allowed) then Ok ()
      else Raise (InvalidFilterError field_name)
  end.

Module ACLAuthorization.
Section WithHost.
Context `{Host}.

(** [authenticated and len(facilities_managed_by(authuser)) > 0] *)
Definition is_facility_manager (authuser : AuthUser) : bool :=
  is_authenticated authuser &&
  bool_decide (0 < length (facilities_managed_by authuser))%nat.

Definition read_list (object_list : list Obj) (bundle : Bundle Obj)
  : result (list Obj) :=
  let authuser := user (request bundle) in
  match obj bundle with
  | ObjUploader _ | ObjUploaderSetting _ | ObjUploaderRegistrationRequest _ =>
      if is_facility_manager authuser then Ok object_list else Ok []
  | _ => super_read_list object_list bundle
  end.

Definition read_detail (object_list : list Obj) (bundle : Bundle Obj)
  : result bool :=
  let authuser := user (request bundle) in
  if is_authenticated authuser && is_superuser authuser then Ok true
  else
    match obj bundle with
    | ObjUploader _ => Ok (is_facility_manager authuser)
    | ObjUploaderRegistrationRequest _ => Ok (is_facility_manager authuser)
    | ObjDataFileObject datafile =>
        Ok (has_datafile_access (request bundle) (datafile_id datafile))
    | _ => super_read_detail object_list bundle
    end.

Definition create_detail (object_list : list Obj) (bundle : Bundle Obj)
  : result bool :=
  let authuser := user (request bundle) in
  match obj bundle with
  | ObjUploader _ => Ok (is_facility_manager authuser)
  | ObjUploaderRegistrationRequest _ => Ok (is_facility_manager authuser)
  | ObjUploaderSetting _ => Ok (is_facility_manager authuser)
  | _ => super_create_detail object_list bundle
  end.

Definition update_detail (object_list : list Obj) (bundle : Bundle Obj)
  : result bool :=
  let authuser := user (request bundle) in
  match obj bundle with
  | ObjUploader u =>
      if is_facility_manager authuser then
        sent ← getitem (data bundle) "uuid";
        own ← getattr u "uuid";
        Ok (py_eq sent own)
      else Ok false
  | ObjUploaderSetting _ => Ok (is_facility_manager authuser)
  | _ => super_update_detail object_list bundle
  end.
End WithHost.
End ACLAuthorization.

Module UploaderAppResource.
(** [Meta.filtering] *)
Definition filtering : list (string * list string) :=
  [("uuid", ["exact"]); ("name", ["exact"])].

Definition accessible_keys : list string :=
  ["id"; "resource_uri"; "name"; "settings";
   "settings_updated"; "settings_downloaded"].

(** [bundle.data.keys()]: the list of keys when the loop starts. *)
Definition keys (d : gmap string pyval) : list string := (map_to_list d).*1.

Definition dehydrate {O} (bundle : Bundle O) : Bundle O :=
  set_data
    (foldl (λ d key, if bool_decide (key ∈ accessible_keys) then d
                     else delete key d)
           (data bundle) (keys (data bundle)))
    bundle.

(** [getattr(bundle.obj, 'id', False)] as a condition. *)
Definition truthy (i : option Z) : bool :=
  match i with
  | Some n => bool_decide (n ≠ 0)
  | None => false
  end.

(** Iterating over [bundle.data['settings']]. *)
Definition iter_settings (v : pyval) : result (list (gmap string string)) :=
  match v with
  | VDicts l => Ok l
  | VStr "" => Ok []
  | _ => Raise TypeError
  end.

Definition save_setting (s : UploaderSetting) : M UploaderSetting :=
  save_in uploader_settings set_uploader_settings s.

(** The body of the loop over the settings of the payload. *)
Definition upsert_setting (uploader_pk : Z) (setting : gmap string string)
  : M unit :=
  key ← lift (getitem setting "key");
  try_except
    (uploader_setting ←
       (λ w, (objects_get
                (λ s, bool_decide (setting_uploader s = uploader_pk) &&
                      bool_decide (setting_key s = key))
                (uploader_settings w), w));
     value ← lift (getitem setting "value");
     mret (set_setting_value value uploader_setting))
    (λ e, match e with
          | DoesNotExist =>
              key ← lift (getitem setting "key");
              value ← lift (getitem setting "value");
              mret {| setting_id := None; setting_uploader := uploader_pk;
                      setting_key := key; setting_value := value |}
          | _ => raise e
          end)
  ≫= λ uploader_setting, save_setting uploader_setting ≫= λ _, mret ().

Section WithHost.
Context `{Host}.

(** The part of [hydrate_m2m] before the call of the parent's. *)
Definition hydrate_settings (bundle : Bundle Uploader)
  : M (Bundle Uploader) :=
  match uploader_id (obj bundle) with
  | Some uploader_pk =>
      if truthy (Some uploader_pk) &&
         bool_decide (is_Some (data bundle !! "settings"))
      then
        settings ← lift (getitem (data bundle) "settings" ≫= iter_settings);
        _ ← for_each (upsert_setting uploader_pk) settings;
        let bundle := set_data (delete "settings" (data bundle)) bundle in
        now ← datetime_now;
        let bundle :=
          set_obj (set_settings_updated now (obj bundle)) bundle in
        _ ← save_in uploaders set_uploaders (columns (obj bundle));
        mret bundle
      else mret bundle
  | None => mret bundle
  end.

Definition hydrate_m2m (bundle : Bundle Uploader) : M (Bundle Uploader) :=
  bundle ← hydrate_settings bundle;
  super_hydrate_m2m bundle.

(** The bundle [obj_create] hands to the parent's [obj_create]. *)
Definition obj_create (bundle : Bundle Uploader) : M (Bundle Uploader) :=
  created ← datetime_now;
  let bundle := set_data (<["created_time" := VTime created]> (data bundle))
                         bundle in
  updated ← datetime_now;
  let bundle := set_data (<["updated_time" := VTime updated]> (data bundle))
                         bundle in
  let bundle :=
    match get_ip (request bundle) with
    | Some ip =>
        set_data (<["wan_ip_address" := VStr ip]> (data bundle)) bundle
    | None => bundle
    end in
  super_obj_create bundle.

(** [None] is the bare [return] of the workaround. *)
Definition obj_update (bundle : Bundle Uploader)
  : M (option (Bundle Uploader)) :=
  if bool_decide (is_Some (obj_update_done bundle)) then mret None
  else
    updated ← datetime_now;
    let bundle :=
      set_data (<["updated_time" := VTime updated]> (data bundle)) bundle in
    let bundle :=
      match get_ip (request bundle) with
      | Some ip =>
          set_data (<["wan_ip_address" := VStr ip]> (data bundle)) bundle
      | None => bundle
      end in
    bundle ← super_obj_update bundle;
    mret (Some (set_obj_update_done (Some true) bundle)).
End WithHost.
End UploaderAppResource.

Module UploaderRegistrationRequestAppResource.
(** [Meta.filtering]; [ALL_WITH_RELATIONS] is left out, it is not a
    list of lookup types. *)
Definition filtering : list (string * list string) :=
  [("id", ["exact"]); ("approved", ["exact"]);
   ("requester_key_fingerprint", ["exact"])].

Section WithHost.
Context `{Host}.

Definition hydrate (bundle : Bundle UploaderRegistrationRequest)
  : M (Bundle UploaderRegistrationRequest) :=
  bundle ← super_hydrate bundle;
  now ← datetime_now;
  mret (set_data (<["request_time" := VTime now]> (data bundle)) bundle).
End WithHost.

Definition nl : string := String (ascii_of_nat 10) "".

Definition subject : string :=
  "[MyTardis] Uploader Registration Request Created".

(** The message, with [%s] and [%d] filled in. *)
Definition message (site : string) (id : Z) : string :=
  "Hi, this message is for MyTardis Admins." +:+ nl +:+ nl +:+
  "An uploader registration request has just been created:" +:+ nl +:+ nl +:+
  site +:+ "/admin/mydata/uploaderregistrationrequest/" +:+ pretty id
  +:+ nl +:+ nl +:+
  "Thanks," +:+ nl +:+
  "MyTardis" +:+ nl.

Section WithNotifier.
Context `{Notifier}.

(** The body of the [try]: [%d] of an id that is [None] is a
    TypeError.  The calls of the logger are left out. *)
Definition inform_admins (bundle : Bundle UploaderRegistrationRequest)
  : M unit :=
  site ← current_site_domain;
  text ← lift (match request_id (obj bundle) with
               | Some id => Ok (message site id)
               | None => Raise TypeError
               end);
  mail_admins subject text.

Definition obj_create (bundle : Bundle UploaderRegistrationRequest)
  : M (Bundle UploaderRegistrationRequest) :=
  bundle ← super_request_obj_create bundle;
  _ ← try_except (inform_admins bundle) (λ _, mret ());
  mret bundle.

(** The worlds that creations of registration requests through the
    resource lead to, from a world that has none. *)
Inductive created : World → Prop :=
  | created_none w : registration_requests w = [] → created w
  | created_obj_create bundle w :
      created w → created (obj_create bundle w).2.
End WithNotifier.
End UploaderRegistrationRequestAppResource.

(** [for x in l: acc = body(acc, x)] where the body may raise. *)
Fixpoint fold_result {A S} (body : S → A → result S) (s : S) (l : list A)
  : result S :=
  match l with
  | [] => Ok s
  | x :: l' => body s x ≫= λ s', fold_result body s' l'
  end.

Module ExperimentAppResource.
Section WithText.
Context {text : Text}.

Definition default_experiment_namespace : string :=
  "http://mytardis.org/schemas/mydata/defaultexperiment".

(** [class UnknownUser]: an object with the two attributes of a user
    that the scan reads. *)
Definition UnknownUser (username email : option string) : User :=
  {| username := default "UNKNOWN" username;
     email := default "UNKNOWN" email |}.

(** The guess made when the request names no folder structure. *)
Definition guess_folder_structure (GET : gmap string string) : option string :=
  match GET !! "folder_structure" with
  | Some _ => None
  | None =>
      if match GET !! "group_folder_name" with
         | Some g => bool_decide (strip g ≠ "")
         | None => false
         end
      then Some "User Group / ..."
      else
        match GET !! "user_folder_name" with
        | Some u => if contains "@" u then Some "Email / ..."
                    else Some "Username / ..."
        | None => Some "Username / ..."
        end
  end.

(** The local variables both queries set before their scan.  A name
    that was not assigned on the path taken is [None]. *)
Record Locals := {
  need_to_match_user : bool;
  need_to_match_group : bool;
  user_to_match : option User;
  group_folder_name : option string;
}.

(** [if need_to_match_user: ...], with the binding of the local class
    [UnknownUser] at that point. *)
Definition find_user_to_match
    (UnknownUser_local : option (option string → option string → User))
    (folder_structure user_folder_name : string) (db : Database)
  : result (option User) :=
  if startswith folder_structure "Username /" then
    match objects_get (λ u, bool_decide (username u = user_folder_name))
                      (users db) with
    | Ok u => Ok (Some u)
    | Raise DoesNotExist =>
        new ← read_local "UnknownUser" UnknownUser_local;
        Ok (Some (new (Some user_folder_name) None))
    | Raise e => Raise e
    end
  else if startswith folder_structure "Email /" then
    match objects_get
            (λ u, iexact (email u) user_folder_name)
            (users db) with
    | Ok u => Ok (Some u)
    | Raise DoesNotExist =>
        new ← read_local "UnknownUser" UnknownUser_local;
        Ok (Some (new None (Some user_folder_name)))
    | Raise e => Raise e
    end
  else Ok None.

(** The statements from [folder_structure = GET['folder_structure']]
    to [group_folder_name = GET['group_folder_name']]. *)
Definition bind_locals
    (UnknownUser_local : option (option string → option string → User))
    (guessed : option string) (GET : gmap string string) (db : Database)
  : result Locals :=
  folder_structure ←
    match GET !! "folder_structure" with
    | Some fs => Ok fs
    | None => match guessed with
              | Some fs => Ok fs
              | None => Raise AttributeError
              end
    end;
  let need_user := startswith folder_structure "Username /" ||
                   startswith folder_structure "Email /" in
  let need_group := startswith folder_structure "User Group /" in
  to_match ←
    (if need_user then
       user_folder_name ← getitem GET "user_folder_name";
       find_user_to_match UnknownUser_local folder_structure
                          user_folder_name db
     else Ok None);
  group ←
    (if need_group then
       g ← getitem GET "group_folder_name";
       Ok (Some g)
     else Ok None);
  Ok {| need_to_match_user := need_user;
        need_to_match_group := need_group;
        user_to_match := to_match;
        group_folder_name := group |}.

(** [ExperimentParameter.objects.filter(parameterset=exp_pset)] *)
Definition params_of (db : Database) (exp_pset : ExperimentParameterSet)
  : list ExperimentParameter :=
  filter (λ p, parameterset p = pset_id exp_pset) (parameters db).

(** The comparison of a parameter with the user to match. *)
Definition user_matches (u : User) (exp_param : ExperimentParameter) : bool :=
  bool_decide (lower (string_value exp_param) = lower (username u)) ||
  bool_decide (lower (string_value exp_param) = lower (email u)).

(** The end of both scans, for a parameter set that matched: the
    experiment is returned when the requesting user may see it. *)
Definition accessible_experiment (db : Database) (requester : AuthUser)
    (exp_pset : ExperimentParameterSet)
  : result (option (list (Z * Experiment))) :=
  experiment_id ←
    match experiments db !! pset_experiment exp_pset with
    | Some _ => Ok (pset_experiment exp_pset)
    | None => Raise DoesNotExist
    end;
  let exp_list :=
    match experiments db !! experiment_id with
    | Some e => [(experiment_id, e)]
    | None => []
    end in
  first ← match exp_list with
          | e :: _ => Ok e
          | [] => Raise IndexError
          end;
  if bool_decide (first.1 ∈ safe_all db requester) then Ok (Some exp_list)
  else Ok None.

(** *** The title query *)

Definition title_step (L : Locals) (matched : bool * bool)
    (exp_param : ExperimentParameter) : result (bool * bool) :=
  let '(matched_user, matched_group) := matched in
  matched_user ←
    (if need_to_match_user L &&
        bool_decide (param_name exp_param = "user_folder_name")
     then
       u ← read_local "user_to_match" (user_to_match L);
       Ok (if user_matches u exp_param then true else matched_user)
     else Ok matched_user);
  matched_group ←
    (if need_to_match_group L &&
        bool_decide (param_name exp_param = "group_folder_name")
     then
       g ← read_local "group_folder_name" (group_folder_name L);
       Ok (if bool_decide (string_value exp_param = g) then true
           else matched_group)
     else Ok matched_group);
  Ok (matched_user, matched_group).

Fixpoint title_scan (db : Database) (requester : AuthUser) (L : Locals)
    (exp_psets : list ExperimentParameterSet)
  : result (list (Z * Experiment)) :=
  match exp_psets with
  | [] => Ok []
  | exp_pset :: rest =>
      '(matched_user, matched_group) ←
        fold_result (title_step L) (false, false) (params_of db exp_pset);
      if (need_to_match_user L && matched_user) ||
         (need_to_match_group L && matched_group) ||
         (negb (need_to_match_user L) && negb (need_to_match_group L))
      then
        found ← accessible_experiment db requester exp_pset;
        match found with
        | Some exp_list => Ok exp_list
        | None => title_scan db requester L rest
        end
      else title_scan db requester L rest
  end.

(** [Schema.objects.get(namespace=...)] *)
Definition get_default_schema (db : Database) : result Schema :=
  objects_get (λ s, bool_decide (namespace s = default_experiment_namespace))
              (schemas db).

Definition title_psets (db : Database) (title_wanted : string)
    (schema : Schema) : list ExperimentParameterSet :=
  filter (λ ps, pset_schema ps = schema_id schema ∧
                title <$> (experiments db !! pset_experiment ps)
                  = Some title_wanted)
         (parametersets db).

Definition title_query (guessed : option string) (req : Request)
    (db : Database) : result (list (Z * Experiment)) :=
  title_wanted ← getitem (GET req) "title";
  L ← bind_locals (Some UnknownUser) guessed (GET req) db;
  schema ← get_default_schema db;
  title_scan db (user req) L (title_psets db title_wanted schema).

(** *** The uploader query

    The class statement of [UnknownUser] is in the title query, which
    always returns: on the way here the name is not bound. *)

Definition uploader_step (uploader_uuid : string) (L : Locals)
    (matched : bool * bool * bool) (exp_param : ExperimentParameter)
  : result (bool * bool * bool) :=
  let '(matched_uploader_uuid, matched_user, matched_group) := matched in
  let matched_uploader_uuid :=
    if bool_decide (param_name exp_param = "uploader") &&
       bool_decide (string_value exp_param = uploader_uuid)
    then true else matched_uploader_uuid in
  matched_user ←
    (if need_to_match_user L &&
        bool_decide (param_name exp_param = "user_folder_name")
     then
       u ← read_local "user_to_match" (user_to_match L);
       Ok (if user_matches u exp_param then true else matched_user)
     else Ok matched_user);
  matched_group ←
    (if bool_decide (param_name exp_param = "group_folder_name")
     then
       g ← read_local "group_folder_name" (group_folder_name L);
       Ok (if bool_decide (string_value exp_param = g) then true
           else matched_group)
     else Ok matched_group);
  Ok (matched_uploader_uuid, matched_user, matched_group).

Fixpoint uploader_scan (db : Database) (requester : AuthUser)
    (uploader_uuid : string) (L : Locals)
    (exp_psets : list ExperimentParameterSet)
  : result (list (Z * Experiment)) :=
  match exp_psets with
  | [] => Ok []
  | exp_pset :: rest =>
      '(matched_uploader_uuid, matched_user, matched_group) ←
        fold_result (uploader_step uploader_uuid L) (false, false, false)
                    (params_of db exp_pset);
      if matched_uploader_uuid &&
         ((need_to_match_user L && matched_user) ||
          (need_to_match_group L && matched_group))
      then
        found ← accessible_experiment db requester exp_pset;
        match found with
        | Some exp_list => Ok exp_list
        | None => uploader_scan db requester uploader_uuid L rest
        end
      else uploader_scan db requester uploader_uuid L rest
  end.

Definition default_psets (db : Database) (schema : Schema)
  : list ExperimentParameterSet :=
  filter (λ ps, pset_schema ps = schema_id schema) (parametersets db).

Definition uploader_query (guessed : option string) (req : Request)
    (db : Database) : result (list (Z * Experiment)) :=
  uploader_uuid ← getitem (GET req) "uploader";
  L ← bind_locals None guessed (GET req) db;
  schema ← get_default_schema db;
  uploader_scan db (user req) uploader_uuid L (default_psets db schema).

Definition has_key (GET : gmap string string) (key : string) : bool :=
  bool_decide (is_Some (GET !! key)).

Definition obj_get_list `{Host} (req : Request) (db : Database)
  : result (list (Z * Experiment)) :=
  let folder_structure := guess_folder_structure (GET req) in
  if has_key (GET req) "title" &&
     (has_key (GET req) "user_folder_name" ||
      has_key (GET req) "group_folder_name")
  then title_query folder_structure req db
  else if has_key (GET req) "uploader" &&
          (has_key (GET req) "user_folder_name" ||
           has_key (GET req) "group_folder_name")
  then uploader_query folder_structure req db
  else super_obj_get_list req db.
End WithText.
End ExperimentAppResource.

Module DataFileAppResource.
Section WithHost.
Context `{Host}.

(** The [try] around the parent's [obj_create] and its handler for
    [IntegrityError]. *)
Definition create_datafile (bundle : Bundle DataFile) : M (Bundle DataFile) :=
  try_except (super_datafile_obj_create bundle)
    (λ err, match err with
            | IntegrityError msg =>
                if contains "duplicate key" msg
                then raise (ImmediateHttpResponse 409)
                else raise err
            | _ => raise err
            end).

(** [self.temp_url = ...] *)
Definition store_temp_url (url : string) : M unit := λ w,
  (Ok (), set_temp_url (Some url) w).

(** [not v] *)
Definition falsy (v : pyval) : bool :=
  match v with
  | VNone | VBool false | VInt 0 | VStr "" | VDicts [] => true
  | _ => false
  end.

(** The body of the inner [try].  [Uploader] has no field [uuid], so
    the lookup by it is a FieldError; a registration request read from
    its table has no attribute [approved_storage_box] (the class
    declares [approved_staging_host]), so reading it is an
    AttributeError. *)
Definition approved_box (bundle : Bundle DataFile) (datafile : DataFile)
  : M (option Z) := λ w,
  match data bundle !! "uploader_uuid",
        data bundle !! "requester_key_fingerprint" with
  | Some uploader_uuid, Some fingerprint => (Raise FieldError, w)
  | _, _ =>
      let ip := get_ip (request bundle) in
      (instrument_id ←
         match dataset_instrument datafile with
         | Some i => Ok i
         | None => Raise AttributeError
         end;
       let first_uploader :=
         head (filter (λ u, wan_ip_address u = ip ∧
                            instrument_id ∈ instruments u)
                      (uploaders w)) in
       uploader_registration_request ←
         objects_get
           (λ r, bool_decide (Some (uploader r)
                              = first_uploader ≫= uploader_id))
           (registration_requests w);
       Raise AttributeError,
       w)
  end.

Definition obj_create (bundle : Bundle DataFile) : M (Bundle DataFile) :=
  retval ← create_datafile bundle;
  if match data retval !! "replicas" with
     | None => true
     | Some replicas => falsy replicas
     end
  then
    let datafile := obj retval in
    sbox ← try_except (approved_box retval datafile)
                      (λ _, get_receiving_storage_box datafile);
    match sbox with
    | None => raise NotImplementedError
    | Some box =>
        url ← create_dfo datafile box;
        _ ← store_temp_url url;
        mret retval
    end
  else mret retval.
End WithHost.
End DataFileAppResource.

(** ** Sample hosts and requests

    Concrete inputs on which the properties below are run. *)

Definition no_host_super {A B C} : A → B → result C :=
  λ _ _, Raise (HostError "parent").

(** A host given by who manages facilities and by what the parent's
    creation of a data file does.  The clock reads 1000, 1001, ...; the
    other parent methods pass bundles through. *)
Definition sample_host (facilities : AuthUser → list Z)
    (create : Bundle DataFile → M (Bundle DataFile)) : Host := {|
  facilities_managed_by := facilities;
  has_datafile_access := λ _ _, false;
  super_read_list := no_host_super;
  super_read_detail := no_host_super;
  super_create_detail := no_host_super;
  super_update_detail := no_host_super;
  get_ip := λ req, META req !! "REMOTE_ADDR";
  clock := λ n, 1000 + Z.of_nat n;
  super_obj_create := λ b, mret b;
  super_obj_update := λ b, mret b;
  super_hydrate_m2m := λ b, mret b;
  super_hydrate := λ b, mret b;
  super_obj_get_list := no_host_super;
  super_datafile_obj_create := create;
  get_receiving_storage_box := λ _, mret None;
  create_dfo := λ _ _, mret "";
|}.

(** Nobody manages a facility. *)
Definition bare_host : Host := sample_host (λ _, []) mret.

(** The database already holds the data file. *)
Definition duplicate_host : Host :=
  sample_host (λ _, []) (λ _, raise duplicate_key).

(** Every authenticated user manages facility 1. *)
Definition manager_host : Host := sample_host (λ _, [1]) mret.

Definition manager : AuthUser :=
  {| auth_user_id := 7; is_authenticated := true; is_superuser := false |}.

Definition anonymous : AuthUser :=
  {| auth_user_id := 0; is_authenticated := false; is_superuser := false |}.

Definition blank_uploader : Uploader :=
  {| uploader_id := None; name := ""; contact_name := "";
     contact_email := ""; instruments := [];
     user_agent_name := None; user_agent_version := None;
     user_agent_install_location := None;
     os_platform := None; os_system := None; os_release := None;
     os_version := None; os_username := None;
     machine := None; architecture := None; processor := None;
     memory := None; cpus := None; disk_usage := None; data_path := None;
     default_user := None; interface := ""; mac_address := "";
     ipv4_address := None; ipv6_address := None; subnet_mask := None;
     hostname := None; wan_ip_address := None;
     created_time := None; updated_time := None; attrs := ∅ |}.

Definition get_request (params : gmap string string) (u : AuthUser) : Request :=
  {| GET := params; META := ∅; user := u |}.

Definition bundle_of {O} (o : O) (d : gmap string pyval) (req : Request)
  : Bundle O :=
  {| obj := o; data := d; request := req; obj_update_done := None |}.

Definition empty_world : World :=
  {| reads := 0; uploaders := []; uploader_settings := [];
     registration_requests := []; temp_url := None |}.

Definition sample_uploader (pk_ : option Z) (mac : string) : Uploader :=
  {| uploader_id := pk_; name := "scope"; contact_name := "";
     contact_email := ""; instruments := [];
     user_agent_name := None; user_agent_version := None;
     user_agent_install_location := None;
     os_platform := None; os_system := None; os_release := None;
     os_version := None; os_username := None;
     machine := None; architecture := None; processor := None;
     memory := None; cpus := None; disk_usage := None; data_path := None;
     default_user := None; interface := "eth0"; mac_address := mac;
     ipv4_address := None; ipv6_address := None; subnet_mask := None;
     hostname := None; wan_ip_address := None;
     created_time := None; updated_time := None; attrs := ∅ |}.

Definition sample_request (pk_ : option Z) (uploader_pk : Z)
    (fingerprint : string) : UploaderRegistrationRequest :=
  {| request_id := pk_; uploader := uploader_pk;
     requester_name := "ann"; requester_email := "ann@example.org";
     requester_public_key := "ssh-rsa AAAA";
     requester_key_fingerprint := fingerprint;
     request_time := None; approved := false;
     approved_staging_host := None; approved_username := None;
     approver_comments := None; approval_expiry := None;
     approval_time := None |}.

(** ** Strings of ASCII characters

    What [lower()], [strip()] and [iexact] do on strings of ASCII
    characters: the letters A to Z have a lower case, and the white
    space is the characters 9 to 13 and 28 to 32.  The sample requests
    and databases below hold such strings only. *)

Definition ascii_lower_char (c : ascii) : ascii :=
  let n := nat_of_ascii c in
  if bool_decide (65 ≤ n ≤ 90)%nat then ascii_of_nat (n + 32) else c.

Fixpoint ascii_lower (s : string) : string :=
  match s with
  | EmptyString => EmptyString
  | String c s' => String (ascii_lower_char c) (ascii_lower s')
  end.

Definition ascii_isspace (c : ascii) : bool :=
  let n := nat_of_ascii c in
  bool_decide (9 ≤ n ≤ 13 ∨ 28 ≤ n ≤ 32)%nat.

Fixpoint ascii_lstrip (s : string) : string :=
  match s with
  | EmptyString => EmptyString
  | String c s' => if ascii_isspace c then ascii_lstrip s' else s
  end.

Fixpoint ascii_rstrip (s : string) : string :=
  match s with
  | EmptyString => EmptyString
  | String c s' =>
      match ascii_rstrip s' with
      | EmptyString =>
          if ascii_isspace c then EmptyString else String c EmptyString
      | r => String c r
      end
  end.

Definition ascii_text : Text := {|
  lower := ascii_lower;
  strip := λ s, ascii_rstrip (ascii_lstrip s);
  iexact := λ a b, bool_decide (ascii_lower a = ascii_lower b);
|}.

(** ** The experiment queries in the words of the specification

    These definitions follow the specification, not the code: the
    folder structure of a request, the account a user folder name
    stands for, what it is for a parameter set to hold a matching
    parameter, and the first experiment of a scan that satisfies a
    condition. *)
Module ExperimentSpec.
Import ExperimentAppResource.
Section WithText.
Context {text : Text}.

(** The folder structure the request names, or the one guessed. *)
Definition folder_structure_of (params : gmap string string) : string :=
  match params !! "folder_structure" with
  | Some fs => fs
  | None => default "" (guess_folder_structure params)
  end.

Definition needs_user (fs : string) : bool :=
  startswith fs "Username /" || startswith fs "Email /".

Definition needs_group (fs : string) : bool :=
  startswith fs "User Group /".

Definition user_folder_of (params : gmap string string) : string :=
  default "" (params !! "user_folder_name").

Definition group_folder_of (params : gmap string string) : string :=
  default "" (params !! "group_folder_name").

(** Whether an account is the one a user folder name stands for: by
    username, or by email without regard to case. *)
Definition account_lookup (fs user_folder_name : string) (u : User) : bool :=
  if startswith fs "Username /"
  then bool_decide (username u = user_folder_name)
  else iexact (email u) user_folder_name.

Definition accounts (db : Database) (fs user_folder_name : string)
  : list User :=
  filter (λ u, account_lookup fs user_folder_name u = true) (users db).

(** The matched user: the account found, or the unknown-user
    placeholder that carries the folder name. *)
Definition account_to_match (db : Database) (fs user_folder_name : string)
  : User :=
  match accounts db fs user_folder_name with
  | u :: _ => u
  | [] =>
      if startswith fs "Username /"
      then {| username := user_folder_name; email := "UNKNOWN" |}
      else {| username := "UNKNOWN"; email := user_folder_name |}
  end.

Definition has_user_folder (db : Database) (u : User)
    (ps : ExperimentParameterSet) : bool :=
  existsb (λ p, bool_decide (param_name p = "user_folder_name") &&
                user_matches u p)
          (params_of db ps).

Definition has_group_folder (db : Database) (group : string)
    (ps : ExperimentParameterSet) : bool :=
  existsb (λ p, bool_decide (param_name p = "group_folder_name") &&
                bool_decide (string_value p = group))
          (params_of db ps).

Definition has_uploader (db : Database) (uploader_uuid : string)
    (ps : ExperimentParameterSet) : bool :=
  existsb (λ p, bool_decide (param_name p = "uploader") &&
                bool_decide (string_value p = uploader_uuid))
          (params_of db ps).

Definition named_group (p : ExperimentParameter) : bool :=
  bool_decide (param_name p = "group_folder_name").

(** The experiment of the parameter set exists and the requesting
    user may see it. *)
Definition accessible (db : Database) (requester : AuthUser)
    (ps : ExperimentParameterSet) : bool :=
  bool_decide (is_Some (experiments db !! pset_experiment ps) ∧
               pset_experiment ps ∈ safe_all db requester).

(** The user folder matches when the folder structure asks for a user
    match, and the group folder when it asks for a group match. *)
Definition folder_match (params : gmap string string) (db : Database)
    (ps : ExperimentParameterSet) : bool :=
  let fs := folder_structure_of params in
  (if needs_user fs
   then has_user_folder db
          (account_to_match db fs (user_folder_of params)) ps
   else true) &&
  (if needs_group fs
   then has_group_folder db (group_folder_of params) ps
   else true).

(** One parameter set holds the uploader and the folder asked for. *)
Definition uploader_and_folder_match (params : gmap string string)
    (db : Database) (uploader_uuid : string) (ps : ExperimentParameterSet)
  : bool :=
  let fs := folder_structure_of params in
  has_uploader db uploader_uuid ps &&
  ((needs_user fs &&
    has_user_folder db (account_to_match db fs (user_folder_of params)) ps)
   || (needs_group fs &&
       has_group_folder db (group_folder_of params) ps)).

(** The local variables of a query whose lookups succeed. *)
Definition locals_of (params : gmap string string) (db : Database)
  : Locals :=
  let fs := folder_structure_of params in
  {| need_to_match_user := needs_user fs;
     need_to_match_group := needs_group fs;
     user_to_match :=
       if needs_user fs
       then Some (account_to_match db fs (user_folder_of params))
       else None;
     group_folder_name :=
       if needs_group fs then Some (group_folder_of params) else None |}.

(** The one-element list of the experiment of the first parameter set
    that satisfies [P], or the empty list. *)
Definition first_experiment (db : Database)
    (P : ExperimentParameterSet → bool)
    (psets : list ExperimentParameterSet) : list (Z * Experiment) :=
  match List.find P psets with
  | Some ps =>
      match experiments db !! pset_experiment ps with
      | Some e => [(pset_experiment ps, e)]
      | None => []
      end
  | None => []
  end.
End WithText.
End ExperimentSpec.

(** *** A small portal database

    One account, the default-experiment schema, two experiments with a
    default parameter set each: experiment 1 of user folder [alice],
    experiment 2 of group folder [lab-a] for uploader [u-1]. *)
Definition sample_db : Database :=
  {| users := [{| username := "alice"; email := "Alice@Example.org" |}];
     schemas :=
       [{| schema_id := 5;
           namespace := ExperimentAppResource.default_experiment_namespace |}];
     experiments :=
       <[1 := {| title := "T" |}]> (<[2 := {| title := "G" |}]> ∅);
     parametersets :=
       [{| pset_id := 10; pset_experiment := 1; pset_schema := 5 |};
        {| pset_id := 20; pset_experiment := 2; pset_schema := 5 |}];
     parameters :=
       [{| parameterset := 10; param_name := "user_folder_name";
           string_value := "Alice" |};
        {| parameterset := 20; param_name := "uploader";
           string_value := "u-1" |};
        {| parameterset := 20; param_name := "group_folder_name";
           string_value := "lab-a" |}];
     safe_all := λ _, [1; 2] |}.

Definition query (params : list (string * string)) : Request :=
  get_request (list_to_map params) manager.

(** ** The upsert of settings in the words of the specification *)
Module SettingsSpec.
(** The setting of uploader [u] with key [k]. *)
Definition for_setting (u : Z) (k : string) (s : UploaderSetting) : bool :=
  bool_decide (setting_uploader s = u) && bool_decide (setting_key s = k).

(** The values the table holds for uploader [u] and key [k]. *)
Definition stored (u : Z) (k : string) (tbl : list UploaderSetting)
  : list string :=
  setting_value <$> filter (λ s, for_setting u k s = true) tbl.

(** If a setting with that uploader and key exists its value is
    overwritten, otherwise a new setting is created. *)
Definition upsert_row (u : Z) (k v : string) (tbl : list UploaderSetting)
  : list UploaderSetting :=
  if existsb (for_setting u k) tbl
  then (λ s, if for_setting u k s then set_setting_value v s else s) <$> tbl
  else tbl ++ [{| setting_id := Some (fresh_pk tbl); setting_uploader := u;
                  setting_key := k; setting_value := v |}].

Definition upsert_entry (u : Z) (tbl : list UploaderSetting)
    (entry : gmap string string) : list UploaderSetting :=
  match entry !! "key", entry !! "value" with
  | Some k, Some v => upsert_row u k v tbl
  | _, _ => tbl
  end.

(** The value of the last entry of the payload with key [k]. *)
Fixpoint sent_value (settings : list (gmap string string)) (k : string)
  : option string :=
  match settings with
  | [] => None
  | entry :: rest =>
      match sent_value rest k with
      | Some v => Some v
      | None => if bool_decide (entry !! "key" = Some k)
                then entry !! "value" else None
      end
  end.
End SettingsSpec.

Definition sample_setting (pk_ : option Z) (u : Z) (k v : string)
  : UploaderSetting :=
  {| setting_id := pk_; setting_uploader := u;
     setting_key := k; setting_value := v |}.

(** A world with uploader 1 and its setting [folder]. *)
Definition sample_world : World :=
  {| reads := 0;
     uploaders := [sample_uploader (Some 1) "00:11"];
     uploader_settings := [sample_setting (Some 1) 1 "folder" "/data"];
     registration_requests := [];
     temp_url := None |}.

(** An update of uploader 1 that sends two settings. *)
Definition sample_update : Bundle Uploader :=
  bundle_of (sample_uploader (Some 1) "00:11")
    {["settings" :=
        VDicts [<["key" := "folder"]> {["value" := "/mnt/data"]};
                <["key" := "interval"]> {["value" := "60"]}]]}
    (get_request ∅ manager).

(** An update of uploader 1 that sends a setting without its value. *)
Definition keyless_update : Bundle Uploader :=
  bundle_of (sample_uploader (Some 1) "00:11")
    {["settings" := VDicts [{["key" := "folder"]}]]}
    (get_request ∅ manager).

(** A world in which uploader 1 has two settings [folder]. *)
Definition doubled_world : World :=
  {| reads := 0;
     uploaders := [sample_uploader (Some 1) "00:11"];
     uploader_settings := [sample_setting (Some 1) 1 "folder" "/data";
                           sample_setting (Some 2) 1 "folder" "/mnt"];
     registration_requests := [];
     temp_url := None |}.

(** ** Replicas *)

(** An exception class of the host that [exn] has no constructor for. *)
Definition IOError : exn := HostError "IOError".

(** A data file object as [ReplicaAppResource.dehydrate] reads it: the
    name of its storage box, and what evaluating [dfo.file_object] and
    then [.size] gives.  [Ok None] is a file object that is [None]. *)
Record DataFileObject := {
  dfo_datafile : DataFile;
  storage_box_name : string;
  file_object : result (option (result Z));
}.

Module ReplicaAppResource.
(** [Meta.filtering] *)
Definition filtering : list (string * list string) :=
  [("verified", ["exact"]); ("url", ["exact"; "startswith"])].

(** What becomes of an exception raised inside the [try]: [getattr]
    with a default and the first handler absorb an AttributeError, the
    second handler an IOError. *)
Definition size_after (e : exn) : result (option Z) :=
  if bool_decide (e = AttributeError) then Ok None
  else if bool_decide (e = IOError) then Ok None
  else Raise e.

(** [getattr(getattr(dfo, 'file_object', None), 'size', None)] inside
    its [try]. *)
Definition file_object_size (dfo : DataFileObject) : result (option Z) :=
  match file_object dfo with
  | Ok None => Ok None
  | Ok (Some (Ok size)) => Ok (Some size)
  | Ok (Some (Raise e)) => size_after e
  | Raise e => size_after e
  end.

Definition dehydrate (bundle : Bundle DataFileObject)
  : result (Bundle DataFileObject) :=
  let dfo := obj bundle in
  let bundle :=
    set_data (<["location" := VStr (storage_box_name dfo)]> (data bundle))
             bundle in
  file_object_size ← file_object_size dfo;
  Ok (set_data (<["size" := match file_object_size with
                            | Some size => VInt size
                            | None => VNone
                            end]> (data bundle))
               bundle).
End ReplicaAppResource.

(** ** More sample hosts *)

(** A mail framework that is down: looking up the site works, sending
    raises. *)
Definition failing_notifier : Notifier := {|
  super_request_obj_create := λ b, mret b;
  current_site_domain := mret "tardis.example.org";
  mail_admins := λ _ _, raise (HostError "SMTPException");
|}.

(** The parent resource as Tastypie has it for a model: the object of
    the bundle is saved to its table.  The site is found and the mail
    sent. *)
Definition saving_notifier : Notifier := {|
  super_request_obj_create := λ b,
    saved ← save_in registration_requests set_registration_requests (obj b);
    mret (set_obj saved b);
  current_site_domain := mret "tardis.example.org";
  mail_admins := λ _ _, mret ();
|}.

(** The POST of a registration request of an uploader and a key. *)
Definition request_bundle (uploader_pk : Z) (fingerprint : string)
  : Bundle UploaderRegistrationRequest :=
  bundle_of (sample_request None uploader_pk fingerprint) ∅
            (get_request ∅ manager).

(** A host given by the receiving storage box of its data files. *)
Definition storage_host (receiving : option Z) : Host := {|
  facilities_managed_by := λ _, [1];
  has_datafile_access := λ _ _, false;
  super_read_list := no_host_super;
  super_read_detail := no_host_super;
  super_create_detail := no_host_super;
  super_update_detail := no_host_super;
  get_ip := λ req, META req !! "REMOTE_ADDR";
  clock := λ n, 1000 + Z.of_nat n;
  super_obj_create := λ b, mret b;
  super_obj_update := λ b, mret b;
  super_hydrate_m2m := λ b, mret b;
  super_hydrate := λ b, mret b;
  super_obj_get_list := no_host_super;
  super_datafile_obj_create := λ b, mret b;
  get_receiving_storage_box := λ _, mret receiving;
  create_dfo := λ _ box, mret ("/store/" +:+ pretty box);
|}.

(** A world with uploader 1 and its registration request. *)
Definition staging_world : World :=
  {| reads := 0;
     uploaders := [sample_uploader (Some 1) "00:11"];
     uploader_settings := [];
     registration_requests := [sample_request (Some 1) 1 "aa:bb"];
     temp_url := None |}.

Definition sample_datafile : DataFile :=
  {| datafile_id := 4; dataset_instrument := None |}.

(** A data file sent by uploader [u-1] with its key fingerprint. *)
Definition staged_upload : Bundle DataFile :=
  bundle_of sample_datafile
    (<["uploader_uuid" := VStr "u-1"]>
       {["requester_key_fingerprint" := VStr "aa:bb"]})
    (get_request ∅ manager).

(** * Properties *)

(** ** Authorization *)

(** C4.  The create-detail decision for an Uploader object is whether
    the requesting user manages a facility: a request whose user is not
    authenticated is refused, whatever the host and the payload. *)
Theorem create_detail_uploader_unauthenticated `{Host}
    (object_list : list Obj) (u : Uploader) (d : gmap string pyval)
    (params meta : gmap string string) (uid : Z) (super : bool) :
  ACLAuthorization.create_detail object_list
    (bundle_of (ObjUploader u) d
       {| GET := params; META := meta;
          user := {| auth_user_id := uid; is_authenticated := false;
                     is_superuser := super |} |})
  = Ok false.
Proof. reflexivity. Qed.

(** ** Dehydration of uploaders *)

Section Dehydrate.
Import UploaderAppResource.

Lemma strike_all_lookup (ks : list string) (d : gmap string pyval) key :
  foldl (λ d key, if bool_decide (key ∈ accessible_keys) then d
                  else delete key d) d ks !! key =
  if bool_decide (key ∈ ks ∧ key ∉ accessible_keys) then None else d !! key.
Proof.
  revert d. induction ks as [|k ks IH]; intros d; cbn [foldl].
  - rewrite bool_decide_eq_false_2; [done|]. intros [Hin _]. by inversion Hin.
  - rewrite IH. clear IH.
    destruct (decide (key ∈ accessible_keys)) as [Hacc|Hacc].
    + rewrite !(bool_decide_eq_false_2 (_ ∧ _)) by (by intros [_ ?]).
      case_bool_decide as Hk; [done|].
      rewrite lookup_delete_ne; [done|]. by intros ->.
    + destruct (decide (key ∈ ks)) as [Hin|Hin].
      * rewrite !(bool_decide_eq_true_2 (_ ∧ _)); [done| |done].
        split; [by right|done].
      * rewrite (bool_decide_eq_false_2 (key ∈ ks ∧ _)) by (by intros [? _]).
        destruct (decide (key = k)) as [->|Hne].
        -- rewrite (bool_decide_eq_false_2 (k ∈ accessible_keys)) by done.
           rewrite lookup_delete_eq.
           rewrite bool_decide_eq_true_2; [done|]. split; [by left|done].
        -- rewrite (bool_decide_eq_false_2 (_ ∧ _)).
           ++ case_bool_decide; [done|]. by rewrite lookup_delete_ne.
           ++ intros [Hk _]. apply elem_of_cons in Hk as [?|?]; done.
Qed.

Lemma elem_of_keys (d : gmap string pyval) key :
  key ∈ keys d ↔ is_Some (d !! key).
Proof.
  unfold keys. rewrite list_elem_of_fmap. split.
  - intros [[k v] [-> Hin]]. apply elem_of_map_to_list in Hin. by exists v.
  - intros [v Hv]. exists (key, v). split; [done|].
    by apply elem_of_map_to_list.
Qed.

(** What [dehydrate] leaves of the data: the accessible keys. *)
Lemma dehydrate_lookup {O} (bundle : Bundle O) key :
  data (dehydrate bundle) !! key =
  if bool_decide (key ∈ accessible_keys) then data bundle !! key else None.
Proof.
  unfold dehydrate. simpl. rewrite strike_all_lookup.
  case_bool_decide as Hk; case_bool_decide as Hacc; try done.
  - by destruct Hk.
  - destruct (data bundle !! key) eqn:E; [|done].
    exfalso. apply Hk. split; [|done]. apply elem_of_keys. by eexists.
Qed.
End Dehydrate.

(** C9.  After [dehydrate] the data of the bundle holds accessible keys
    only, and two bundles whose data agree on the accessible keys are
    dehydrated to equal data, whatever else their data and their
    uploader records hold. *)
Theorem dehydrate_hides_other_fields (b1 b2 : Bundle Uploader) :
  (∀ key, key ∈ UploaderAppResource.accessible_keys →
          data b1 !! key = data b2 !! key) →
  (∀ key, is_Some (data (UploaderAppResource.dehydrate b1) !! key) →
          key ∈ UploaderAppResource.accessible_keys) ∧
  data (UploaderAppResource.dehydrate b1)
  = data (UploaderAppResource.dehydrate b2).
Proof.
  intros Hagree. split.
  - intros key. rewrite dehydrate_lookup.
    case_bool_decide; [done|]. by intros [? ?].
  - apply map_eq. intros key. rewrite !dehydrate_lookup.
    case_bool_decide; [by apply Hagree|done].
Qed.

Lemma dehydrate_hides_other_fields_witness :
  data (UploaderAppResource.dehydrate
          (bundle_of blank_uploader
             (<["name" := VStr "scope"]>
                (<["mac_address" := VStr "00:11"]> ∅))
             (get_request ∅ anonymous)))
  = data (UploaderAppResource.dehydrate
            (bundle_of blank_uploader
               (<["name" := VStr "scope"]>
                  (<["hostname" := VStr "lab"]> ∅))
               (get_request ∅ anonymous))).
Proof.
  apply dehydrate_hides_other_fields.
  intros key Hkey. unfold UploaderAppResource.accessible_keys in Hkey.
  repeat (apply elem_of_cons in Hkey as [->|Hkey]);
    try (vm_compute; reflexivity).
  by apply elem_of_nil in Hkey.
Defined.

(** ** Creation of data files *)

(** C3.  When the parent's creation of the data file raises, a
    duplicate-key integrity error becomes the HTTP 409 response and
    every other exception leaves [obj_create] as it was raised, an
    integrity error without a duplicate key included. *)
Theorem datafile_duplicate_key_conflict `{Host}
    (bundle : Bundle DataFile) (w w' : World) (e : exn) :
  super_datafile_obj_create bundle w = (Raise e, w') →
  (∀ msg, e = IntegrityError msg → contains "duplicate key" msg = true →
     DataFileAppResource.obj_create bundle w
     = (Raise (ImmediateHttpResponse 409), w')) ∧
  (∀ msg, e = IntegrityError msg → contains "duplicate key" msg = false →
     DataFileAppResource.obj_create bundle w = (Raise e, w')) ∧
  ((∀ msg, e ≠ IntegrityError msg) →
     DataFileAppResource.obj_create bundle w = (Raise e, w')).
Proof.
  intros Hsuper.
  assert (Hcreate : DataFileAppResource.create_datafile bundle w =
            match e with
            | IntegrityError msg =>
                if contains "duplicate key" msg
                then (Raise (ImmediateHttpResponse 409), w')
                else (Raise e, w')
            | _ => (Raise e, w')
            end).
  { unfold DataFileAppResource.create_datafile, try_except.
    rewrite Hsuper. destruct e; try reflexivity.
    unfold raise. by destruct (contains _ _). }
  unfold DataFileAppResource.obj_create, mbind, M_bind.
  rewrite Hcreate. repeat split.
  - intros msg -> Hdup. by rewrite Hdup.
  - intros msg -> Hdup. by rewrite Hdup.
  - intros Hother. destruct e; try reflexivity. by destruct (Hother msg).
Qed.

Lemma datafile_duplicate_key_conflict_witness :
  DataFileAppResource.obj_create (H := duplicate_host)
    (bundle_of {| datafile_id := 1; dataset_instrument := None |} ∅
               (get_request ∅ anonymous))
    empty_world
  = (Raise (ImmediateHttpResponse 409), empty_world).
Proof.
  refine (proj1 (datafile_duplicate_key_conflict (H := duplicate_host)
                   _ empty_world empty_world duplicate_key _) _ _ _);
    reflexivity.
Defined.

(** ** Time stamps and addresses *)

(** C7.  [obj_create] hands the parent a bundle whose [created_time]
    and [updated_time] are the two readings of the clock it made, and
    whose [wan_ip_address] is the client address when there is one and
    is left as sent otherwise; [obj_update], on a bundle not yet marked
    as updated, does so with [updated_time] and the address; [hydrate]
    of a registration request sets [request_time] to the reading made
    after the parent's [hydrate]. *)
Theorem crud_hooks_stamp `{Host} :
  (∀ (bundle : Bundle Uploader) (w : World), ∃ stamped,
     UploaderAppResource.obj_create bundle w
     = super_obj_create stamped (set_reads (2 + reads w) w) ∧
     obj stamped = obj bundle ∧
     data stamped !! "created_time" = Some (VTime (clock (reads w))) ∧
     data stamped !! "updated_time" = Some (VTime (clock (S (reads w)))) ∧
     data stamped !! "wan_ip_address"
     = match get_ip (request bundle) with
       | Some ip => Some (VStr ip)
       | None => data bundle !! "wan_ip_address"
       end) ∧
  (∀ (bundle : Bundle Uploader) (w : World),
     obj_update_done bundle = None →
     ∃ stamped,
       UploaderAppResource.obj_update bundle w
       = (super_obj_update stamped ≫= λ b,
            mret (Some (set_obj_update_done (Some true) b)))
           (set_reads (1 + reads w) w) ∧
       obj stamped = obj bundle ∧
       data stamped !! "updated_time" = Some (VTime (clock (reads w))) ∧
       data stamped !! "wan_ip_address"
       = match get_ip (request bundle) with
         | Some ip => Some (VStr ip)
         | None => data bundle !! "wan_ip_address"
         end) ∧
  (∀ (bundle hydrated : Bundle UploaderRegistrationRequest) (w w1 : World),
     super_hydrate bundle w = (Ok hydrated, w1) →
     ∃ stamped,
       UploaderRegistrationRequestAppResource.hydrate bundle w
       = (Ok stamped, set_reads (S (reads w1)) w1) ∧
       obj stamped = obj hydrated ∧
       data stamped !! "request_time" = Some (VTime (clock (reads w1)))).
Proof.
  repeat split.
  - intros bundle w.
    unfold UploaderAppResource.obj_create, mbind, M_bind, datetime_now. simpl.
    eexists. split; [reflexivity|].
    destruct (get_ip (request bundle)) as [ip|]; simpl.
    + split; [done|]. by simplify_map_eq.
    + split; [done|]. by simplify_map_eq.
  - intros bundle w Hfresh.
    unfold UploaderAppResource.obj_update. rewrite Hfresh.
    rewrite bool_decide_eq_false_2 by (by intros [? ?]).
    unfold mbind at 1, M_bind at 1, datetime_now. simpl.
    eexists. split; [reflexivity|].
    destruct (get_ip (request bundle)) as [ip|]; simpl.
    + split; [done|]. by simplify_map_eq.
    + split; [done|]. by simplify_map_eq.
  - intros bundle hydrated w w1 Hsuper.
    unfold UploaderRegistrationRequestAppResource.hydrate, mbind, M_bind.
    rewrite Hsuper. simpl.
    eexists. split; [reflexivity|]. simpl. split; [done|]. by simplify_map_eq.
Qed.

Lemma crud_hooks_stamp_witness :
  ∃ stamped,
    UploaderAppResource.obj_update (H := bare_host)
      (bundle_of blank_uploader ∅
         {| GET := ∅; META := {["REMOTE_ADDR" := "10.0.0.7"]};
            user := anonymous |})
      empty_world
    = (Ok (Some (set_obj_update_done (Some true) stamped)),
       set_reads 1 empty_world) ∧
    data stamped !! "updated_time" = Some (VTime 1000) ∧
    data stamped !! "wan_ip_address" = Some (VStr "10.0.0.7").
Proof.
  destruct (proj1 (proj2 (crud_hooks_stamp (H := bare_host)))
              (bundle_of blank_uploader ∅
                 {| GET := ∅; META := {["REMOTE_ADDR" := "10.0.0.7"]};
                    user := anonymous |})
              empty_world eq_refl) as (stamped & Hrun & _ & Htime & Hip).
  exists stamped. split; [exact Hrun|]. split; [exact Htime|exact Hip].
Defined.

(** ** Tables under UNIQUE indexes *)

Section TableInvariant.
Context {R : Type} `{ModelLaws R}.

Lemma clashes_false (r : R) (others : list R) :
  clashes r others = false →
  ∀ key, key ∈ unique_indexes → ∀ r', r' ∈ others → key r' ≠ key r.
Proof.
  unfold clashes. intros Hno key Hkey r' Hr' Heq.
  assert (existsb
            (λ key, existsb (λ r', bool_decide (key r' = key r)) others)
            unique_indexes = true) as Hyes; [|congruence].
  apply existsb_exists. exists key. split; [by apply list_elem_of_In|].
  apply existsb_exists. exists r'. split; [by apply list_elem_of_In|].
  by apply bool_decide_eq_true_2.
Qed.

Lemma pk_below_fresh (tbl : list R) (r : R) (i : Z) :
  r ∈ tbl → pk r = Some i → i < fresh_pk tbl.
Proof.
  unfold fresh_pk. induction tbl as [|x tbl IH]; intros Hin Hpk.
  - by apply elem_of_nil in Hin.
  - apply elem_of_cons in Hin as [<-|Hin]; simpl.
    + rewrite Hpk. simpl. lia.
    + specialize (IH Hin Hpk). lia.
Qed.

Lemma fresh_pk_new (tbl : list R) : Some (fresh_pk tbl) ∉ pk <$> tbl.
Proof.
  intros Hin. apply list_elem_of_fmap in Hin as (r & Hpk & Hr).
  pose proof (pk_below_fresh tbl r (fresh_pk tbl) Hr (eq_sym Hpk)). lia.
Qed.

Lemma has_pk_false_existsb (i : Z) (tbl : list R) :
  existsb (has_pk i) tbl = false → Some i ∉ pk <$> tbl.
Proof.
  intros Hno Hin. apply list_elem_of_fmap in Hin as (r & Hpk & Hr).
  assert (existsb (has_pk i) tbl = true) as Hyes; [|congruence].
  apply existsb_exists. exists r. split; [by apply list_elem_of_In|].
  by apply bool_decide_eq_true_2.
Qed.

(** Appending a row that clashes with none keeps the table in order. *)
Lemma table_ok_snoc (r : R) (tbl : list R) :
  table_ok tbl → is_Some (pk r) → pk r ∉ pk <$> tbl →
  clashes r tbl = false → table_ok (tbl ++ [r]).
Proof.
  intros (Hsome & Hpks & Hkeys) Hr Hnew Hno. split; [|split].
  - apply Forall_app. split; [done|]. by constructor.
  - rewrite fmap_app. apply NoDup_app. repeat split; [done| |].
    + intros x Hx Hx'. apply list_elem_of_singleton in Hx'. by subst.
    + apply NoDup_singleton.
  - apply Forall_forall. intros key Hkey.
    rewrite Forall_forall in Hkeys.
    rewrite fmap_app. apply NoDup_app. repeat split; [by apply Hkeys| |].
    + intros x Hx Hx'. apply list_elem_of_singleton in Hx'. subst.
      apply list_elem_of_fmap in Hx as (r' & Heq & Hr').
      by apply (clashes_false r tbl Hno key Hkey r' Hr').
    + apply NoDup_singleton.
Qed.

(** Writing [r] over the row that has its primary key. *)
Lemma overwrite_pks (i : Z) (r : R) (tbl : list R) :
  pk r = Some i →
  pk <$> ((λ r', if has_pk i r' then r else r') <$> tbl) = pk <$> tbl.
Proof.
  intros Hpk. rewrite <- list_fmap_compose. apply list_fmap_ext.
  intros _ r' _. simpl. unfold has_pk. case_bool_decide; congruence.
Qed.

Lemma overwrite_absent (i : Z) (r : R) (tbl : list R) :
  Some i ∉ pk <$> tbl →
  (λ r', if has_pk i r' then r else r') <$> tbl = tbl.
Proof.
  intros Hno. rewrite <- (list_fmap_id tbl) at 2. apply list_fmap_ext.
  intros n r' Hr'. simpl. unfold has_pk. case_bool_decide as Hpk; [|done].
  exfalso. apply Hno. apply list_elem_of_fmap. exists r'. split; [done|].
  by eapply list_elem_of_lookup_2.
Qed.

Lemma overwrite_keys (key : R → list pyval) (i : Z) (r : R) (tbl : list R) :
  NoDup (pk <$> tbl) → NoDup (key <$> tbl) →
  (∀ r', r' ∈ tbl → has_pk i r' = false → key r' ≠ key r) →
  NoDup (key <$> ((λ r', if has_pk i r' then r else r') <$> tbl)).
Proof.
  induction tbl as [|x tbl IH]; intros Hpks Hkeys Hno; [constructor|].
  rewrite !fmap_cons in *.
  apply NoDup_cons in Hpks as [Hpx Hpks].
  apply NoDup_cons in Hkeys as [Hkx Hkeys].
  destruct (has_pk i x) eqn:Hx.
  - apply bool_decide_eq_true_1 in Hx.
    rewrite overwrite_absent by (by rewrite <- Hx).
    apply NoDup_cons. split; [|done].
    intros Hin. apply list_elem_of_fmap in Hin as (r' & Heq & Hr').
    apply (Hno r'); [by right| |done].
    apply bool_decide_eq_false_2. intros Hr. apply Hpx.
    apply list_elem_of_fmap. exists r'. split; [congruence|done].
  - apply NoDup_cons. split.
    + intros Hin. apply list_elem_of_fmap in Hin as (r1 & Heq & Hr1).
      apply list_elem_of_fmap in Hr1 as (r' & -> & Hr').
      destruct (has_pk i r').
      * by apply (Hno x); [left| |].
      * apply Hkx. apply list_elem_of_fmap. by exists r'.
    + apply IH; [done|done|]. intros r' Hr'. apply Hno. by right.
Qed.

Lemma save_table_ok (r r' : R) (tbl tbl' : list R) :
  table_ok tbl → save r tbl = Ok (r', tbl') → table_ok tbl'.
Proof.
  intros Hok. unfold save.
  destruct (pk r) as [i|] eqn:Hpk.
  - destruct (existsb (has_pk i) tbl) eqn:Hthere.
    + destruct (clashes r _) eqn:Hno; [done|]. intros [= <- <-].
      destruct Hok as (Hsome & Hpks & Hkeys). split; [|split].
      * apply Forall_fmap. eapply Forall_impl; [exact Hsome|].
        intros x Hx. simpl. destruct (has_pk i x); [by rewrite Hpk|done].
      * by rewrite overwrite_pks.
      * apply Forall_forall. intros key Hkey.
        rewrite Forall_forall in Hkeys.
        apply overwrite_keys; [done|by apply Hkeys|].
        intros x Hx Hpx. apply (clashes_false _ _ Hno key Hkey).
        by apply list_elem_of_filter.
    + destruct (clashes r tbl) eqn:Hno; [done|]. intros [= <- <-].
      apply table_ok_snoc; [done|by rewrite Hpk| |done].
      rewrite Hpk. by apply has_pk_false_existsb.
  - destruct (clashes _ tbl) eqn:Hno; [done|]. intros [= <- <-].
    apply table_ok_snoc; [done|by rewrite pk_set_pk| |done].
    rewrite pk_set_pk. apply fresh_pk_new.
Qed.

Lemma delete_table_ok (i : Z) (tbl : list R) :
  table_ok tbl → table_ok (delete_row i tbl).
Proof.
  intros (Hsome & Hpks & Hkeys). unfold delete_row. split; [|split].
  - rewrite Forall_forall in Hsome. apply Forall_forall.
    intros x Hx. apply list_elem_of_filter in Hx as [_ Hx]. by apply Hsome.
  - eapply sublist_NoDup; [exact Hpks|].
    apply fmap_sublist, sublist_filter.
  - apply Forall_forall. intros key Hkey.
    rewrite Forall_forall in Hkeys.
    eapply sublist_NoDup; [by apply Hkeys|].
    apply fmap_sublist, sublist_filter.
Qed.

Lemma reachable_table_ok (tbl : list R) : reachable tbl → table_ok tbl.
Proof.
  induction 1 as [|r tbl r' tbl' _ IH Hsave|i tbl _ IH].
  - split; [constructor|]. split; [constructor|].
    apply Forall_forall. intros; constructor.
  - by eapply save_table_ok.
  - by apply delete_table_ok.
Qed.

Lemma table_ok_unique_on (key : R → list pyval) (tbl : list R) :
  table_ok tbl → key ∈ unique_indexes → unique_on key tbl.
Proof.
  intros (_ & _ & Hkeys) Hkey i j r1 r2 Hi Hj Heq.
  rewrite Forall_forall in Hkeys.
  apply (NoDup_lookup (key <$> tbl) i j (key r1)); [by apply Hkeys| |].
  - by rewrite list_lookup_fmap, Hi.
  - by rewrite list_lookup_fmap, Hj, Heq.
Qed.
End TableInvariant.

Global Instance Uploader_laws : ModelLaws Uploader.
Proof. split. by intros i []. Qed.

Global Instance UploaderRegistrationRequest_laws
  : ModelLaws UploaderRegistrationRequest.
Proof. split. by intros i []. Qed.

Global Instance UploaderSetting_laws : ModelLaws UploaderSetting.
Proof. split. by intros i []. Qed.

(** ** Registration requests *)

Section WritesByModel.
Context {R : Type} `{ModelLaws R}.

Lemma written_trans (t1 t2 t3 : list R) :
  written t1 t2 → written t2 t3 → written t1 t3.
Proof.
  intros H12 H23. induction H23 as [|r r' ta tb _ IH Hsave|i ta _ IH].
  - exact H12.
  - by eapply written_save.
  - by apply written_delete.
Qed.

Lemma written_table_ok (tbl tbl' : list R) :
  written tbl tbl' → table_ok tbl → table_ok tbl'.
Proof.
  intros Hw Hok. induction Hw as [|r r' ta tb _ IH Hsave|i ta _ IH].
  - exact Hok.
  - by eapply save_table_ok.
  - by apply delete_table_ok.
Qed.
End WritesByModel.

Lemma writes_by_model_bind {A B} (m : M A) (f : A → M B) :
  writes_by_model m → (∀ a, writes_by_model (f a)) →
  writes_by_model (m ≫= f).
Proof.
  intros Hm Hf w. specialize (Hm w). unfold mbind, M_bind.
  destruct (m w) as [[a|e] w1]; [|exact Hm].
  eapply written_trans; [exact Hm|apply Hf].
Qed.

Lemma writes_by_model_try {A} (m : M A) (h : exn → M A) :
  writes_by_model m → (∀ e, writes_by_model (h e)) →
  writes_by_model (try_except m h).
Proof.
  intros Hm Hh w. specialize (Hm w). unfold try_except.
  destruct (m w) as [[a|e] w1]; [exact Hm|].
  eapply written_trans; [exact Hm|apply Hh].
Qed.

Lemma writes_by_model_lift {A} (r : result A) : writes_by_model (lift r).
Proof. intros w. apply written_none. Qed.

Lemma writes_by_model_ret {A} (a : A) : writes_by_model (mret a).
Proof. intros w. apply written_none. Qed.

(** The creation of a registration request writes the table as the
    parent resource and the site and mail frameworks do. *)
Lemma request_obj_create_writes `{Notifier}
    (bundle : Bundle UploaderRegistrationRequest) :
  (∀ bundle, writes_by_model (super_request_obj_create bundle)) →
  writes_by_model current_site_domain →
  (∀ subject text, writes_by_model (mail_admins subject text)) →
  writes_by_model (UploaderRegistrationRequestAppResource.obj_create bundle).
Proof.
  intros Hparent Hsite Hmail.
  unfold UploaderRegistrationRequestAppResource.obj_create.
  apply writes_by_model_bind; [apply Hparent|]. intros created.
  apply writes_by_model_bind; [|intros; apply writes_by_model_ret].
  apply writes_by_model_try; [|intros; apply writes_by_model_ret].
  unfold UploaderRegistrationRequestAppResource.inform_admins.
  apply writes_by_model_bind; [exact Hsite|]. intros site.
  apply writes_by_model_bind; [apply writes_by_model_lift|]. intros text.
  apply Hmail.
Qed.

Lemma requests_unique_of_table_ok (tbl : list UploaderRegistrationRequest) :
  table_ok tbl →
  unique_on (λ r, (uploader r, requester_key_fingerprint r)) tbl.
Proof.
  intros Hok i j r1 r2 Hi Hj [= Hu Hf].
  apply (table_ok_unique_on
           (λ r, [VInt (uploader r); VStr (requester_key_fingerprint r)])
           tbl Hok) with r1 r2; [by left|done|done|].
  simpl. by rewrite Hu, Hf.
Qed.

(** C5.  Saves and deletions, in any number, make of a table of
    registration requests that the database keeps a table with at most
    one request for an uploader and a requester key fingerprint.
    [UploaderRegistrationRequestAppResource.obj_create] is the
    operation of api.py that inserts registration requests.  With a
    parent resource and site and mail frameworks that write the table
    with [Model.save()] and [Model.delete()] only, it keeps the table
    as the database does, with at most one request for an uploader and
    a fingerprint, whether it returns or raises; and in every world
    that such creations lead to from a world without requests, at most
    one request has a given uploader and fingerprint. *)
Theorem registration_requests_unique `{Notifier} :
  (∀ bundle, writes_by_model (super_request_obj_create bundle)) →
  writes_by_model current_site_domain →
  (∀ subject text, writes_by_model (mail_admins subject text)) →
  (∀ tbl tbl' : list UploaderRegistrationRequest,
     table_ok tbl → written tbl tbl' →
     unique_on (λ r, (uploader r, requester_key_fingerprint r)) tbl') ∧
  (∀ (bundle : Bundle UploaderRegistrationRequest) (w : World),
     table_ok (registration_requests w) →
     table_ok (registration_requests
                 (UploaderRegistrationRequestAppResource.obj_create bundle w).2)
     ∧ unique_on (λ r, (uploader r, requester_key_fingerprint r))
         (registration_requests
            (UploaderRegistrationRequestAppResource.obj_create bundle w).2))
  ∧
  (∀ w : World,
     UploaderRegistrationRequestAppResource.created w →
     table_ok (registration_requests w) ∧
     unique_on (λ r, (uploader r, requester_key_fingerprint r))
               (registration_requests w)).
Proof.
  intros Hparent Hsite Hmail.
  assert (∀ bundle w,
            table_ok (registration_requests w) →
            table_ok (registration_requests
                        (UploaderRegistrationRequestAppResource.obj_create
                           bundle w).2)) as Hstep.
  { intros bundle w Hok. eapply written_table_ok; [|exact Hok].
    by apply request_obj_create_writes. }
  split; [|split].
  - intros tbl tbl' Hok Hw.
    by eapply requests_unique_of_table_ok, written_table_ok.
  - intros bundle w Hok. split; [by apply Hstep|].
    by apply requests_unique_of_table_ok, Hstep.
  - intros w Hw.
    assert (table_ok (registration_requests w)) as Hok.
    { induction Hw as [w Hnone|bundle w _ IH]; [|by apply Hstep].
      rewrite Hnone. split; [constructor|]. split; [constructor|].
      apply Forall_forall. intros; constructor. }
    split; [exact Hok|by apply requests_unique_of_table_ok].
Qed.

Lemma saving_notifier_writes :
  (∀ bundle,
     writes_by_model (super_request_obj_create (Notifier := saving_notifier)
                        bundle)) ∧
  writes_by_model (current_site_domain (Notifier := saving_notifier)) ∧
  (∀ subject text,
     writes_by_model (mail_admins (Notifier := saving_notifier) subject text)).
Proof.
  split; [|split].
  - intros bundle w. simpl. unfold mbind, M_bind, save_in.
    destruct (save (obj bundle) (registration_requests w))
      as [[saved tbl]|e] eqn:Hsave.
    + simpl. eapply written_save; [apply written_none|exact Hsave].
    + apply written_none.
  - intros w. apply written_none.
  - intros subject text w. apply written_none.
Defined.

(** Two requests of uploader 1 with different keys, a request with the
    first key again, which the database refuses, and one of uploader 2
    with the first key. *)
Lemma registration_requests_unique_witness :
  let create := UploaderRegistrationRequestAppResource.obj_create
                  (H := saving_notifier) in
  let w2 := (create (request_bundle 1 "cc:dd")
               (create (request_bundle 1 "aa:bb") empty_world).2).2 in
  registration_requests w2
  = [sample_request (Some 1) 1 "aa:bb"; sample_request (Some 2) 1 "cc:dd"] ∧
  unique_on (λ r, (uploader r, requester_key_fingerprint r))
            (registration_requests w2) ∧
  (create (request_bundle 1 "aa:bb") w2).1 = Raise duplicate_key ∧
  unique_on (λ r, (uploader r, requester_key_fingerprint r))
            (registration_requests (create (request_bundle 1 "aa:bb") w2).2) ∧
  unique_on (λ r, (uploader r, requester_key_fingerprint r))
            (registration_requests (create (request_bundle 2 "aa:bb") w2).2).
Proof.
  intros create w2.
  pose proof (registration_requests_unique (H := saving_notifier)
                (proj1 saving_notifier_writes)
                (proj1 (proj2 saving_notifier_writes))
                (proj2 (proj2 saving_notifier_writes)))
    as (_ & Hstep & Hcreated).
  assert (UploaderRegistrationRequestAppResource.created
            (H := saving_notifier) w2) as Hw2.
  { apply UploaderRegistrationRequestAppResource.created_obj_create,
      UploaderRegistrationRequestAppResource.created_obj_create,
      UploaderRegistrationRequestAppResource.created_none.
    reflexivity. }
  destruct (Hcreated w2 Hw2) as [Hok Hunique].
  split; [reflexivity|].
  split; [exact Hunique|].
  split; [reflexivity|].
  split; [exact (proj2 (Hstep (request_bundle 1 "aa:bb") w2 Hok))|].
  exact (proj2 (Hstep (request_bundle 2 "aa:bb") w2 Hok)).
Defined.

(** A second request of the same uploader with the same key is refused
    by the database. *)
Example second_registration_request_refused :
  save (sample_request None 1 "aa:bb") [sample_request (Some 1) 1 "aa:bb"]
  = Raise duplicate_key.
Proof. reflexivity. Qed.

(** ** Identification of uploaders *)

(** An uploader as its table holds it has the fields of the class and
    no other attribute. *)
Lemma attrs_columns (u : Uploader) : attrs (columns u) = ∅.
Proof. by destruct u. Qed.

Lemma getattr_columns (u : Uploader) (name : string) :
  getattr (columns u) name = Raise AttributeError.
Proof. unfold getattr. by rewrite attrs_columns, lookup_empty. Qed.

Lemma columns_set_settings_updated (t : Z) (u : Uploader) :
  columns (set_settings_updated t u) = columns u.
Proof. by destruct u. Qed.

Lemma uploader_id_columns (u : Uploader) :
  uploader_id (columns u) = uploader_id u.
Proof. by destruct u. Qed.

(** C8.  The REST resource of uploaders does not find a record by its
    MAC address.  A query that filters on [mac_address] is rejected,
    whatever the lookup type.  The decision on an update of an uploader
    does not read the MAC address of the payload: it is the same with
    any MAC address sent and with none.  A facility manager who sends
    the MAC address of the record and no [uuid] gets a KeyError, and
    with a [uuid] an AttributeError, as the class [Uploader] has no
    field [uuid]. *)
Theorem uploader_not_found_by_mac_address `{Host} :
  (∀ filter_type : string,
     check_filtering UploaderAppResource.filtering "mac_address" filter_type
     = Raise (InvalidFilterError "mac_address")) ∧
  (∀ (object_list : list Obj) (u : Uploader) (d : gmap string pyval)
     (req : Request) (done : option bool) (mac : pyval),
     ACLAuthorization.update_detail object_list
       {| obj := ObjUploader u; data := <["mac_address" := mac]> d;
          request := req; obj_update_done := done |}
     = ACLAuthorization.update_detail object_list
         {| obj := ObjUploader u; data := delete "mac_address" d;
            request := req; obj_update_done := done |}) ∧
  (∀ (object_list : list Obj) (u : Uploader) (meta : gmap string string)
     (uid : Z) (params : gmap string string),
     let req := {| GET := params; META := meta;
                   user := {| auth_user_id := uid; is_authenticated := true;
                              is_superuser := false |} |} in
     ACLAuthorization.update_detail object_list
       (bundle_of (ObjUploader (columns u))
          {["mac_address" := VStr (mac_address u)]} req)
     = (if bool_decide (0 < length (facilities_managed_by (user req)))%nat
        then Raise (KeyError "uuid") else Ok false) ∧
     ACLAuthorization.update_detail object_list
       (bundle_of (ObjUploader (columns u))
          (<["uuid" := VStr "u-1"]> {["mac_address" := VStr (mac_address u)]})
          req)
     = (if bool_decide (0 < length (facilities_managed_by (user req)))%nat
        then Raise AttributeError else Ok false)).
Proof.
  split; [|split].
  - intros filter_type. reflexivity.
  - intros object_list u d req done mac.
    unfold ACLAuthorization.update_detail, getitem. cbn [obj data request].
    rewrite lookup_insert_ne by done. by rewrite lookup_delete_ne by done.
  - intros object_list u meta uid params req.
    unfold ACLAuthorization.update_detail, ACLAuthorization.is_facility_manager.
    cbn [obj data request bundle_of user req is_authenticated andb].
    split; case_bool_decide; try reflexivity.
    unfold getitem. rewrite lookup_insert_eq. cbn [mbind result_bind].
    by rewrite getattr_columns.
Qed.

(** A facility manager's update of uploader 1 that sends its MAC
    address. *)
Example update_with_mac_address :
  check_filtering UploaderAppResource.filtering "mac_address" "exact"
  = Raise (InvalidFilterError "mac_address") ∧
  ACLAuthorization.update_detail (H := manager_host) []
    (bundle_of (ObjUploader (sample_uploader (Some 1) "00:11"))
               (<["mac_address" := VStr "00:11"]> {["uuid" := VStr "u-1"]})
               (get_request ∅ manager))
  = Raise AttributeError.
Proof. split; vm_compute; reflexivity. Qed.

(** ** The experiment queries *)

Section ExperimentQueries.
Import ExperimentAppResource ExperimentSpec.
Context {text : Text}.

Lemma guess_is_Some (params : gmap string string) :
  params !! "folder_structure" = None →
  is_Some (guess_folder_structure params).
Proof.
  intros Hnone. unfold guess_folder_structure. rewrite Hnone.
  destruct (params !! "group_folder_name") as [g|];
    [case_bool_decide; [by eexists|]|];
    (destruct (params !! "user_folder_name") as [u|];
     [destruct (contains "@" u)|]; by eexists).
Qed.

Lemma folder_structure_bound (params : gmap string string) :
  match params !! "folder_structure" with
  | Some fs => Ok fs
  | None => match guess_folder_structure params with
            | Some fs => Ok fs
            | None => Raise AttributeError
            end
  end = Ok (folder_structure_of params).
Proof.
  unfold folder_structure_of.
  destruct (params !! "folder_structure") eqn:Hfs; [done|].
  by destruct (guess_is_Some params Hfs) as [fs ->].
Qed.

(** A folder structure asks for a user match or for a group match,
    not for both. *)
Lemma needs_exclusive (fs : string) : needs_user fs && needs_group fs = false.
Proof.
  destruct (needs_group fs) eqn:Hgroup; [|by rewrite andb_false_r].
  unfold needs_user, needs_group, startswith in *.
  do 5 (destruct fs as [|? fs]; [done|]; cbn [String.prefix] in Hgroup;
        match type of Hgroup with
        | context [ascii_dec ?a ?b] => destruct (ascii_dec a b); [subst|done]
        end).
  reflexivity.
Qed.

Lemma find_user_eq UnknownUser_local (fs ufn : string) (db : Database) :
  needs_user fs = true →
  find_user_to_match UnknownUser_local fs ufn db =
  match accounts db fs ufn with
  | [] =>
      new ← read_local "UnknownUser" UnknownUser_local;
      Ok (Some (if startswith fs "Username /" then new (Some ufn) None
                else new None (Some ufn)))
  | [u] => Ok (Some u)
  | _ => Raise MultipleObjectsReturned
  end.
Proof.
  unfold needs_user, find_user_to_match, accounts, account_lookup,
    objects_get.
  intros Hneeds.
  destruct (startswith fs "Username /") eqn:Hname.
  - destruct (filter _ (users db)) as [|u [|u' l]]; [|done|done].
    by destruct UnknownUser_local.
  - simpl in Hneeds. rewrite Hneeds.
    destruct (filter _ (users db)) as [|u [|u' l]]; [|done|done].
    by destruct UnknownUser_local.
Qed.

(** With the class [UnknownUser] bound, the lookups of the title
    query bind the locals whenever the folder name asked for was sent
    and no two accounts answer to it. *)
Lemma bind_locals_title (params : gmap string string) (db : Database)
    (fs : string) :
  fs = folder_structure_of params →
  (needs_user fs = true →
     is_Some (params !! "user_folder_name") ∧
     (length (accounts db fs (user_folder_of params)) ≤ 1)%nat) →
  (needs_group fs = true → is_Some (params !! "group_folder_name")) →
  bind_locals (Some UnknownUser) (guess_folder_structure params) params db
  = Ok (locals_of params db).
Proof.
  intros Hfs Huser Hgroup. unfold bind_locals, locals_of.
  rewrite folder_structure_bound. cbn [mbind result_bind]. rewrite <- Hfs.
  fold (needs_user fs) (needs_group fs).
  assert ((if needs_user fs
           then user_folder_name ← getitem params "user_folder_name";
                find_user_to_match (Some UnknownUser) fs user_folder_name db
           else Ok None)
          = Ok (if needs_user fs
                then Some (account_to_match db fs (user_folder_of params))
                else None)) as ->.
  { destruct (needs_user fs) eqn:Hneeds; [|done].
    destruct (Huser eq_refl) as [[ufn Hufn] Hone].
    unfold getitem, user_folder_of in *. rewrite Hufn in *.
    cbn [mbind result_bind default] in *. change (id ufn) with ufn in *.
    rewrite find_user_eq by done. unfold account_to_match.
    destruct (accounts db fs ufn) as [|u [|u' l]]; simpl in *; [|done|lia].
    unfold UnknownUser. by destruct (startswith fs "Username /"). }
  cbn [mbind result_bind].
  destruct (needs_group fs) eqn:Hneeds; [|done].
  destruct (Hgroup eq_refl) as [g Hg].
  unfold getitem, group_folder_of. by rewrite Hg.
Qed.

(** The unbound class in the uploader query: the locals are bound
    exactly when the account exists. *)
Lemma bind_locals_uploader (params : gmap string string) (db : Database)
    (fs : string) :
  fs = folder_structure_of params →
  bind_locals None (guess_folder_structure params) params db =
  if needs_user fs then
    match params !! "user_folder_name" with
    | None => Raise (KeyError "user_folder_name")
    | Some ufn =>
        match accounts db fs ufn with
        | [] => Raise (UnboundLocalError "UnknownUser")
        | [_] => Ok (locals_of params db)
        | _ => Raise MultipleObjectsReturned
        end
    end
  else if needs_group fs then
    match params !! "group_folder_name" with
    | None => Raise (KeyError "group_folder_name")
    | Some _ => Ok (locals_of params db)
    end
  else Ok (locals_of params db).
Proof.
  intros Hfs. unfold bind_locals, locals_of.
  rewrite folder_structure_bound. cbn [mbind result_bind]. rewrite <- Hfs.
  fold (needs_user fs) (needs_group fs).
  pose proof (needs_exclusive fs) as Hex.
  destruct (needs_user fs) eqn:Hneeds.
  - simpl in Hex. rewrite Hex.
    unfold getitem, user_folder_of.
    destruct (params !! "user_folder_name") as [ufn|]; [|done].
    cbn [mbind result_bind default]. change (id ufn) with ufn.
    rewrite find_user_eq by done. unfold account_to_match.
    by destruct (accounts db fs ufn) as [|u [|u' l]].
  - cbn [mbind result_bind].
    destruct (needs_group fs); [|done].
    unfold getitem, group_folder_of.
    by destruct (params !! "group_folder_name").
Qed.

Lemma title_step_eq (L : Locals) (u : User) (g : string)
    (p : ExperimentParameter) (mu mg : bool) :
  (need_to_match_user L = true → user_to_match L = Some u) →
  (need_to_match_group L = true → group_folder_name L = Some g) →
  title_step L (mu, mg) p =
  Ok (mu || (need_to_match_user L &&
             (bool_decide (param_name p = "user_folder_name")
              && user_matches u p)),
      mg || (need_to_match_group L &&
             (bool_decide (param_name p = "group_folder_name")
              && bool_decide (string_value p = g)))).
Proof.
  intros Hu Hg. unfold title_step.
  destruct (need_to_match_user L); destruct (need_to_match_group L);
    rewrite ?Hu, ?Hg by done; cbn [andb read_local mbind result_bind];
    repeat case_bool_decide; cbn [andb orb mbind result_bind read_local];
    try destruct (user_matches u p); cbn [andb orb];
    by rewrite ?orb_true_r, ?orb_false_r.
Qed.

Lemma title_fold (L : Locals) (u : User) (g : string)
    (params : list ExperimentParameter) (mu mg : bool) :
  (need_to_match_user L = true → user_to_match L = Some u) →
  (need_to_match_group L = true → group_folder_name L = Some g) →
  fold_result (title_step L) (mu, mg) params =
  Ok (mu || (need_to_match_user L &&
             existsb (λ p, bool_decide (param_name p = "user_folder_name")
                           && user_matches u p) params),
      mg || (need_to_match_group L &&
             existsb (λ p, bool_decide (param_name p = "group_folder_name")
                           && bool_decide (string_value p = g)) params)).
Proof.
  intros Hu Hg. revert mu mg.
  induction params as [|p params IH]; intros mu mg.
  - cbn [fold_result existsb]. by rewrite !andb_false_r, !orb_false_r.
  - cbn [fold_result existsb]. rewrite (title_step_eq L u g) by done.
    cbn [mbind result_bind]. rewrite IH.
    by rewrite !andb_orb_distrib_r, !orb_assoc.
Qed.

Lemma accessible_experiment_eq (db : Database) (requester : AuthUser)
    (ps : ExperimentParameterSet) :
  accessible_experiment db requester ps =
  match experiments db !! pset_experiment ps with
  | Some e => if accessible db requester ps
              then Ok (Some [(pset_experiment ps, e)]) else Ok None
  | None => Raise DoesNotExist
  end.
Proof.
  unfold accessible_experiment, accessible.
  destruct (experiments db !! pset_experiment ps) as [e|] eqn:He; [|done].
  cbn [mbind result_bind]. rewrite He. cbn [mbind result_bind fst].
  case_bool_decide as Hsafe.
  - rewrite bool_decide_eq_true_2; [done|]. split; [by eexists|done].
  - rewrite bool_decide_eq_false_2; [done|]. by intros [_ ?].
Qed.

Lemma title_scan_first (db : Database) (requester : AuthUser) (L : Locals)
    (u : User) (g : string) (psets : list ExperimentParameterSet) :
  (need_to_match_user L = true → user_to_match L = Some u) →
  (need_to_match_group L = true → group_folder_name L = Some g) →
  need_to_match_user L && need_to_match_group L = false →
  Forall (λ ps, is_Some (experiments db !! pset_experiment ps)) psets →
  title_scan db requester L psets =
  Ok (first_experiment db
        (λ ps, (if need_to_match_user L then has_user_folder db u ps
                else true) &&
               (if need_to_match_group L then has_group_folder db g ps
                else true) &&
               accessible db requester ps)
        psets).
Proof.
  intros Hu Hg Hex Hfk.
  induction psets as [|ps psets IH]; [done|].
  apply Forall_cons in Hfk as [[e He] Hfk]. specialize (IH Hfk).
  cbn [title_scan]. rewrite (title_fold L u g) by done.
  cbn [mbind result_bind orb]. rewrite accessible_experiment_eq, He.
  unfold first_experiment in *. cbn [List.find].
  fold (has_user_folder db u ps) (has_group_folder db g ps).
  destruct (need_to_match_user L); destruct (need_to_match_group L);
    try discriminate Hex; cbn [andb orb negb];
    rewrite ?orb_false_r;
    try destruct (has_user_folder db u ps);
    try destruct (has_group_folder db g ps);
    cbn [andb orb negb mbind result_bind];
    destruct (accessible db requester ps);
    cbn [andb orb negb mbind result_bind]; rewrite ?He; done.
Qed.

Lemma title_psets_have_experiments (db : Database) (title_wanted : string)
    (schema : Schema) :
  Forall (λ ps, is_Some (experiments db !! pset_experiment ps))
         (title_psets db title_wanted schema).
Proof.
  apply Forall_forall. intros ps Hps.
  apply list_elem_of_filter in Hps as [[_ Htitle] _].
  destruct (experiments db !! pset_experiment ps); [by eexists|done].
Qed.

Lemma has_key_true (params : gmap string string) (key : string) :
  is_Some (params !! key) → has_key params key = true.
Proof. intros. by apply bool_decide_eq_true_2. Qed.

Lemma has_key_false (params : gmap string string) (key : string) :
  params !! key = None → has_key params key = false.
Proof.
  intros Hnone. apply bool_decide_eq_false_2. rewrite Hnone. by intros [? ?].
Qed.

Lemma has_folder_key (params : gmap string string) :
  is_Some (params !! "user_folder_name") ∨
  is_Some (params !! "group_folder_name") →
  has_key params "user_folder_name" || has_key params "group_folder_name"
  = true.
Proof.
  intros [Hk|Hk]; rewrite (has_key_true _ _ Hk); [done|by rewrite orb_true_r].
Qed.
End ExperimentQueries.

(** C1, as the code has it.  A request with a title and a user or group
    folder name, in which the folder name the folder structure asks for
    was sent and at most one account answers to the user folder name,
    and a database with the default-experiment schema: the answer is
    the one-element list of the first experiment, in scan order over
    the default parameter sets of experiments with that title, whose
    parameter set holds the matching folder parameter and which the
    requesting user may see, and the empty list when there is none. *)
Theorem title_query_first_match {text : Text} `{Host} (req : Request) (db : Database)
    (title_wanted : string) (schema : Schema) :
  GET req !! "title" = Some title_wanted →
  is_Some (GET req !! "user_folder_name") ∨
  is_Some (GET req !! "group_folder_name") →
  ExperimentAppResource.get_default_schema db = Ok schema →
  (ExperimentSpec.needs_user
     (ExperimentSpec.folder_structure_of (GET req)) = true →
   is_Some (GET req !! "user_folder_name") ∧
   (length (ExperimentSpec.accounts db
              (ExperimentSpec.folder_structure_of (GET req))
              (ExperimentSpec.user_folder_of (GET req))) ≤ 1)%nat) →
  (ExperimentSpec.needs_group
     (ExperimentSpec.folder_structure_of (GET req)) = true →
   is_Some (GET req !! "group_folder_name")) →
  ExperimentAppResource.obj_get_list req db =
  Ok (ExperimentSpec.first_experiment db
        (λ ps, ExperimentSpec.folder_match (GET req) db ps &&
               ExperimentSpec.accessible db (user req) ps)
        (ExperimentAppResource.title_psets db title_wanted schema)).
Proof.
  intros Htitle Hfolder Hschema Huser Hgroup.
  unfold ExperimentAppResource.obj_get_list.
  rewrite has_key_true by (by rewrite Htitle).
  rewrite has_folder_key by done. cbn [andb].
  unfold ExperimentAppResource.title_query, getitem.
  rewrite Htitle. cbn [mbind result_bind].
  rewrite (bind_locals_title _ _ _ eq_refl Huser Hgroup).
  cbn [mbind result_bind]. rewrite Hschema. cbn [mbind result_bind].
  rewrite (title_scan_first db (user req) _
             (ExperimentSpec.account_to_match db
                (ExperimentSpec.folder_structure_of (GET req))
                (ExperimentSpec.user_folder_of (GET req)))
             (ExperimentSpec.group_folder_of (GET req))).
  - reflexivity.
  - unfold ExperimentSpec.locals_of. simpl. by intros ->.
  - unfold ExperimentSpec.locals_of. simpl. by intros ->.
  - apply needs_exclusive.
  - apply title_psets_have_experiments.
Qed.

Lemma title_query_first_match_witness :
  ExperimentAppResource.obj_get_list (text := ascii_text) (H := bare_host)
    (query [("title", "T"); ("user_folder_name", "ALICE@example.org")])
    sample_db
  = Ok [(1, {| title := "T" |})].
Proof.
  refine (title_query_first_match (text := ascii_text) (H := bare_host)
            (query [("title", "T"); ("user_folder_name", "ALICE@example.org")])
            sample_db "T"
            {| schema_id := 5;
               namespace := ExperimentAppResource.default_experiment_namespace |}
            _ _ _ _ _).
  - reflexivity.
  - left. by eexists.
  - reflexivity.
  - intros _. split; [by eexists|]. vm_compute. lia.
  - intros Hgroup. vm_compute in Hgroup. discriminate Hgroup.
Defined.

(** C1, as the claim has it, fails: a request with a title and an empty
    group folder name, and no user folder name, is one of those the
    claim speaks of; the folder structure guessed for it asks for a
    user match and the query ends with a KeyError, not with a list. *)
Lemma title_query_without_user_folder_raises :
  GET (query [("title", "T"); ("group_folder_name", "")]) !! "title"
  = Some "T" ∧
  is_Some (GET (query [("title", "T"); ("group_folder_name", "")])
             !! "group_folder_name") ∧
  ExperimentAppResource.obj_get_list (text := ascii_text) (H := bare_host)
    (query [("title", "T"); ("group_folder_name", "")]) sample_db
  = Raise (KeyError "user_folder_name").
Proof. repeat split; try (by eexists); vm_compute; reflexivity. Qed.

Section UploaderQuery.
Import ExperimentAppResource ExperimentSpec.
Context {text : Text}.

Lemma uploader_step_eq (uploader_uuid : string) (L : Locals) (u : User)
    (p : ExperimentParameter) (a b c : bool) :
  (need_to_match_user L = true → user_to_match L = Some u) →
  uploader_step uploader_uuid L (a, b, c) p =
  match group_folder_name L with
  | Some g =>
      Ok (a || (bool_decide (param_name p = "uploader") &&
                bool_decide (string_value p = uploader_uuid)),
          b || (need_to_match_user L &&
                (bool_decide (param_name p = "user_folder_name")
                 && user_matches u p)),
          c || (bool_decide (param_name p = "group_folder_name")
                && bool_decide (string_value p = g)))
  | None =>
      if named_group p then Raise (UnboundLocalError "group_folder_name")
      else
        Ok (a || (bool_decide (param_name p = "uploader") &&
                  bool_decide (string_value p = uploader_uuid)),
            b || (need_to_match_user L &&
                  (bool_decide (param_name p = "user_folder_name")
                   && user_matches u p)),
            c)
  end.
Proof.
  intros Hu. unfold uploader_step, named_group.
  destruct (need_to_match_user L); destruct (group_folder_name L) as [g|];
    rewrite ?Hu by done; cbn [andb read_local mbind result_bind];
    repeat case_bool_decide; cbn [andb orb mbind result_bind read_local];
    try destruct (user_matches u p); cbn [andb orb];
    by rewrite ?orb_true_r, ?orb_false_r.
Qed.

Lemma uploader_fold (uploader_uuid : string) (L : Locals) (u : User)
    (params : list ExperimentParameter) (a b c : bool) :
  (need_to_match_user L = true → user_to_match L = Some u) →
  fold_result (uploader_step uploader_uuid L) (a, b, c) params =
  let uploaders_ := existsb (λ p, bool_decide (param_name p = "uploader") &&
                          bool_decide (string_value p = uploader_uuid))
                     params in
  let folders := need_to_match_user L &&
                 existsb (λ p, bool_decide (param_name p = "user_folder_name")
                               && user_matches u p) params in
  match group_folder_name L with
  | Some g =>
      Ok (a || uploaders_, b || folders,
          c || existsb (λ p, bool_decide (param_name p = "group_folder_name")
                             && bool_decide (string_value p = g)) params)
  | None =>
      if existsb named_group params
      then Raise (UnboundLocalError "group_folder_name")
      else Ok (a || uploaders_, b || folders, c)
  end.
Proof.
  intros Hu. revert a b c.
  induction params as [|p params IH]; intros a b c.
  - cbn [fold_result existsb]. rewrite andb_false_r, !orb_false_r.
    by destruct (group_folder_name L).
  - cbn [fold_result existsb]. rewrite (uploader_step_eq _ L u) by done.
    destruct (group_folder_name L) as [g|].
    + cbn [mbind result_bind]. rewrite IH. cbn zeta.
      by rewrite !andb_orb_distrib_r, !orb_assoc.
    + destruct (named_group p); [done|].
      cbn [mbind result_bind orb]. rewrite IH. cbn zeta.
      destruct (existsb named_group params); [done|].
      by rewrite !andb_orb_distrib_r, !orb_assoc.
Qed.

(** What the scan returns when it returns. *)
Lemma uploader_scan_sound (db : Database) (requester : AuthUser)
    (uploader_uuid : string) (L : Locals) (u : User) (g : string)
    (psets : list ExperimentParameterSet) (l : list (Z * Experiment)) :
  (need_to_match_user L = true → user_to_match L = Some u) →
  group_folder_name L = (if need_to_match_group L then Some g else None) →
  uploader_scan db requester uploader_uuid L psets = Ok l →
  l = first_experiment db
        (λ ps, has_uploader db uploader_uuid ps &&
               ((need_to_match_user L && has_user_folder db u ps)
                || (need_to_match_group L && has_group_folder db g ps)) &&
               accessible db requester ps)
        psets.
Proof.
  intros Hu Hg. induction psets as [|ps psets IH]; [by intros [= <-]|].
  cbn [uploader_scan]. rewrite (uploader_fold _ L u) by done. cbn zeta.
  unfold first_experiment in *. cbn [List.find].
  fold (has_uploader db uploader_uuid ps) (has_user_folder db u ps).
  rewrite Hg. destruct (need_to_match_group L).
  - fold (has_group_folder db g ps).
    cbn [mbind result_bind orb andb]. rewrite accessible_experiment_eq.
    rewrite (andb_assoc (need_to_match_user L)), andb_diag.
    destruct (has_uploader db uploader_uuid ps); [|by apply IH].
    cbn [andb].
    destruct (need_to_match_user L && has_user_folder db u ps
              || has_group_folder db g ps); [|by apply IH].
    cbn [andb].
    destruct (experiments db !! pset_experiment ps) as [e|] eqn:He; [|done].
    destruct (accessible db requester ps); cbn [mbind result_bind];
      [rewrite He; by intros [= <-]|by apply IH].
  - destruct (existsb named_group (params_of db ps)); [done|].
    cbn [mbind result_bind orb andb]. rewrite accessible_experiment_eq.
    rewrite !orb_false_r. rewrite (andb_assoc (need_to_match_user L)), andb_diag.
    destruct (has_uploader db uploader_uuid ps); [|by apply IH].
    cbn [andb].
    destruct (need_to_match_user L && has_user_folder db u ps);
      [|by apply IH].
    cbn [andb].
    destruct (experiments db !! pset_experiment ps) as [e|] eqn:He; [|done].
    destruct (accessible db requester ps); cbn [mbind result_bind];
      [rewrite He; by intros [= <-]|by apply IH].
Qed.

(** When the scan returns. *)
Lemma uploader_scan_returns (db : Database) (requester : AuthUser)
    (uploader_uuid : string) (L : Locals) (u : User)
    (psets : list ExperimentParameterSet) :
  (need_to_match_user L = true → user_to_match L = Some u) →
  (group_folder_name L = None →
   Forall (λ ps, existsb named_group (params_of db ps) = false) psets) →
  Forall (λ ps, is_Some (experiments db !! pset_experiment ps)) psets →
  ∃ l, uploader_scan db requester uploader_uuid L psets = Ok l.
Proof.
  intros Hu Hg Hfk. induction psets as [|ps psets IH]; [by eexists|].
  apply Forall_cons in Hfk as [[e He] Hfk].
  assert (group_folder_name L = None →
          existsb named_group (params_of db ps) = false) as Hps.
  { intros Hnone. specialize (Hg Hnone). by apply Forall_cons in Hg as [? _]. }
  assert (∃ l, uploader_scan db requester uploader_uuid L psets = Ok l)
    as [l Hl].
  { apply IH; [|done]. intros Hnone. specialize (Hg Hnone).
    by apply Forall_cons in Hg as [_ ?]. }
  cbn [uploader_scan]. rewrite (uploader_fold _ L u) by done. cbn zeta.
  rewrite accessible_experiment_eq, He, Hl.
  destruct (group_folder_name L) as [g|];
    [|rewrite Hps by done]; cbn [mbind result_bind orb];
    match goal with
    | |- context [if ?c then _ else _] => destruct c
    end; cbn [mbind result_bind]; try (by eexists);
    destruct (accessible db requester ps); by eexists.
Qed.
End UploaderQuery.

(** C2, as the code has it.  A request with an uploader and a user or
    group folder name and without a title, and a database with the
    default-experiment schema.  Whenever the query returns, it returns
    the one-element list of the first experiment, in scan order over
    all default parameter sets, one of whose parameter sets holds both
    the uploader and the folder asked for and which the requesting user
    may see, and the empty list when no parameter set does.  It returns
    when the folder name asked for was sent, exactly one account
    answers to a user folder name, no parameter is named
    [group_folder_name] unless a group match is asked for, and the
    parameter sets have their experiments. *)
Theorem uploader_query_conjunction {text : Text} `{Host} (req : Request) (db : Database)
    (uploader_uuid : string) (schema : Schema) :
  GET req !! "uploader" = Some uploader_uuid →
  GET req !! "title" = None →
  is_Some (GET req !! "user_folder_name") ∨
  is_Some (GET req !! "group_folder_name") →
  ExperimentAppResource.get_default_schema db = Ok schema →
  (∀ l, ExperimentAppResource.obj_get_list req db = Ok l →
     l = ExperimentSpec.first_experiment db
           (λ ps, ExperimentSpec.uploader_and_folder_match
                    (GET req) db uploader_uuid ps &&
                  ExperimentSpec.accessible db (user req) ps)
           (ExperimentAppResource.default_psets db schema)) ∧
  ((ExperimentSpec.needs_user
      (ExperimentSpec.folder_structure_of (GET req)) = true →
    is_Some (GET req !! "user_folder_name") ∧
    length (ExperimentSpec.accounts db
              (ExperimentSpec.folder_structure_of (GET req))
              (ExperimentSpec.user_folder_of (GET req))) = 1%nat) →
   (ExperimentSpec.needs_group
      (ExperimentSpec.folder_structure_of (GET req)) = true →
    is_Some (GET req !! "group_folder_name")) →
   (ExperimentSpec.needs_group
      (ExperimentSpec.folder_structure_of (GET req)) = false →
    Forall (λ ps, existsb ExperimentSpec.named_group
                    (ExperimentAppResource.params_of db ps) = false)
           (ExperimentAppResource.default_psets db schema)) →
   Forall (λ ps, is_Some (experiments db !! pset_experiment ps))
          (ExperimentAppResource.default_psets db schema) →
   ExperimentAppResource.obj_get_list req db =
   Ok (ExperimentSpec.first_experiment db
         (λ ps, ExperimentSpec.uploader_and_folder_match
                  (GET req) db uploader_uuid ps &&
                ExperimentSpec.accessible db (user req) ps)
         (ExperimentAppResource.default_psets db schema))).
Proof.
  intros Huploader Htitle Hfolder Hschema.
  set (fs := ExperimentSpec.folder_structure_of (GET req)).
  set (u := ExperimentSpec.account_to_match db fs
              (ExperimentSpec.user_folder_of (GET req))).
  assert (ExperimentAppResource.obj_get_list req db =
          (L ← ExperimentAppResource.bind_locals None
                 (ExperimentAppResource.guess_folder_structure (GET req))
                 (GET req) db;
           ExperimentAppResource.uploader_scan db (user req) uploader_uuid L
             (ExperimentAppResource.default_psets db schema))) as Hquery.
  { unfold ExperimentAppResource.obj_get_list.
    rewrite (has_key_false _ "title") by done.
    rewrite (has_key_true _ "uploader") by (by rewrite Huploader).
    rewrite has_folder_key by done. cbn [andb].
    unfold ExperimentAppResource.uploader_query, getitem.
    rewrite Huploader. cbn [mbind result_bind].
    destruct (ExperimentAppResource.bind_locals _ _ _ _); [|done].
    cbn [mbind result_bind]. by rewrite Hschema. }
  assert (∀ L l,
            ExperimentAppResource.bind_locals None
              (ExperimentAppResource.guess_folder_structure (GET req))
              (GET req) db = Ok L →
            ExperimentAppResource.uploader_scan db (user req) uploader_uuid L
              (ExperimentAppResource.default_psets db schema) = Ok l →
            l = ExperimentSpec.first_experiment db
                  (λ ps, ExperimentSpec.uploader_and_folder_match
                           (GET req) db uploader_uuid ps &&
                         ExperimentSpec.accessible db (user req) ps)
                  (ExperimentAppResource.default_psets db schema)) as Hsound.
  { intros L l HL Hscan.
    assert (L = ExperimentSpec.locals_of (GET req) db) as ->.
    { rewrite (bind_locals_uploader _ _ fs eq_refl) in HL.
      repeat match type of HL with
             | (if ?c then _ else _) = _ => destruct c
             | match ?c with _ => _ end = _ => destruct c
             end; congruence. }
    apply (uploader_scan_sound db (user req) uploader_uuid _ u
             (ExperimentSpec.group_folder_of (GET req))) in Hscan.
    - exact Hscan.
    - unfold ExperimentSpec.locals_of. simpl. by intros ->.
    - reflexivity. }
  split.
  - intros l. rewrite Hquery.
    destruct (ExperimentAppResource.bind_locals _ _ _ _) as [L|] eqn:HL;
      [|done].
    cbn [mbind result_bind]. by apply Hsound.
  - intros Huser Hgroup Hnamed Hfk. rewrite Hquery.
    assert (ExperimentAppResource.bind_locals None
              (ExperimentAppResource.guess_folder_structure (GET req))
              (GET req) db = Ok (ExperimentSpec.locals_of (GET req) db))
      as HL.
    { rewrite (bind_locals_uploader _ _ fs eq_refl).
      destruct (ExperimentSpec.needs_user fs) eqn:Hnu.
      - destruct (Huser eq_refl) as [[ufn Hufn] Hone].
        unfold ExperimentSpec.user_folder_of in Hone.
        rewrite Hufn in *. simpl in Hone.
        by destruct (ExperimentSpec.accounts db fs ufn) as [|? [|? ?]].
      - destruct (ExperimentSpec.needs_group fs) eqn:Hng; [|done].
        by destruct (Hgroup eq_refl) as [g ->]. }
    rewrite HL. cbn [mbind result_bind].
    destruct (uploader_scan_returns db (user req) uploader_uuid
                (ExperimentSpec.locals_of (GET req) db) u
                (ExperimentAppResource.default_psets db schema))
      as [l Hl].
    + unfold ExperimentSpec.locals_of. simpl. by intros ->.
    + unfold ExperimentSpec.locals_of. simpl. fold fs.
      destruct (ExperimentSpec.needs_group fs); [done|]. intros _.
      by apply Hnamed.
    + done.
    + rewrite Hl. f_equal. by apply (Hsound _ _ HL).
Qed.

Lemma uploader_query_conjunction_witness :
  ExperimentAppResource.obj_get_list (text := ascii_text) (H := bare_host)
    (query [("uploader", "u-1"); ("group_folder_name", "lab-a")]) sample_db
  = Ok [(2, {| title := "G" |})].
Proof.
  refine (proj2 (uploader_query_conjunction (text := ascii_text) (H := bare_host)
                   (query [("uploader", "u-1"); ("group_folder_name", "lab-a")])
                   sample_db "u-1"
                   {| schema_id := 5;
                      namespace :=
                        ExperimentAppResource.default_experiment_namespace |}
                   _ _ _ _) _ _ _ _).
  - reflexivity.
  - reflexivity.
  - right. by eexists.
  - reflexivity.
  - intros Huser. vm_compute in Huser. discriminate Huser.
  - intros _. by eexists.
  - intros Hgroup. vm_compute in Hgroup. discriminate Hgroup.
  - repeat constructor; by eexists.
Defined.

(** C2, as the claim has it, fails: a request that names an uploader
    also names a title, and the title query answers it with an
    experiment none of whose parameters is an uploader. *)
Lemma uploader_request_answered_by_title :
  GET (query [("title", "T"); ("uploader", "u-9");
              ("user_folder_name", "alice")]) !! "uploader" = Some "u-9" ∧
  ExperimentAppResource.obj_get_list (text := ascii_text) (H := bare_host)
    (query [("title", "T"); ("uploader", "u-9");
            ("user_folder_name", "alice")]) sample_db
  = Ok [(1, {| title := "T" |})] ∧
  Forall (λ p, ¬ (param_name p = "uploader" ∧ string_value p = "u-9"))
         (parameters sample_db).
Proof.
  split; [reflexivity|]. split; [vm_compute; reflexivity|].
  repeat constructor; by intros [? ?].
Qed.

(** C10.  In the uploader query the class [UnknownUser] is not bound:
    a request without a title whose user folder name answers to no
    account ends with an UnboundLocalError. *)
Theorem uploader_query_unknown_user_unbound {text : Text} `{Host} (req : Request)
    (db : Database) (uploader_uuid user_folder_name : string) :
  GET req !! "title" = None →
  GET req !! "uploader" = Some uploader_uuid →
  GET req !! "user_folder_name" = Some user_folder_name →
  ExperimentSpec.needs_user
    (ExperimentSpec.folder_structure_of (GET req)) = true →
  ExperimentSpec.accounts db (ExperimentSpec.folder_structure_of (GET req))
    user_folder_name = [] →
  ExperimentAppResource.obj_get_list req db
  = Raise (UnboundLocalError "UnknownUser").
Proof.
  intros Htitle Huploader Hfolder Hneeds Hnone.
  unfold ExperimentAppResource.obj_get_list.
  rewrite (has_key_false _ "title") by done.
  rewrite (has_key_true _ "uploader") by (by rewrite Huploader).
  rewrite has_folder_key by (left; by rewrite Hfolder). cbn [andb].
  unfold ExperimentAppResource.uploader_query, getitem.
  rewrite Huploader. cbn [mbind result_bind].
  rewrite (bind_locals_uploader _ _ _ eq_refl).
  by rewrite Hneeds, Hfolder, Hnone.
Qed.

Lemma uploader_query_unknown_user_unbound_witness :
  ExperimentAppResource.obj_get_list (text := ascii_text) (H := bare_host)
    (query [("uploader", "u-1"); ("user_folder_name", "bob")]) sample_db
  = Raise (UnboundLocalError "UnknownUser").
Proof.
  apply (uploader_query_unknown_user_unbound (text := ascii_text) (H := bare_host) _ _ "u-1" "bob");
    reflexivity.
Defined.

(** The other unbound name of the uploader query: an account that
    exists, and a parameter named [group_folder_name] met by the scan
    of a request that asks for a user match. *)
Example uploader_query_group_folder_unbound :
  ExperimentAppResource.obj_get_list (text := ascii_text) (H := bare_host)
    (query [("uploader", "u-1"); ("user_folder_name", "alice")]) sample_db
  = Raise (UnboundLocalError "group_folder_name").
Proof. vm_compute. reflexivity. Qed.

(** ** The upsert of settings *)

Section Settings.
Import UploaderAppResource SettingsSpec.

Lemma NoDup_fmap_eq {A B} (f : A → B) (l : list A) (x y : A) :
  NoDup (f <$> l) → x ∈ l → y ∈ l → f x = f y → x = y.
Proof.
  intros Hnd Hx Hy Heq.
  apply list_elem_of_lookup in Hx as [i Hi].
  apply list_elem_of_lookup in Hy as [j Hj].
  assert (i = j) as ->; [|congruence].
  apply (NoDup_lookup (f <$> l) i j (f x) Hnd).
  - by rewrite list_lookup_fmap, Hi.
  - by rewrite list_lookup_fmap, Hj, Heq.
Qed.

Lemma existsb_filter_nil {A} (P : A → bool) (l : list A) :
  filter (λ x, P x = true) l = [] → existsb P l = false.
Proof.
  intros Hnil. apply not_true_is_false. intros Hex.
  apply existsb_exists in Hex as (x & Hx & HP).
  apply list_elem_of_In in Hx.
  assert (x ∈ filter (λ x, P x = true) l) as Hin
    by (by apply list_elem_of_filter).
  rewrite Hnil in Hin. by apply elem_of_nil in Hin.
Qed.

Lemma existsb_elem {A} (P : A → bool) (l : list A) (x : A) :
  x ∈ l → P x = true → existsb P l = true.
Proof.
  intros Hx HP. apply existsb_exists. exists x.
  split; [by apply list_elem_of_In|done].
Qed.

Lemma world_eta (w : World) : set_uploader_settings (uploader_settings w) w = w.
Proof. by destruct w. Qed.

(** One entry of the payload, when it has a key and a value and the
    table holds at most one setting for the key. *)
Lemma upsert_setting_ok (uploader_pk : Z) (entry : gmap string string)
    (k v : string) (w : World) :
  entry !! "key" = Some k → entry !! "value" = Some v →
  table_ok (uploader_settings w) →
  (length (stored uploader_pk k (uploader_settings w)) ≤ 1)%nat →
  upsert_setting uploader_pk entry w =
  (Ok (), set_uploader_settings
            (upsert_row uploader_pk k v (uploader_settings w)) w).
Proof.
  intros Hk Hv (Hsome & Hpks & _) Hone.
  unfold upsert_setting, mbind, M_bind, lift, getitem, try_except,
    objects_get, mret, M_ret, raise, save_setting, save_in.
  rewrite Hk, Hv. unfold stored in Hone. rewrite length_fmap in Hone.
  unfold upsert_row.
  change (λ r : UploaderSetting,
            bool_decide (setting_uploader r = uploader_pk) &&
            bool_decide (setting_key r = k) = true)
    with (λ s, for_setting uploader_pk k s = true).
  destruct (filter (λ s, for_setting uploader_pk k s = true)
              (uploader_settings w)) as [|us [|us' l]] eqn:Hfilter;
    [| |simpl in Hone; lia].
  - rewrite (existsb_filter_nil _ _ Hfilter). reflexivity.
  - assert (us ∈ uploader_settings w ∧ for_setting uploader_pk k us = true)
      as [Hus Hmatch].
    { assert (us ∈ filter (λ s, for_setting uploader_pk k s = true)
                     (uploader_settings w)) as Hin
        by (rewrite Hfilter; by left).
      by apply list_elem_of_filter in Hin as [? ?]. }
    rewrite (existsb_elem _ _ us Hus Hmatch).
    rewrite Forall_forall in Hsome.
    destruct (Hsome us Hus) as [i Hi].
    unfold save. cbn [pk UploaderSetting_model set_setting_value setting_id].
    simpl in Hi. rewrite Hi.
    rewrite (existsb_elem (has_pk i) _ us Hus)
      by (by apply bool_decide_eq_true_2).
    cbn [clashes unique_indexes UploaderSetting_model existsb].
    do 2 f_equal. apply list_fmap_ext. intros n s Hs.
    apply list_elem_of_lookup_2 in Hs.
    destruct (has_pk i s) eqn:Hpk.
    + apply bool_decide_eq_true_1 in Hpk.
      assert (s = us) as -> by
        (apply (NoDup_fmap_eq pk (uploader_settings w)); try done;
         simpl in *; congruence).
      by rewrite Hmatch.
    + destruct (for_setting uploader_pk k s) eqn:Hs'; [|done].
      assert (s ∈ filter (λ s, for_setting uploader_pk k s = true)
                    (uploader_settings w)) as Hin
        by (by apply list_elem_of_filter).
      rewrite Hfilter in Hin. apply list_elem_of_singleton in Hin as ->.
      apply bool_decide_eq_false_1 in Hpk. by destruct Hpk.
Qed.

(** An entry without a key or a value, or a key the table holds
    twice: the exception leaves the world as it was. *)
Lemma upsert_setting_fail (uploader_pk : Z) (entry : gmap string string)
    (w : World) :
  (∀ k v, entry !! "key" = Some k → entry !! "value" = Some v →
          (1 < length (stored uploader_pk k (uploader_settings w)))%nat) →
  ∃ e, upsert_setting uploader_pk entry w = (Raise e, w).
Proof.
  intros Hbad.
  unfold upsert_setting, mbind, M_bind, lift, getitem, try_except,
    objects_get, mret, M_ret, raise, save_setting, save_in.
  destruct (entry !! "key") as [k|]; [|by eexists].
  change (λ r : UploaderSetting,
            bool_decide (setting_uploader r = uploader_pk) &&
            bool_decide (setting_key r = k) = true)
    with (λ s, for_setting uploader_pk k s = true).
  destruct (entry !! "value") as [v|].
  - specialize (Hbad k v eq_refl eq_refl). unfold stored in Hbad.
    rewrite length_fmap in Hbad.
    destruct (filter (λ s, for_setting uploader_pk k s = true)
                (uploader_settings w)) as [|us [|us' l]];
      simpl in Hbad; [lia|lia|by eexists].
  - destruct (filter (λ s, for_setting uploader_pk k s = true)
                (uploader_settings w)) as [|us [|us' l]]; by eexists.
Qed.

Lemma for_setting_set_value (u : Z) (k v : string) (s : UploaderSetting) :
  for_setting u k (set_setting_value v s) = for_setting u k s.
Proof. done. Qed.

Lemma stored_overwrite_same (u : Z) (k v : string)
    (tbl : list UploaderSetting) :
  stored u k ((λ s, if for_setting u k s then set_setting_value v s else s)
                <$> tbl)
  = (λ _, v) <$> stored u k tbl.
Proof.
  unfold stored. induction tbl as [|s tbl IH]; [done|].
  rewrite fmap_cons, !filter_cons.
  destruct (for_setting u k s) eqn:Hs.
  - rewrite for_setting_set_value, Hs.
    rewrite !decide_True by done. rewrite !fmap_cons. by f_equal.
  - rewrite Hs. by rewrite !decide_False by done.
Qed.

Lemma stored_overwrite_other (u u' : Z) (k k' v : string)
    (tbl : list UploaderSetting) :
  ¬ (u' = u ∧ k' = k) →
  stored u' k' ((λ s, if for_setting u k s then set_setting_value v s
                      else s) <$> tbl)
  = stored u' k' tbl.
Proof.
  intros Hne. unfold stored. induction tbl as [|s tbl IH]; [done|].
  rewrite fmap_cons, !filter_cons.
  destruct (for_setting u k s) eqn:Hs.
  - rewrite for_setting_set_value.
    destruct (for_setting u' k' s) eqn:Hs'.
    + exfalso. apply Hne. unfold for_setting in *.
      apply andb_true_iff in Hs as [?%bool_decide_eq_true_1
                                      ?%bool_decide_eq_true_1].
      apply andb_true_iff in Hs' as [?%bool_decide_eq_true_1
                                       ?%bool_decide_eq_true_1].
      split; congruence.
    + by rewrite !decide_False by done.
  - destruct (for_setting u' k' s) eqn:Hs'.
    + rewrite !decide_True by done. rewrite !fmap_cons. by f_equal.
    + by rewrite !decide_False by done.
Qed.

Lemma stored_nil_iff (u : Z) (k : string) (tbl : list UploaderSetting) :
  existsb (for_setting u k) tbl = false → stored u k tbl = [].
Proof.
  intros Hno. unfold stored.
  destruct (filter _ tbl) as [|s l] eqn:Hfilter; [done|].
  assert (s ∈ filter (λ s, for_setting u k s = true) tbl) as Hin
    by (rewrite Hfilter; by left).
  apply list_elem_of_filter in Hin as [Hs Hin].
  by rewrite (existsb_elem _ _ s Hin Hs) in Hno.
Qed.

Lemma stored_upsert_same (u : Z) (k v : string)
    (tbl : list UploaderSetting) :
  (length (stored u k tbl) ≤ 1)%nat →
  stored u k (upsert_row u k v tbl) = [v].
Proof.
  intros Hone. unfold upsert_row.
  destruct (existsb (for_setting u k) tbl) eqn:Hex.
  - rewrite stored_overwrite_same.
    destruct (stored u k tbl) as [|x [|y l]] eqn:Hst;
      [|done|simpl in Hone; lia].
    apply existsb_exists in Hex as (s & Hin & Hs).
    apply list_elem_of_In in Hin.
    assert (s ∈ filter (λ s, for_setting u k s = true) tbl) as Hf
      by (by apply list_elem_of_filter).
    unfold stored in Hst. apply fmap_nil_inv in Hst.
    rewrite Hst in Hf. by apply elem_of_nil in Hf.
  - unfold stored at 1. rewrite filter_app, fmap_app.
    fold (stored u k tbl). rewrite (stored_nil_iff _ _ _ Hex).
    rewrite filter_cons, decide_True; [done|].
    unfold for_setting. simpl. by rewrite !bool_decide_eq_true_2.
Qed.

Lemma stored_upsert_other (u u' : Z) (k k' v : string)
    (tbl : list UploaderSetting) :
  ¬ (u' = u ∧ k' = k) →
  stored u' k' (upsert_row u k v tbl) = stored u' k' tbl.
Proof.
  intros Hne. unfold upsert_row.
  destruct (existsb (for_setting u k) tbl).
  - by apply stored_overwrite_other.
  - unfold stored. rewrite filter_app, fmap_app.
    rewrite filter_cons, decide_False; [by rewrite app_nil_r|].
    unfold for_setting. simpl. intros Hs.
    apply andb_true_iff in Hs as [?%bool_decide_eq_true_1
                                    ?%bool_decide_eq_true_1].
    by apply Hne.
Qed.

(** No upsert makes a second setting for an uploader and a key. *)
Lemma stored_upsert_bound (u u' : Z) (k k' v : string)
    (tbl : list UploaderSetting) :
  (length (stored u k tbl) ≤ 1)%nat →
  (length (stored u' k' (upsert_row u k v tbl))
   ≤ 1 `max` length (stored u' k' tbl))%nat.
Proof.
  intros Hone. destruct (decide (u' = u ∧ k' = k)) as [[-> ->]|Hne].
  - rewrite stored_upsert_same by done. simpl. lia.
  - rewrite stored_upsert_other by done. lia.
Qed.

Lemma upsert_entry_eq (u : Z) (tbl : list UploaderSetting)
    (entry : gmap string string) (k v : string) :
  entry !! "key" = Some k → entry !! "value" = Some v →
  upsert_entry u tbl entry = upsert_row u k v tbl.
Proof. intros Hk Hv. unfold upsert_entry. by rewrite Hk, Hv. Qed.

Lemma stored_foldl (uploader_pk : Z) (settings : list (gmap string string))
    (tbl : list UploaderSetting) (u : Z) (k : string) :
  Forall (λ entry, is_Some (entry !! "key") ∧ is_Some (entry !! "value"))
         settings →
  (∀ k, (length (stored uploader_pk k tbl) ≤ 1)%nat) →
  stored u k (foldl (upsert_entry uploader_pk) tbl settings) =
  match (if decide (u = uploader_pk) then sent_value settings k else None)
  with
  | Some v => [v]
  | None => stored u k tbl
  end.
Proof.
  intros Hwf. revert tbl.
  induction Hwf as [|entry rest [[ke Hke] [ve Hve]] _ IH]; intros tbl Hone.
  - simpl. by destruct (decide (u = uploader_pk)).
  - cbn [foldl sent_value]. rewrite (upsert_entry_eq _ _ _ ke ve) by done.
    rewrite IH.
    + destruct (decide (u = uploader_pk)) as [->|Hu].
      * destruct (sent_value rest k) as [v|]; [done|].
        case_bool_decide as Hk.
        -- rewrite Hke in Hk. injection Hk as <-. rewrite Hve.
           by apply stored_upsert_same.
        -- apply stored_upsert_other. intros [_ Heq]. apply Hk.
           by rewrite Hke, Heq.
      * apply stored_upsert_other. by intros [? _].
    + intros k'. destruct (decide (k' = ke)) as [->|Hk'].
      * by rewrite stored_upsert_same.
      * rewrite stored_upsert_other; [done|]. by intros [_ ?].
Qed.

Lemma upsert_row_table_ok (u : Z) (k v : string)
    (tbl : list UploaderSetting) :
  table_ok tbl → table_ok (upsert_row u k v tbl).
Proof.
  intros Hok. unfold upsert_row.
  destruct (existsb (for_setting u k) tbl).
  - destruct Hok as (Hsome & Hpks & _).
    assert (pk <$> ((λ s, if for_setting u k s then set_setting_value v s
                          else s) <$> tbl) = pk <$> tbl) as Hsame.
    { rewrite <- list_fmap_compose. apply list_fmap_ext.
      intros n s _. simpl. by destruct (for_setting u k s). }
    split; [|split].
    + apply Forall_fmap. eapply Forall_impl; [exact Hsome|].
      intros s Hs. simpl. by destruct (for_setting u k s).
    + by rewrite Hsame.
    + constructor.
  - apply table_ok_snoc; [done|by eexists| |done].
    apply fresh_pk_new.
Qed.

Lemma upsert_loop_bound (uploader_pk : Z)
    (settings : list (gmap string string)) (w : World) :
  table_ok (uploader_settings w) →
  ∃ r tbl',
    for_each (upsert_setting uploader_pk) settings w
    = (r, set_uploader_settings tbl' w) ∧
    ∀ u k, (length (stored u k tbl')
            ≤ 1 `max` length (stored u k (uploader_settings w)))%nat.
Proof.
  revert w. induction settings as [|entry rest IH]; intros w Hok.
  - exists (Ok ()), (uploader_settings w). split; [|intros; lia].
    by rewrite world_eta.
  - cbn [for_each]. unfold mbind, M_bind.
    destruct (entry !! "key") as [ke|] eqn:Hke;
      [destruct (entry !! "value") as [ve|] eqn:Hve;
       [destruct (decide (length (stored uploader_pk ke
                                    (uploader_settings w)) ≤ 1)%nat)
          as [Hone|Hmany]|]|].
    + rewrite (upsert_setting_ok _ _ ke ve) by done.
      destruct (IH (set_uploader_settings
                      (upsert_row uploader_pk ke ve (uploader_settings w)) w))
        as (r & tbl' & Hrun & Hbound).
      { by apply upsert_row_table_ok. }
      exists r, tbl'. split; [exact Hrun|]. intros u k.
      specialize (Hbound u k). simpl in Hbound.
      pose proof (stored_upsert_bound uploader_pk u ke k ve
                    (uploader_settings w) Hone). lia.
    + destruct (upsert_setting_fail uploader_pk entry w) as [e ->].
      { intros k v Hk Hv. rewrite Hke in Hk. injection Hk as <-. lia. }
      exists (Raise e), (uploader_settings w). split; [|intros; lia].
      by rewrite world_eta.
    + destruct (upsert_setting_fail uploader_pk entry w) as [e ->].
      { intros k v _ Hv. by rewrite Hve in Hv. }
      exists (Raise e), (uploader_settings w). split; [|intros; lia].
      by rewrite world_eta.
    + destruct (upsert_setting_fail uploader_pk entry w) as [e ->].
      { intros k v Hk _. by rewrite Hke in Hk. }
      exists (Raise e), (uploader_settings w). split; [|intros; lia].
      by rewrite world_eta.
Qed.

Lemma upsert_loop_ok (uploader_pk : Z)
    (settings : list (gmap string string)) (w : World) :
  Forall (λ entry, is_Some (entry !! "key") ∧ is_Some (entry !! "value"))
         settings →
  table_ok (uploader_settings w) →
  (∀ k, (length (stored uploader_pk k (uploader_settings w)) ≤ 1)%nat) →
  for_each (upsert_setting uploader_pk) settings w =
  (Ok (), set_uploader_settings
            (foldl (upsert_entry uploader_pk) (uploader_settings w) settings)
            w).
Proof.
  intros Hwf. revert w.
  induction Hwf as [|entry rest [[ke Hke] [ve Hve]] _ IH]; intros w Hok Hone.
  - simpl. by rewrite world_eta.
  - cbn [for_each foldl]. unfold mbind, M_bind.
    rewrite (upsert_setting_ok _ _ ke ve) by done.
    rewrite IH.
    + by rewrite (upsert_entry_eq _ _ _ ke ve).
    + by apply upsert_row_table_ok.
    + intros k. simpl. destruct (decide (k = ke)) as [->|Hk].
      * by rewrite stored_upsert_same.
      * rewrite stored_upsert_other; [done|]. by intros [_ ?].
Qed.

Lemma save_returns_row `{Model R} (r r' : R) (tbl tbl' : list R) :
  is_Some (pk r) → save r tbl = Ok (r', tbl') → r' = r.
Proof.
  intros [i Hi]. unfold save. rewrite Hi.
  destruct (existsb (has_pk i) tbl); destruct (clashes r _);
    congruence.
Qed.

Context `{Host}.

Lemma hydrate_settings_eq (bundle : Bundle Uploader) (w : World)
    (uploader_pk : Z) (settings : list (gmap string string)) :
  uploader_id (obj bundle) = Some uploader_pk → uploader_pk ≠ 0 →
  data bundle !! "settings" = Some (VDicts settings) →
  hydrate_settings bundle w =
  (_ ← for_each (upsert_setting uploader_pk) settings;
   now ← datetime_now;
   _ ← save_in uploaders set_uploaders (columns (obj bundle));
   mret {| obj := set_settings_updated now (obj bundle);
           data := delete "settings" (data bundle);
           request := request bundle;
           obj_update_done := obj_update_done bundle |}) w.
Proof.
  intros Hid Hnz Hsettings. unfold hydrate_settings, truthy, getitem.
  rewrite Hid, Hsettings.
  rewrite bool_decide_eq_true_2 by done.
  rewrite bool_decide_eq_true_2 by (by eexists).
  unfold lift. cbn [mbind result_bind iter_settings].
  unfold mbind, M_bind. simpl.
  destruct (for_each (upsert_setting uploader_pk) settings w)
    as [[[]|e] w1]; [|done].
  unfold datetime_now. cbn [set_obj obj data request obj_update_done set_data].
  by rewrite columns_set_settings_updated.
Qed.
End Settings.

(** C6, as the code has it.  An update of an existing uploader whose
    payload holds a list of settings, on a table of settings the
    database keeps.  Whatever the entries are, the table afterwards
    holds no more settings for an uploader and a key than before, or
    one.  When every entry has a key and a value and the uploader has
    at most one setting for each key, every entry is upserted:
    afterwards the uploader has one setting for each key sent, with the
    last value sent for it, and all other settings are as before.  The
    fields of the uploader are saved, and the parent's [hydrate_m2m]
    gets the bundle without its [settings] entry and with an object
    whose attribute [settings_updated] is the reading of the clock and
    whose fields and other attributes are as they were. *)
Theorem hydrate_m2m_upserts_settings `{Host} (bundle : Bundle Uploader)
    (w : World) (uploader_pk : Z) (settings : list (gmap string string)) :
  uploader_id (obj bundle) = Some uploader_pk → uploader_pk ≠ 0 →
  data bundle !! "settings" = Some (VDicts settings) →
  table_ok (uploader_settings w) →
  (∀ r w', UploaderAppResource.hydrate_settings bundle w = (r, w') →
     ∀ u k, (length (SettingsSpec.stored u k (uploader_settings w'))
             ≤ 1 `max` length (SettingsSpec.stored u k (uploader_settings w)))
            %nat) ∧
  (Forall (λ entry, is_Some (entry !! "key") ∧ is_Some (entry !! "value"))
          settings →
   (∀ k, (length (SettingsSpec.stored uploader_pk k (uploader_settings w)) ≤ 1)
         %nat) →
   ∃ tbl' stamped,
     tbl' = foldl (SettingsSpec.upsert_entry uploader_pk)
                  (uploader_settings w) settings ∧
     (∀ k v, SettingsSpec.sent_value settings k = Some v →
             SettingsSpec.stored uploader_pk k tbl' = [v]) ∧
     (∀ u k, u ≠ uploader_pk ∨ SettingsSpec.sent_value settings k = None →
             SettingsSpec.stored u k tbl'
             = SettingsSpec.stored u k (uploader_settings w)) ∧
     attrs (obj stamped) !! "settings_updated"
     = Some (VTime (clock (reads w))) ∧
     (∀ name, name ≠ "settings_updated" →
              attrs (obj stamped) !! name = attrs (obj bundle) !! name) ∧
     columns (obj stamped) = columns (obj bundle) ∧
     data stamped = delete "settings" (data bundle) ∧
     request stamped = request bundle ∧
     obj_update_done stamped = obj_update_done bundle ∧
     UploaderAppResource.hydrate_m2m bundle w =
     (_ ← save_in uploaders set_uploaders (columns (obj bundle));
      super_hydrate_m2m stamped)
       (set_reads (S (reads w)) (set_uploader_settings tbl' w))).
Proof.
  intros Hid Hnz Hsettings Hok. split.
  - intros r w'. rewrite (hydrate_settings_eq _ _ _ _ Hid Hnz Hsettings).
    destruct (upsert_loop_bound uploader_pk settings w Hok)
      as (r0 & tbl' & Hloop & Hbound).
    unfold mbind at 1, M_bind at 1. rewrite Hloop.
    destruct r0 as [[]|e].
    + unfold mbind, M_bind, datetime_now, save_in, mret, M_ret.
      cbn [reads set_uploader_settings uploaders].
      match goal with
      | |- context [save ?row ?tbl] =>
          destruct (save row tbl) as [[saved ups]|e]
      end; intros [= <- <-]; apply Hbound.
    + intros [= <- <-]. apply Hbound.
  - intros Hwf Hone.
    exists (foldl (SettingsSpec.upsert_entry uploader_pk)
                  (uploader_settings w) settings),
           {| obj := set_settings_updated (clock (reads w)) (obj bundle);
              data := delete "settings" (data bundle);
              request := request bundle;
              obj_update_done := obj_update_done bundle |}.
    split; [reflexivity|]. split; [|split].
    + intros k v Hsent. rewrite stored_foldl by done.
      rewrite decide_True by done. by rewrite Hsent.
    + intros u k Hother. rewrite stored_foldl by done.
      destruct (decide (u = uploader_pk)) as [->|Hu]; [|done].
      destruct Hother as [Hu | Hnone]; [done|by rewrite Hnone].
    + cbn [obj data request obj_update_done].
      split; [destruct (obj bundle);
              cbn [attrs set_settings_updated set_attrs];
              by rewrite lookup_insert_eq|].
      split; [intros name Hname; destruct (obj bundle);
              cbn [attrs set_settings_updated set_attrs];
              by rewrite lookup_insert_ne|].
      split; [apply columns_set_settings_updated|].
      do 3 (split; [reflexivity|]).
      unfold UploaderAppResource.hydrate_m2m.
      unfold mbind at 1, M_bind at 1.
      rewrite (hydrate_settings_eq _ _ _ _ Hid Hnz Hsettings).
      unfold mbind, M_bind.
      rewrite (upsert_loop_ok _ _ _ Hwf Hok Hone).
      unfold datetime_now, save_in, mret, M_ret.
      cbn [reads set_uploader_settings uploaders set_reads].
      match goal with
      | |- context [save ?row ?tbl] =>
          destruct (save row tbl) as [[saved ups]|e] eqn:Hsave
      end; done.
Qed.

Lemma hydrate_m2m_upserts_settings_witness :
  ∃ tbl',
    tbl' = [sample_setting (Some 1) 1 "folder" "/mnt/data";
            sample_setting (Some 2) 1 "interval" "60"] ∧
    UploaderAppResource.hydrate_m2m (H := bare_host) sample_update sample_world
    = (Ok {| obj := set_attrs {["settings_updated" := VTime 1000]}
                      (sample_uploader (Some 1) "00:11");
             data := ∅;
             request := get_request ∅ manager;
             obj_update_done := None |},
       {| reads := 1;
          uploaders := [sample_uploader (Some 1) "00:11"];
          uploader_settings := tbl';
          registration_requests := [];
          temp_url := None |}).
Proof.
  destruct (proj2 (hydrate_m2m_upserts_settings (H := bare_host)
                     sample_update sample_world 1
                     [<["key" := "folder"]> {["value" := "/mnt/data"]};
                      <["key" := "interval"]> {["value" := "60"]}]
                     eq_refl ltac:(done) eq_refl
                     ltac:(split; [|split];
                           [repeat constructor; by eexists
                           |apply NoDup_singleton|constructor])))
    as (tbl' & stamped & Htbl & _ & _ & Hset & Hrest & Hcols & Hdata & Hreq
        & Hdone & Hrun).
  - repeat constructor; by eexists.
  - intros k. unfold SettingsSpec.stored. rewrite length_fmap.
    apply (length_filter _ [_]).
  - exists tbl'. split; [by rewrite Htbl|].
    rewrite Hrun, Htbl.
    assert (stamped
            = {| obj := set_attrs {["settings_updated" := VTime 1000]}
                          (sample_uploader (Some 1) "00:11");
                 data := ∅;
                 request := get_request ∅ manager;
                 obj_update_done := None |}) as ->.
    { destruct stamped as [o d r f]. cbn [obj data request obj_update_done] in *.
      subst d r f.
      assert (o = set_attrs {["settings_updated" := VTime 1000]}
                    (sample_uploader (Some 1) "00:11")) as ->;
        [|vm_compute; reflexivity].
      destruct o. cbn [attrs columns set_attrs] in *.
      injection Hcols as -> -> -> -> -> -> -> -> -> -> -> -> -> -> ->
                         -> -> -> -> -> -> -> -> -> -> -> -> -> -> ->.
      cbn [set_attrs sample_uploader]. f_equal.
      apply map_eq. intros name.
      destruct (decide (name = "settings_updated")) as [->|Hname].
      - rewrite Hset. reflexivity.
      - rewrite (Hrest name Hname).
        change (attrs (obj sample_update)) with (∅ : gmap string pyval).
        by rewrite lookup_empty, lookup_singleton_ne. }
    vm_compute. reflexivity.
Defined.

(** C6, as the claim has it, fails.  An update of uploader 1 that sends
    a setting without a value ends with a KeyError, and one that sends a
    setting for a key the uploader has two settings of ends with
    MultipleObjectsReturned: no setting is written, [settings_updated]
    is not set, the payload keeps its [settings] entry and the parent's
    [hydrate_m2m] is not reached. *)
Lemma hydrate_m2m_incomplete_setting_raises :
  uploader_id (obj keyless_update) = Some 1 ∧
  data keyless_update !! "settings"
  = Some (VDicts [{["key" := "folder"]}]) ∧
  UploaderAppResource.hydrate_m2m (H := bare_host) keyless_update sample_world
  = (Raise (KeyError "value"), sample_world) ∧
  UploaderAppResource.hydrate_m2m (H := bare_host) sample_update doubled_world
  = (Raise MultipleObjectsReturned, doubled_world).
Proof. repeat split; vm_compute; reflexivity. Qed.

(** * Further properties *)

(** ** Authorization hooks *)

(** X1.  A request whose user is not authenticated gets nothing of an
    uploader from any hook: an empty list, and a refusal to read, to
    create and to update, without a look at the payload or a call of
    the parent class. *)
Theorem unauthenticated_uploader_refused `{Host} (object_list : list Obj)
    (bundle : Bundle Obj) (u : Uploader) :
  obj bundle = ObjUploader u →
  is_authenticated (user (request bundle)) = false →
  ACLAuthorization.read_list object_list bundle = Ok [] ∧
  ACLAuthorization.read_detail object_list bundle = Ok false ∧
  ACLAuthorization.create_detail object_list bundle = Ok false ∧
  ACLAuthorization.update_detail object_list bundle = Ok false.
Proof.
  intros Hobj Hauth.
  unfold ACLAuthorization.read_list, ACLAuthorization.read_detail,
    ACLAuthorization.create_detail, ACLAuthorization.update_detail,
    ACLAuthorization.is_facility_manager.
  by rewrite Hobj, Hauth.
Qed.

Lemma unauthenticated_uploader_refused_witness :
  ACLAuthorization.update_detail (H := manager_host)
    [ObjUploader (sample_uploader (Some 1) "00:11")]
    (bundle_of (ObjUploader (sample_uploader (Some 1) "00:11"))
               {["uuid" := VStr "u-1"]} (get_request ∅ anonymous))
  = Ok false.
Proof.
  refine (proj2 (proj2 (proj2
            (unauthenticated_uploader_refused (H := manager_host) _ _
               (sample_uploader (Some 1) "00:11") _ _))));
    reflexivity.
Defined.

(** X2.  Being a superuser opens the detail of every object and
    nothing else: an authenticated superuser who manages no facility
    reads the detail of an uploader, and is refused its list, its
    creation and its update. *)
Theorem superuser_reads_detail_only `{Host} (object_list : list Obj)
    (bundle : Bundle Obj) :
  is_authenticated (user (request bundle)) = true →
  is_superuser (user (request bundle)) = true →
  ACLAuthorization.read_detail object_list bundle = Ok true ∧
  (facilities_managed_by (user (request bundle)) = [] →
   ∀ u, obj bundle = ObjUploader u →
     ACLAuthorization.read_list object_list bundle = Ok [] ∧
     ACLAuthorization.create_detail object_list bundle = Ok false ∧
     ACLAuthorization.update_detail object_list bundle = Ok false).
Proof.
  intros Hauth Hsuper. split.
  - unfold ACLAuthorization.read_detail. by rewrite Hauth, Hsuper.
  - intros Hnone u Hobj.
    unfold ACLAuthorization.read_list, ACLAuthorization.create_detail,
      ACLAuthorization.update_detail, ACLAuthorization.is_facility_manager.
    by rewrite Hobj, Hauth, Hnone.
Qed.

Lemma superuser_reads_detail_only_witness :
  ACLAuthorization.read_detail (H := bare_host) []
    (bundle_of (ObjUploader blank_uploader) ∅
       (get_request ∅ {| auth_user_id := 1; is_authenticated := true;
                         is_superuser := true |}))
  = Ok true ∧
  ACLAuthorization.update_detail (H := bare_host) []
    (bundle_of (ObjUploader blank_uploader) ∅
       (get_request ∅ {| auth_user_id := 1; is_authenticated := true;
                         is_superuser := true |}))
  = Ok false.
Proof.
  destruct (superuser_reads_detail_only (H := bare_host) []
              (bundle_of (ObjUploader blank_uploader) ∅
                 (get_request ∅ {| auth_user_id := 1; is_authenticated := true;
                                   is_superuser := true |}))
              eq_refl eq_refl) as [Hread Hrest].
  split; [exact Hread|].
  exact (proj2 (proj2 (Hrest eq_refl blank_uploader eq_refl))).
Defined.

(** X3.  The update of an uploader by a facility manager whose payload
    has no [uuid] ends with a KeyError; the same payload from anyone
    else is refused without one. *)
Theorem update_detail_without_uuid `{Host} (object_list : list Obj)
    (bundle : Bundle Obj) (u : Uploader) :
  obj bundle = ObjUploader u →
  data bundle !! "uuid" = None →
  ACLAuthorization.update_detail object_list bundle =
  if ACLAuthorization.is_facility_manager (user (request bundle))
  then Raise (KeyError "uuid") else Ok false.
Proof.
  intros Hobj Hnone. unfold ACLAuthorization.update_detail, getitem.
  rewrite Hobj, Hnone.
  by destruct (ACLAuthorization.is_facility_manager _).
Qed.

Lemma update_detail_without_uuid_witness :
  ACLAuthorization.update_detail (H := manager_host) []
    (bundle_of (ObjUploader blank_uploader) ∅ (get_request ∅ manager))
  = Raise (KeyError "uuid").
Proof.
  exact (update_detail_without_uuid (H := manager_host) []
           (bundle_of (ObjUploader blank_uploader) ∅ (get_request ∅ manager))
           blank_uploader eq_refl eq_refl).
Defined.

(** ** Uploaders *)

(** X4.  [obj_update] runs once on a bundle: given the bundle it
    returned, it returns [None] and leaves the world as it is, with no
    reading of the clock and no call of the parent. *)
Theorem obj_update_runs_once `{Host} (bundle updated : Bundle Uploader)
    (w w' : World) :
  UploaderAppResource.obj_update bundle w = (Ok (Some updated), w') →
  UploaderAppResource.obj_update updated w' = (Ok None, w').
Proof.
  unfold UploaderAppResource.obj_update.
  case_bool_decide as Hdone; [by intros [= ]|].
  unfold mbind, M_bind, datetime_now, mret, M_ret.
  match goal with
  | |- context [super_obj_update ?b ?w0] =>
      destruct (super_obj_update b w0) as [[b'|e] w1]
  end; [|by intros [= ]].
  intros [= <- <-]. simpl. reflexivity.
Qed.

Lemma obj_update_runs_once_witness :
  UploaderAppResource.obj_update (H := bare_host)
    (set_obj_update_done (Some true)
       (bundle_of blank_uploader {["updated_time" := VTime 1000]}
                  (get_request ∅ anonymous)))
    (set_reads 1 empty_world)
  = (Ok None, set_reads 1 empty_world).
Proof.
  apply (obj_update_runs_once (H := bare_host)
           (bundle_of blank_uploader ∅ (get_request ∅ anonymous))
           _ empty_world).
  vm_compute. reflexivity.
Defined.

(** X5.  The time stamps of the payload never reach the parent:
    [obj_create] does the same whatever [created_time] and
    [updated_time] the client sent, and it passes every other entry of
    the payload on as it was sent. *)
Theorem obj_create_ignores_sent_times `{Host} (bundle : Bundle Uploader)
    (w : World) (sent_created sent_updated : pyval) :
  UploaderAppResource.obj_create
    (set_data (<["created_time" := sent_created]>
                 (<["updated_time" := sent_updated]> (data bundle))) bundle) w
  = UploaderAppResource.obj_create bundle w ∧
  ∃ stamped,
    UploaderAppResource.obj_create bundle w
    = super_obj_create stamped (set_reads (2 + reads w) w) ∧
    request stamped = request bundle ∧
    ∀ key, key ≠ "created_time" → key ≠ "updated_time" →
           key ≠ "wan_ip_address" →
           data stamped !! key = data bundle !! key.
Proof.
  split.
  - unfold UploaderAppResource.obj_create, mbind, M_bind, datetime_now.
    cbn [set_data data request obj obj_update_done].
    assert (∀ (a b : pyval),
              <["updated_time" := a]>
                (<["created_time" := b]>
                   (<["created_time" := sent_created]>
                      (<["updated_time" := sent_updated]> (data bundle))))
              = <["updated_time" := a]> (<["created_time" := b]> (data bundle)))
      as Hsame.
    { intros a b. apply map_eq. intros key.
      destruct (decide (key = "updated_time")) as [->|Hu];
        [by rewrite !lookup_insert_eq|].
      rewrite !(lookup_insert_ne _ "updated_time") by done.
      destruct (decide (key = "created_time")) as [->|Hc];
        [by rewrite !lookup_insert_eq|].
      rewrite !(lookup_insert_ne _ "created_time") by done.
      by rewrite lookup_insert_ne. }
    rewrite Hsame. reflexivity.
  - unfold UploaderAppResource.obj_create, mbind, M_bind, datetime_now.
    cbn [set_data data request obj obj_update_done].
    eexists. split; [reflexivity|].
    destruct (get_ip (request bundle)); cbn [set_data data request];
      (split; [done|]); intros key Hc Hu Hw;
      by rewrite ?lookup_insert_ne.
Qed.

Lemma bundle_eq {O} (b1 b2 : Bundle O) :
  obj b1 = obj b2 → data b1 = data b2 → request b1 = request b2 →
  obj_update_done b1 = obj_update_done b2 → b1 = b2.
Proof. destruct b1, b2. simpl. by intros -> -> -> ->. Qed.

(** X6.  [dehydrate] keeps the value of every accessible key, and
    dehydrating a second time changes nothing. *)
Theorem dehydrate_keeps_accessible (bundle : Bundle Uploader) :
  (∀ key, key ∈ UploaderAppResource.accessible_keys →
     data (UploaderAppResource.dehydrate bundle) !! key = data bundle !! key) ∧
  UploaderAppResource.dehydrate (UploaderAppResource.dehydrate bundle)
  = UploaderAppResource.dehydrate bundle.
Proof.
  split.
  - intros key Hkey. rewrite dehydrate_lookup.
    by rewrite bool_decide_eq_true_2.
  - apply bundle_eq; try reflexivity.
    apply map_eq. intros key. rewrite !dehydrate_lookup.
    by case_bool_decide.
Qed.

Lemma dehydrate_keeps_accessible_witness :
  data (UploaderAppResource.dehydrate
          (bundle_of blank_uploader
             (<["name" := VStr "scope"]> {["hostname" := VStr "lab"]})
             (get_request ∅ anonymous))) !! "name"
  = Some (VStr "scope").
Proof.
  rewrite (proj1 (dehydrate_keeps_accessible _) "name").
  - reflexivity.
  - unfold UploaderAppResource.accessible_keys. set_solver.
Defined.

(** ** Settings of uploaders *)

(** X7.  For an uploader that has no id yet, or whose id is 0, and for
    a payload without [settings], [hydrate_m2m] is the parent's: no
    setting is read or written, the clock is not read and the uploader
    is not saved. *)
Theorem hydrate_m2m_without_settings `{Host} (bundle : Bundle Uploader)
    (w : World) :
  UploaderAppResource.truthy (uploader_id (obj bundle)) = false ∨
  data bundle !! "settings" = None →
  UploaderAppResource.hydrate_m2m bundle w = super_hydrate_m2m bundle w.
Proof.
  intros Hskip.
  unfold UploaderAppResource.hydrate_m2m, UploaderAppResource.hydrate_settings.
  destruct (uploader_id (obj bundle)) as [i|]; [|done].
  destruct Hskip as [-> | ->]; [done|].
  rewrite bool_decide_eq_false_2 by (by intros [? ?]).
  by rewrite andb_false_r.
Qed.

Lemma hydrate_m2m_without_settings_witness :
  UploaderAppResource.hydrate_m2m (H := bare_host)
    (bundle_of (sample_uploader (Some 0) "00:11")
       {["settings" := VDicts [{["key" := "folder"]}]]}
       (get_request ∅ manager))
    sample_world
  = (Ok (bundle_of (sample_uploader (Some 0) "00:11")
           {["settings" := VDicts [{["key" := "folder"]}]]}
           (get_request ∅ manager)),
     sample_world).
Proof.
  apply (hydrate_m2m_without_settings (H := bare_host)). by left.
Defined.

Section SettingsMore.
Import UploaderAppResource SettingsSpec.

Lemma for_each_app {A} (body : A → M unit) (l1 l2 : list A) (w : World) :
  for_each body (l1 ++ l2) w =
  (for_each body l1 ≫= λ _, for_each body l2) w.
Proof.
  revert w. induction l1 as [|x l1 IH]; intros w; [done|].
  cbn [for_each app]. unfold mbind, M_bind in *.
  destruct (body x w) as [[[]|e] w1]; [|done]. apply IH.
Qed.

Lemma upsert_setting_without_key (uploader_pk : Z)
    (entry : gmap string string) (w : World) :
  entry !! "key" = None →
  upsert_setting uploader_pk entry w = (Raise (KeyError "key"), w).
Proof.
  intros Hnone. unfold upsert_setting, mbind, M_bind, lift, getitem.
  by rewrite Hnone.
Qed.

Lemma foldl_upsert_table_ok (uploader_pk : Z)
    (settings : list (gmap string string)) (tbl : list UploaderSetting) :
  table_ok tbl → table_ok (foldl (upsert_entry uploader_pk) tbl settings).
Proof.
  revert tbl. induction settings as [|entry rest IH]; intros tbl Hok; [done|].
  cbn [foldl]. apply IH. unfold upsert_entry.
  destruct (entry !! "key"); [|done]. destruct (entry !! "value"); [|done].
  by apply upsert_row_table_ok.
Qed.

(** Whatever the entries are, the settings of other uploaders stay. *)
Lemma upsert_loop_others (uploader_pk : Z)
    (settings : list (gmap string string)) (w : World) :
  table_ok (uploader_settings w) →
  ∃ r tbl',
    for_each (upsert_setting uploader_pk) settings w
    = (r, set_uploader_settings tbl' w) ∧
    ∀ u k, u ≠ uploader_pk →
           stored u k tbl' = stored u k (uploader_settings w).
Proof.
  revert w. induction settings as [|entry rest IH]; intros w Hok.
  - exists (Ok ()), (uploader_settings w). split; [|done].
    by rewrite world_eta.
  - cbn [for_each]. unfold mbind, M_bind.
    destruct (entry !! "key") as [ke|] eqn:Hke;
      [destruct (entry !! "value") as [ve|] eqn:Hve;
       [destruct (decide (length (stored uploader_pk ke
                                    (uploader_settings w)) ≤ 1)%nat)
          as [Hone|Hmany]|]|].
    + rewrite (upsert_setting_ok _ _ ke ve) by done.
      destruct (IH (set_uploader_settings
                      (upsert_row uploader_pk ke ve (uploader_settings w)) w))
        as (r & tbl' & Hrun & Hothers).
      { by apply upsert_row_table_ok. }
      exists r, tbl'. split; [exact Hrun|]. intros u k Hu.
      rewrite (Hothers u k Hu). simpl.
      apply stored_upsert_other. by intros [? _].
    + destruct (upsert_setting_fail uploader_pk entry w) as [e ->].
      { intros k v Hk Hv. rewrite Hke in Hk. injection Hk as <-. lia. }
      exists (Raise e), (uploader_settings w). split; [|done].
      by rewrite world_eta.
    + destruct (upsert_setting_fail uploader_pk entry w) as [e ->].
      { intros k v _ Hv. by rewrite Hve in Hv. }
      exists (Raise e), (uploader_settings w). split; [|done].
      by rewrite world_eta.
    + destruct (upsert_setting_fail uploader_pk entry w) as [e ->].
      { intros k v Hk _. by rewrite Hke in Hk. }
      exists (Raise e), (uploader_settings w). split; [|done].
      by rewrite world_eta.
Qed.
End SettingsMore.

(** X8.  The loop over the settings has no rollback: when an entry of
    the payload has no [key], [hydrate_m2m] ends with a KeyError after
    the entries before it were upserted; the clock was not read, the
    uploader was not saved and the parent was not called. *)
Theorem hydrate_settings_stops_at_bad_entry `{Host}
    (bundle : Bundle Uploader) (w : World) (uploader_pk : Z)
    (good rest : list (gmap string string)) (bad : gmap string string) :
  uploader_id (obj bundle) = Some uploader_pk → uploader_pk ≠ 0 →
  data bundle !! "settings" = Some (VDicts (good ++ bad :: rest)) →
  table_ok (uploader_settings w) →
  Forall (λ entry, is_Some (entry !! "key") ∧ is_Some (entry !! "value"))
         good →
  (∀ k, (length (SettingsSpec.stored uploader_pk k (uploader_settings w)) ≤ 1)
        %nat) →
  bad !! "key" = None →
  UploaderAppResource.hydrate_m2m bundle w =
  (Raise (KeyError "key"),
   set_uploader_settings
     (foldl (SettingsSpec.upsert_entry uploader_pk) (uploader_settings w) good)
     w).
Proof.
  intros Hid Hnz Hsettings Hok Hgood Hone Hbad.
  unfold UploaderAppResource.hydrate_m2m.
  unfold mbind at 1, M_bind at 1.
  rewrite (hydrate_settings_eq _ _ _ _ Hid Hnz Hsettings).
  unfold mbind at 1, M_bind at 1.
  rewrite for_each_app. unfold mbind at 1, M_bind at 1.
  rewrite (upsert_loop_ok _ _ _ Hgood Hok Hone).
  cbn [for_each]. unfold mbind at 1, M_bind at 1.
  by rewrite upsert_setting_without_key.
Qed.

Lemma hydrate_settings_stops_at_bad_entry_witness :
  UploaderAppResource.hydrate_m2m (H := bare_host)
    (bundle_of (sample_uploader (Some 1) "00:11")
       {["settings" :=
           VDicts ([<["key" := "folder"]> {["value" := "/mnt/data"]}]
                   ++ {["value" := "60"]} :: [])]}
       (get_request ∅ manager))
    sample_world
  = (Raise (KeyError "key"),
     set_uploader_settings
       [sample_setting (Some 1) 1 "folder" "/mnt/data"] sample_world).
Proof.
  refine (hydrate_settings_stops_at_bad_entry (H := bare_host)
            (bundle_of (sample_uploader (Some 1) "00:11")
               {["settings" :=
                   VDicts ([<["key" := "folder"]> {["value" := "/mnt/data"]}]
                           ++ {["value" := "60"]} :: [])]}
               (get_request ∅ manager))
            sample_world 1
            [<["key" := "folder"]> {["value" := "/mnt/data"]}] []
            {["value" := "60"]} eq_refl _ eq_refl _ _ _ eq_refl).
  - done.
  - split; [|split];
      [repeat constructor; by eexists|apply NoDup_singleton|constructor].
  - repeat constructor; by eexists.
  - intros k. unfold SettingsSpec.stored. rewrite length_fmap.
    apply (length_filter _ [_]).
Defined.

(** X9.  Whatever the payload is and however the update ends, the
    settings of every other uploader, the registration requests and
    [temp_url] are as before: [hydrate_m2m] of an uploader, up to the
    call of the parent, writes settings of that uploader only. *)
Theorem hydrate_settings_writes_own_settings_only `{Host}
    (bundle : Bundle Uploader) (w w' : World)
    (r : result (Bundle Uploader)) :
  table_ok (uploader_settings w) →
  UploaderAppResource.hydrate_settings bundle w = (r, w') →
  (∀ u k, Some u ≠ uploader_id (obj bundle) →
     SettingsSpec.stored u k (uploader_settings w')
     = SettingsSpec.stored u k (uploader_settings w)) ∧
  registration_requests w' = registration_requests w ∧
  temp_url w' = temp_url w.
Proof.
  intros Hok. unfold UploaderAppResource.hydrate_settings.
  destruct (uploader_id (obj bundle)) as [uploader_pk|];
    [|by intros [= <- <-]].
  destruct (UploaderAppResource.truthy (Some uploader_pk)
            && bool_decide (is_Some (data bundle !! "settings")));
    [|by intros [= <- <-]].
  unfold mbind at 1, M_bind at 1, lift.
  destruct (getitem (data bundle) "settings"
            ≫= UploaderAppResource.iter_settings) as [settings|e];
    [|by intros [= <- <-]].
  destruct (upsert_loop_others uploader_pk settings w Hok)
    as (r0 & tbl' & Hloop & Hothers).
  unfold mbind at 1, M_bind at 1. rewrite Hloop.
  assert (∀ u k, Some u ≠ Some uploader_pk →
            SettingsSpec.stored u k tbl'
            = SettingsSpec.stored u k (uploader_settings w)) as Hkept.
  { intros u k Hu. apply Hothers. congruence. }
  destruct r0 as [[]|e]; [|by intros [= <- <-]].
  unfold mbind, M_bind, datetime_now, save_in, mret, M_ret.
  cbn [reads set_uploader_settings uploaders].
  match goal with
  | |- context [save ?row ?tbl] =>
      destruct (save row tbl) as [[saved ups]|e]
  end; by intros [= <- <-].
Qed.

Lemma hydrate_settings_writes_own_settings_only_witness :
  SettingsSpec.stored 1 "folder"
    (uploader_settings
       (UploaderAppResource.hydrate_settings (H := bare_host)
          (bundle_of (sample_uploader (Some 2) "00:22")
             {["settings" :=
                 VDicts [<["key" := "folder"]> {["value" := "/tmp"]}]]}
             (get_request ∅ manager))
          sample_world).2)
  = ["/data"].
Proof.
  refine (proj1 (hydrate_settings_writes_own_settings_only (H := bare_host)
                   (bundle_of (sample_uploader (Some 2) "00:22")
                      {["settings" :=
                          VDicts [<["key" := "folder"]> {["value" := "/tmp"]}]]}
                      (get_request ∅ manager))
                   sample_world _ _ _ _) 1 "folder" _).
  - split; [|split];
      [repeat constructor; by eexists|apply NoDup_singleton|constructor].
  - apply surjective_pairing.
  - done.
Defined.

(** X10.  Sending the same settings a second time changes no stored
    value: after one run of the loop over well-formed entries, a second
    run succeeds and every uploader and key has the values it had. *)
Theorem upsert_settings_twice (uploader_pk : Z)
    (settings : list (gmap string string)) (w : World) :
  table_ok (uploader_settings w) →
  Forall (λ entry, is_Some (entry !! "key") ∧ is_Some (entry !! "value"))
         settings →
  (∀ k, (length (SettingsSpec.stored uploader_pk k (uploader_settings w)) ≤ 1)
        %nat) →
  ∃ w1 w2,
    for_each (UploaderAppResource.upsert_setting uploader_pk) settings w
    = (Ok (), w1) ∧
    for_each (UploaderAppResource.upsert_setting uploader_pk) settings w1
    = (Ok (), w2) ∧
    ∀ u k, SettingsSpec.stored u k (uploader_settings w2)
           = SettingsSpec.stored u k (uploader_settings w1).
Proof.
  intros Hok Hwf Hone.
  set (t1 := foldl (SettingsSpec.upsert_entry uploader_pk)
                   (uploader_settings w) settings).
  assert (∀ k, (length (SettingsSpec.stored uploader_pk k t1) ≤ 1)%nat)
    as Hone1.
  { intros k. unfold t1. rewrite stored_foldl by done.
    rewrite decide_True by done.
    destruct (SettingsSpec.sent_value settings k); [simpl; lia|apply Hone]. }
  exists (set_uploader_settings t1 w).
  eexists. split; [by apply upsert_loop_ok|].
  split.
  - apply upsert_loop_ok; [done| |done].
    by apply foldl_upsert_table_ok.
  - intros u k. cbn [uploader_settings set_uploader_settings].
    rewrite (stored_foldl _ _ t1) by done.
    destruct (decide (u = uploader_pk)) as [->|Hu]; [|done].
    destruct (SettingsSpec.sent_value settings k) as [v|] eqn:Hsent; [|done].
    unfold t1. rewrite stored_foldl by done.
    rewrite decide_True by done. by rewrite Hsent.
Qed.

Lemma upsert_settings_twice_witness :
  ∃ w1 w2,
    for_each (UploaderAppResource.upsert_setting 1)
      [<["key" := "folder"]> {["value" := "/mnt/data"]}] sample_world
    = (Ok (), w1) ∧
    for_each (UploaderAppResource.upsert_setting 1)
      [<["key" := "folder"]> {["value" := "/mnt/data"]}] w1
    = (Ok (), w2) ∧
    ∀ u k, SettingsSpec.stored u k (uploader_settings w2)
           = SettingsSpec.stored u k (uploader_settings w1).
Proof.
  apply upsert_settings_twice.
  - split; [|split];
      [repeat constructor; by eexists|apply NoDup_singleton|constructor].
  - repeat constructor; by eexists.
  - intros k. unfold SettingsSpec.stored. rewrite length_fmap.
    apply (length_filter _ [_]).
Defined.

(** ** Creation of registration requests *)

(** X11.  The mail to the admins cannot undo or fail a registration:
    [obj_create] returns the bundle the parent created whatever the
    site lookup and the mail do, it raises exactly when the parent
    does, and then nothing is sent.  When the site is found and the
    request has an id, the admins get the message with that site and
    id. *)
Theorem registration_request_created_despite_mail `{Notifier}
    (bundle : Bundle UploaderRegistrationRequest) (w : World) :
  (∀ created w1,
     super_request_obj_create bundle w = (Ok created, w1) →
     ∃ w2, UploaderRegistrationRequestAppResource.obj_create bundle w
           = (Ok created, w2)) ∧
  (∀ e w1,
     super_request_obj_create bundle w = (Raise e, w1) →
     UploaderRegistrationRequestAppResource.obj_create bundle w
     = (Raise e, w1)) ∧
  (∀ created w1 site w1' id,
     super_request_obj_create bundle w = (Ok created, w1) →
     current_site_domain w1 = (Ok site, w1') →
     request_id (obj created) = Some id →
     UploaderRegistrationRequestAppResource.obj_create bundle w
     = (Ok created,
        (mail_admins UploaderRegistrationRequestAppResource.subject
           (UploaderRegistrationRequestAppResource.message site id) w1').2)).
Proof.
  unfold UploaderRegistrationRequestAppResource.obj_create, mbind, M_bind.
  split; [|split].
  - intros created w1 ->. unfold try_except, mret, M_ret.
    destruct (UploaderRegistrationRequestAppResource.inform_admins created w1)
      as [[[]|e] w2]; by eexists.
  - by intros e w1 ->.
  - intros created w1 site w1' id -> Hsite Hid.
    unfold try_except, UploaderRegistrationRequestAppResource.inform_admins,
      mbind, M_bind, lift, mret, M_ret.
    rewrite Hsite, Hid.
    by destruct (mail_admins _ _ w1') as [[[]|e] w2].
Qed.

Lemma registration_request_created_despite_mail_witness :
  UploaderRegistrationRequestAppResource.obj_create (H := failing_notifier)
    (bundle_of (sample_request (Some 1) 1 "aa:bb") ∅ (get_request ∅ manager))
    empty_world
  = (Ok (bundle_of (sample_request (Some 1) 1 "aa:bb") ∅
                   (get_request ∅ manager)),
     empty_world).
Proof.
  exact (proj2 (proj2 (registration_request_created_despite_mail
                         (H := failing_notifier)
                         (bundle_of (sample_request (Some 1) 1 "aa:bb") ∅
                                    (get_request ∅ manager))
                         empty_world))
           _ empty_world "tardis.example.org" empty_world 1
           eq_refl eq_refl eq_refl).
Defined.

(** ** Replicas *)

(** X12.  [dehydrate] of a replica fails only with what reading the
    file object raised, and never with an AttributeError or an IOError.
    When it returns, the data has the name of the storage box as
    [location] and a [size] that is either [None] or the size the file
    object gave, and every other entry as before: nothing is removed. *)
Theorem replica_dehydrate_adds_location_and_size
    (bundle : Bundle DataFileObject) :
  (∀ e, ReplicaAppResource.dehydrate bundle = Raise e →
     e ≠ AttributeError ∧ e ≠ IOError ∧
     (file_object (obj bundle) = Raise e ∨
      file_object (obj bundle) = Ok (Some (Raise e)))) ∧
  (∀ out, ReplicaAppResource.dehydrate bundle = Ok out →
     obj out = obj bundle ∧
     data out !! "location" = Some (VStr (storage_box_name (obj bundle))) ∧
     (data out !! "size" = Some VNone ∨
      ∃ size, data out !! "size" = Some (VInt size) ∧
              file_object (obj bundle) = Ok (Some (Ok size))) ∧
     ∀ key, key ≠ "location" → key ≠ "size" →
            data out !! key = data bundle !! key).
Proof.
  unfold ReplicaAppResource.dehydrate, ReplicaAppResource.file_object_size,
    ReplicaAppResource.size_after.
  split.
  - intros e.
    destruct (file_object (obj bundle)) as [[[size|e']|]|e'];
      cbn [mbind result_bind]; try done;
      repeat case_bool_decide; cbn [mbind result_bind]; try done;
      intros [= <-]; eauto.
  - intros out.
    assert (∀ v : pyval,
              <["size" := v]>
                (<["location" := VStr (storage_box_name (obj bundle))]>
                   (data bundle)) !! "location"
              = Some (VStr (storage_box_name (obj bundle)))) as Hloc.
    { intros v. rewrite lookup_insert_ne by done. apply lookup_insert_eq. }
    destruct (file_object (obj bundle)) as [[[size|e']|]|e'];
      cbn [mbind result_bind]; try done;
      repeat case_bool_decide; cbn [mbind result_bind]; try done;
      intros [= <-]; cbn [set_data data obj];
      (split; [done|]); (split; [apply Hloc|]);
      (split; [rewrite lookup_insert_eq; eauto|]);
      intros key Hl Hs; by rewrite !lookup_insert_ne.
Qed.

Lemma replica_dehydrate_adds_location_and_size_witness :
  data (bundle_of {| dfo_datafile := sample_datafile;
                     storage_box_name := "default";
                     file_object := Raise IOError |}
          (<["size" := VNone]>
             (<["location" := VStr "default"]> {["url" := VStr "a/b.tif"]}))
          (get_request ∅ manager)) !! "url"
  = Some (VStr "a/b.tif").
Proof.
  refine (proj2 (proj2 (proj2
            (proj2 (replica_dehydrate_adds_location_and_size
                      (bundle_of {| dfo_datafile := sample_datafile;
                                    storage_box_name := "default";
                                    file_object := Raise IOError |}
                         {["url" := VStr "a/b.tif"]} (get_request ∅ manager)))
               _ _))) "url" _ _); [vm_compute; reflexivity|done|done].
Defined.

(** ** Storage of a new data file *)

Section DataFileStorage.
Context `{Host}.

(** What [obj_create] does after the parent created the data file. *)
Lemma datafile_obj_create_after (bundle retval : Bundle DataFile)
    (w w1 : World) :
  super_datafile_obj_create bundle w = (Ok retval, w1) →
  DataFileAppResource.obj_create bundle w =
  (if match data retval !! "replicas" with
      | None => true
      | Some replicas => DataFileAppResource.falsy replicas
      end
   then
     sbox ← try_except (DataFileAppResource.approved_box retval (obj retval))
                       (λ _, get_receiving_storage_box (obj retval));
     match sbox with
     | None => raise NotImplementedError
     | Some box =>
         url ← create_dfo (obj retval) box;
         _ ← DataFileAppResource.store_temp_url url;
         mret retval
     end
   else mret retval) w1.
Proof.
  intros Hsuper.
  unfold DataFileAppResource.obj_create, DataFileAppResource.create_datafile.
  unfold mbind at 1, M_bind at 1, try_except at 1. by rewrite Hsuper.
Qed.

(** The lookup of the approved storage box never returns one. *)
Lemma approved_box_raises (bundle : Bundle DataFile) (datafile : DataFile)
    (w : World) :
  ∃ e, DataFileAppResource.approved_box bundle datafile w = (Raise e, w).
Proof.
  unfold DataFileAppResource.approved_box.
  destruct (data bundle !! "uploader_uuid");
    [destruct (data bundle !! "requester_key_fingerprint");
     [by eexists|]|];
    (destruct (dataset_instrument datafile); [|by eexists];
     cbn [mbind result_bind];
     match goal with
     | |- context [objects_get ?P ?tbl] => destruct (objects_get P tbl)
     end; by eexists).
Qed.
End DataFileStorage.

(** X13.  A data file created with replicas gets no data file object
    from [obj_create]: no storage box is looked up, nothing more is
    written and [temp_url] stays; the result is the parent's. *)
Theorem datafile_with_replicas_not_stored `{Host}
    (bundle retval : Bundle DataFile) (w w1 : World) (replicas : pyval) :
  super_datafile_obj_create bundle w = (Ok retval, w1) →
  data retval !! "replicas" = Some replicas →
  DataFileAppResource.falsy replicas = false →
  DataFileAppResource.obj_create bundle w = (Ok retval, w1).
Proof.
  intros Hsuper Hreplicas Hgiven.
  rewrite (datafile_obj_create_after _ _ _ _ Hsuper).
  by rewrite Hreplicas, Hgiven.
Qed.

Lemma datafile_with_replicas_not_stored_witness :
  DataFileAppResource.obj_create (H := bare_host)
    (bundle_of sample_datafile
       {["replicas" := VDicts [{["url" := "a/b.tif"]}]]}
       (get_request ∅ manager))
    staging_world
  = (Ok (bundle_of sample_datafile
           {["replicas" := VDicts [{["url" := "a/b.tif"]}]]}
           (get_request ∅ manager)),
     staging_world).
Proof.
  apply (datafile_with_replicas_not_stored (H := bare_host) _ _ _ _
           (VDicts [{["url" := "a/b.tif"]}])); reflexivity.
Defined.

(** X14.  A data file created without replicas is stored in its
    receiving storage box, whatever the payload says of the uploader:
    the lookup of the approved storage box always ends in an exception,
    which leaves the world as it is and is caught.  Without a
    receiving storage box [obj_create] ends with NotImplementedError
    after the parent created the data file. *)
Theorem datafile_stored_in_receiving_box `{Host}
    (bundle retval : Bundle DataFile) (w w1 : World) :
  super_datafile_obj_create bundle w = (Ok retval, w1) →
  match data retval !! "replicas" with
  | None => true
  | Some replicas => DataFileAppResource.falsy replicas
  end = true →
  (∃ e, DataFileAppResource.approved_box retval (obj retval) w1
        = (Raise e, w1)) ∧
  DataFileAppResource.obj_create bundle w =
  (sbox ← get_receiving_storage_box (obj retval);
   match sbox with
   | None => raise NotImplementedError
   | Some box =>
       url ← create_dfo (obj retval) box;
       _ ← DataFileAppResource.store_temp_url url;
       mret retval
   end) w1 ∧
  (∀ w2, get_receiving_storage_box (obj retval) w1 = (Ok None, w2) →
         DataFileAppResource.obj_create bundle w
         = (Raise NotImplementedError, w2)).
Proof.
  intros Hsuper Hreplicas.
  destruct (approved_box_raises retval (obj retval) w1) as [e He].
  split; [by exists e|].
  rewrite (datafile_obj_create_after _ _ _ _ Hsuper). rewrite Hreplicas.
  assert (∀ A (f : option Z → M A),
            (try_except (DataFileAppResource.approved_box retval (obj retval))
                        (λ _, get_receiving_storage_box (obj retval))
             ≫= f) w1
            = (get_receiving_storage_box (obj retval) ≫= f) w1) as Hbox.
  { intros A f. unfold mbind, M_bind, try_except. by rewrite He. }
  split; [apply Hbox|].
  intros w2 Hnone. rewrite Hbox. unfold mbind, M_bind. by rewrite Hnone.
Qed.

Lemma datafile_stored_in_receiving_box_witness :
  DataFileAppResource.obj_create (H := storage_host None)
    staged_upload staging_world
  = (Raise NotImplementedError, staging_world).
Proof.
  apply (proj2 (proj2 (datafile_stored_in_receiving_box
                         (H := storage_host None)
                         staged_upload staged_upload
                         staging_world staging_world eq_refl eq_refl)));
    reflexivity.
Defined.

Lemma filter_none {A} (P : A → Prop) `{∀ x, Decision (P x)} (l : list A) :
  Forall (λ x, ¬ P x) l → filter P l = [].
Proof.
  induction 1 as [|x l Hx _ IH]; [done|].
  by rewrite filter_cons_False.
Qed.

(** X15.  An upload that names an uploader and a key is stored all the
    same, registered or not: the lookup of the uploader fails, the
    receiving storage box of the data file is taken, the data file
    object is created there and its path becomes [temp_url]. *)
Theorem datafile_of_unknown_uploader_stored `{Host}
    (bundle retval : Bundle DataFile) (w w1 w2 w3 : World)
    (uploader_uuid fingerprint : pyval) (box : Z) (url : string) :
  super_datafile_obj_create bundle w = (Ok retval, w1) →
  data retval !! "replicas" = None →
  data retval !! "uploader_uuid" = Some uploader_uuid →
  data retval !! "requester_key_fingerprint" = Some fingerprint →
  get_receiving_storage_box (obj retval) w1 = (Ok (Some box), w2) →
  create_dfo (obj retval) box w2 = (Ok url, w3) →
  DataFileAppResource.obj_create bundle w
  = (Ok retval, set_temp_url (Some url) w3).
Proof.
  intros Hsuper Hreplicas Huuid Hfinger Hbox Hdfo.
  rewrite (datafile_obj_create_after _ _ _ _ Hsuper). rewrite Hreplicas.
  unfold mbind, M_bind, try_except, DataFileAppResource.approved_box.
  rewrite Huuid, Hfinger, Hbox, Hdfo. reflexivity.
Qed.

Lemma datafile_of_unknown_uploader_stored_witness :
  DataFileAppResource.obj_create (H := storage_host (Some 3))
    (bundle_of sample_datafile
       (<["uploader_uuid" := VStr "u-7"]>
          {["requester_key_fingerprint" := VStr "aa:bb"]})
       (get_request ∅ manager))
    staging_world
  = (Ok (bundle_of sample_datafile
           (<["uploader_uuid" := VStr "u-7"]>
              {["requester_key_fingerprint" := VStr "aa:bb"]})
           (get_request ∅ manager)),
     set_temp_url (Some "/store/3") staging_world).
Proof.
  apply (datafile_of_unknown_uploader_stored (H := storage_host (Some 3))
           _ _ _ staging_world staging_world staging_world
           (VStr "u-7") (VStr "aa:bb") 3 "/store/3");
    reflexivity.
Defined.

(** ** The folder structure and the scans *)

Section Scans.
Import ExperimentAppResource ExperimentSpec.
Context {text : Text}.

Lemma first_experiment_never (db : Database)
    (P : ExperimentParameterSet → bool)
    (psets : list ExperimentParameterSet) :
  (∀ ps, P ps = false) → first_experiment db P psets = [].
Proof.
  intros Hnever. unfold first_experiment.
  induction psets as [|ps psets IH]; [done|].
  cbn [List.find]. by rewrite Hnever.
Qed.

Lemma accessible_experiment_some (db : Database) (requester : AuthUser)
    (ps : ExperimentParameterSet) (l : list (Z * Experiment)) :
  accessible_experiment db requester ps = Ok (Some l) →
  ∃ e, l = [(pset_experiment ps, e)] ∧
       experiments db !! pset_experiment ps = Some e ∧
       pset_experiment ps ∈ safe_all db requester.
Proof.
  rewrite accessible_experiment_eq.
  destruct (experiments db !! pset_experiment ps) as [e|]; [|done].
  unfold accessible. case_bool_decide as Hacc; [|done].
  intros [= <-]. exists e. by destruct Hacc.
Qed.

(** What either scan returns is one experiment that exists and that
    the requesting user may see. *)
Lemma title_scan_accessible (db : Database) (requester : AuthUser)
    (L : Locals) (psets : list ExperimentParameterSet)
    (l : list (Z * Experiment)) :
  title_scan db requester L psets = Ok l →
  l = [] ∨ ∃ ps e, ps ∈ psets ∧ l = [(pset_experiment ps, e)] ∧
                   experiments db !! pset_experiment ps = Some e ∧
                   pset_experiment ps ∈ safe_all db requester.
Proof.
  induction psets as [|ps psets IH]; [intros [= <-]; by left|].
  assert (title_scan db requester L psets = Ok l →
          l = [] ∨ ∃ ps0 e, ps0 ∈ ps :: psets ∧
                            l = [(pset_experiment ps0, e)] ∧
                            experiments db !! pset_experiment ps0 = Some e ∧
                            pset_experiment ps0 ∈ safe_all db requester)
    as Hrest.
  { intros Hscan. destruct (IH Hscan) as [?|(ps0 & e & ? & ?)]; [by left|].
    right. exists ps0, e. split; [by right|done]. }
  cbn [title_scan].
  destruct (fold_result _ _ _) as [[mu mg]|]; [|done].
  cbn [mbind result_bind].
  destruct (_ || _); [|done].
  destruct (accessible_experiment db requester ps) as [[found|]|] eqn:Hacc;
    cbn [mbind result_bind]; [|done|done].
  intros [= <-]. apply accessible_experiment_some in Hacc as (e & -> & ? & ?).
  right. exists ps, e. split; [by left|done].
Qed.

Lemma uploader_scan_accessible (db : Database) (requester : AuthUser)
    (uploader_uuid : string) (L : Locals)
    (psets : list ExperimentParameterSet) (l : list (Z * Experiment)) :
  uploader_scan db requester uploader_uuid L psets = Ok l →
  l = [] ∨ ∃ ps e, ps ∈ psets ∧ l = [(pset_experiment ps, e)] ∧
                   experiments db !! pset_experiment ps = Some e ∧
                   pset_experiment ps ∈ safe_all db requester.
Proof.
  induction psets as [|ps psets IH]; [intros [= <-]; by left|].
  assert (uploader_scan db requester uploader_uuid L psets = Ok l →
          l = [] ∨ ∃ ps0 e, ps0 ∈ ps :: psets ∧
                            l = [(pset_experiment ps0, e)] ∧
                            experiments db !! pset_experiment ps0 = Some e ∧
                            pset_experiment ps0 ∈ safe_all db requester)
    as Hrest.
  { intros Hscan. destruct (IH Hscan) as [?|(ps0 & e & ? & ?)]; [by left|].
    right. exists ps0, e. split; [by right|done]. }
  cbn [uploader_scan].
  destruct (fold_result _ _ _) as [[[ma mu] mg]|]; [|done].
  cbn [mbind result_bind].
  destruct (_ && _); [|done].
  destruct (accessible_experiment db requester ps) as [[found|]|] eqn:Hacc;
    cbn [mbind result_bind]; [|done|done].
  intros [= <-]. apply accessible_experiment_some in Hacc as (e & -> & ? & ?).
  right. exists ps, e. split; [by left|done].
Qed.

Lemma folder_structure_sent (params : gmap string string) (fs : string) :
  params !! "folder_structure" = Some fs → folder_structure_of params = fs.
Proof. intros Hfs. unfold folder_structure_of. by rewrite Hfs. Qed.
End Scans.

(** X16.  The folder structure guessed for a request that names none
    asks for exactly one kind of match: for a group match when
    [strip()] of the group folder name is not the empty string, and
    otherwise for a user match, by email when the user folder name has
    an [@]. *)
Theorem guessed_structure_asks_one_match {text : Text} (params : gmap string string) :
  params !! "folder_structure" = None →
  ∃ fs,
    ExperimentAppResource.guess_folder_structure params = Some fs ∧
    ExperimentSpec.needs_user fs = negb (ExperimentSpec.needs_group fs) ∧
    (ExperimentSpec.needs_group fs = true ↔
     ∃ g, params !! "group_folder_name" = Some g ∧ strip g ≠ "") ∧
    (startswith fs "Email /" = true ↔
     ExperimentSpec.needs_group fs = false ∧
     ∃ u, params !! "user_folder_name" = Some u ∧ contains "@" u = true).
Proof.
  intros Hnone. unfold ExperimentAppResource.guess_folder_structure.
  rewrite Hnone.
  destruct (params !! "group_folder_name") as [g|] eqn:Hg;
    [case_bool_decide as Hblank|];
    try (destruct (params !! "user_folder_name") as [u|] eqn:Hu;
         [destruct (contains "@" u) eqn:Hat|]);
    eexists; (split; [reflexivity|]); (split; [reflexivity|]);
    split; split; try done; try (intros [_ (? & [= <-] & ?)]; congruence);
    try (intros (? & [= <-] & ?); done); try (intros (? & ? & ?); done);
    try (intros [_ (? & ? & ?)]; done); eauto.
Qed.

Lemma guessed_structure_asks_one_match_witness :
  ∃ fs,
    ExperimentAppResource.guess_folder_structure (text := ascii_text)
      (GET (query [("group_folder_name", "  "); ("user_folder_name", "a@b")]))
    = Some fs ∧ startswith fs "Email /" = true.
Proof.
  destruct (guessed_structure_asks_one_match (text := ascii_text)
              (GET (query [("group_folder_name", "  ");
                           ("user_folder_name", "a@b")]))
              ltac:(vm_compute; reflexivity))
    as (fs & Hguess & _ & _ & Hemail).
  exists fs. split; [exact Hguess|].
  vm_compute in Hguess. injection Hguess as <-. reflexivity.
Defined.

(** X17.  With a folder structure that asks for no match the title
    query does not look at parameters: it returns the first experiment
    with the title that has a default parameter set and that the
    requesting user may see, whatever folder names were sent. *)
Theorem title_query_without_match {text : Text} `{Host} (req : Request) (db : Database)
    (title_wanted fs : string) (schema : Schema) :
  GET req !! "title" = Some title_wanted →
  is_Some (GET req !! "user_folder_name") ∨
  is_Some (GET req !! "group_folder_name") →
  GET req !! "folder_structure" = Some fs →
  ExperimentSpec.needs_user fs = false →
  ExperimentSpec.needs_group fs = false →
  ExperimentAppResource.get_default_schema db = Ok schema →
  ExperimentAppResource.obj_get_list req db =
  Ok (ExperimentSpec.first_experiment db
        (ExperimentSpec.accessible db (user req))
        (ExperimentAppResource.title_psets db title_wanted schema)).
Proof.
  intros Htitle Hfolder Hfs Hnu Hng Hschema.
  pose proof (folder_structure_sent _ _ Hfs) as Hof.
  unfold ExperimentAppResource.obj_get_list.
  rewrite (has_key_true _ "title") by (by rewrite Htitle).
  rewrite has_folder_key by done. cbn [andb].
  unfold ExperimentAppResource.title_query, getitem.
  rewrite Htitle. cbn [mbind result_bind].
  rewrite (bind_locals_title _ _ fs) by (done || congruence).
  cbn [mbind result_bind]. rewrite Hschema. cbn [mbind result_bind].
  rewrite (title_scan_first db (user req) _
             {| username := ""; email := "" |} "").
  - unfold ExperimentSpec.locals_of. cbn [ExperimentAppResource.need_to_match_user
      ExperimentAppResource.need_to_match_group]. rewrite Hof, Hnu, Hng.
    reflexivity.
  - unfold ExperimentSpec.locals_of. simpl. rewrite Hof, Hnu. done.
  - unfold ExperimentSpec.locals_of. simpl. rewrite Hof, Hng. done.
  - apply needs_exclusive.
  - apply title_psets_have_experiments.
Qed.

Lemma title_query_without_match_witness :
  ExperimentAppResource.obj_get_list (text := ascii_text) (H := bare_host)
    (query [("title", "G"); ("folder_structure", "Experiment / Dataset");
            ("user_folder_name", "nobody")])
    sample_db
  = Ok [(2, {| title := "G" |})].
Proof.
  refine (title_query_without_match (text := ascii_text) (H := bare_host)
            (query [("title", "G");
                    ("folder_structure", "Experiment / Dataset");
                    ("user_folder_name", "nobody")])
            sample_db "G" "Experiment / Dataset"
            {| schema_id := 5;
               namespace := ExperimentAppResource.default_experiment_namespace |}
            _ _ _ _ _ _); try reflexivity.
  left. by eexists.
Defined.

(** X18.  With a folder structure that asks for no match the uploader
    query never returns an experiment: when it returns, it returns the
    empty list. *)
Theorem uploader_query_without_match {text : Text} `{Host} (req : Request) (db : Database)
    (uploader_uuid fs : string) (l : list (Z * Experiment)) :
  GET req !! "title" = None →
  GET req !! "uploader" = Some uploader_uuid →
  is_Some (GET req !! "user_folder_name") ∨
  is_Some (GET req !! "group_folder_name") →
  GET req !! "folder_structure" = Some fs →
  ExperimentSpec.needs_user fs = false →
  ExperimentSpec.needs_group fs = false →
  ExperimentAppResource.obj_get_list req db = Ok l →
  l = [].
Proof.
  intros Htitle Huploader Hfolder Hfs Hnu Hng.
  pose proof (folder_structure_sent _ _ Hfs) as Hof.
  unfold ExperimentAppResource.obj_get_list.
  rewrite (has_key_false _ "title") by done.
  rewrite (has_key_true _ "uploader") by (by rewrite Huploader).
  rewrite has_folder_key by done. cbn [andb].
  unfold ExperimentAppResource.uploader_query, getitem.
  rewrite Huploader. cbn [mbind result_bind].
  rewrite (bind_locals_uploader _ _ fs) by done. rewrite Hnu, Hng.
  cbn [mbind result_bind].
  destruct (ExperimentAppResource.get_default_schema db) as [schema|];
    [|done].
  cbn [mbind result_bind]. intros Hscan.
  apply (uploader_scan_sound db (user req) uploader_uuid _
           {| username := ""; email := "" |} "") in Hscan.
  - rewrite Hscan. apply first_experiment_never. intros ps.
    unfold ExperimentSpec.locals_of.
    cbn [ExperimentAppResource.need_to_match_user
         ExperimentAppResource.need_to_match_group].
    rewrite Hof, Hnu, Hng. cbn [andb orb]. by rewrite andb_false_r.
  - unfold ExperimentSpec.locals_of. simpl. rewrite Hof, Hnu. done.
  - unfold ExperimentSpec.locals_of. simpl. by rewrite Hof, Hng.
Qed.

Lemma uploader_query_without_match_witness :
  ExperimentAppResource.obj_get_list (text := ascii_text) (H := bare_host)
    (query [("uploader", "u-1"); ("folder_structure", "Experiment / Dataset");
            ("user_folder_name", "alice")])
    {| users := users sample_db; schemas := schemas sample_db;
       experiments := experiments sample_db;
       parametersets := parametersets sample_db;
       parameters := [{| parameterset := 20; param_name := "uploader";
                         string_value := "u-1" |}];
       safe_all := safe_all sample_db |}
  = Ok [].
Proof.
  assert (∀ l, ExperimentAppResource.obj_get_list (text := ascii_text) (H := bare_host)
                 (query [("uploader", "u-1");
                         ("folder_structure", "Experiment / Dataset");
                         ("user_folder_name", "alice")])
                 {| users := users sample_db; schemas := schemas sample_db;
                    experiments := experiments sample_db;
                    parametersets := parametersets sample_db;
                    parameters := [{| parameterset := 20;
                                      param_name := "uploader";
                                      string_value := "u-1" |}];
                    safe_all := safe_all sample_db |} = Ok l → l = [])
    as Hempty.
  { intros l.
    apply (uploader_query_without_match (text := ascii_text) (H := bare_host) _ _ "u-1"
             "Experiment / Dataset"); try reflexivity.
    left. by eexists. }
  destruct (ExperimentAppResource.obj_get_list _ _) as [l|e] eqn:Hrun.
  - by rewrite (Hempty l eq_refl).
  - vm_compute in Hrun. discriminate Hrun.
Defined.

(** X19.  Neither query returns what the requesting user may not see:
    when a request with a folder name and a title or an uploader is
    answered, the answer is the empty list or one experiment that is in
    the database under its key and among those accessible to the
    user. *)
Theorem queries_return_accessible {text : Text} `{Host} (req : Request) (db : Database)
    (l : list (Z * Experiment)) :
  is_Some (GET req !! "user_folder_name") ∨
  is_Some (GET req !! "group_folder_name") →
  is_Some (GET req !! "title") ∨ is_Some (GET req !! "uploader") →
  ExperimentAppResource.obj_get_list req db = Ok l →
  l = [] ∨ ∃ id e, l = [(id, e)] ∧ experiments db !! id = Some e ∧
                   id ∈ safe_all db (user req).
Proof.
  intros Hfolder Hkind. unfold ExperimentAppResource.obj_get_list.
  rewrite has_folder_key by done. rewrite !andb_true_r.
  destruct (ExperimentAppResource.has_key (GET req) "title") eqn:Htitle.
  - unfold ExperimentAppResource.title_query.
    destruct (getitem (GET req) "title") as [t|]; [|done].
    cbn [mbind result_bind].
    destruct (ExperimentAppResource.bind_locals _ _ _ _) as [L|]; [|done].
    cbn [mbind result_bind].
    destruct (ExperimentAppResource.get_default_schema db) as [schema|];
      [|done].
    cbn [mbind result_bind]. intros Hscan.
    apply title_scan_accessible in Hscan as [?|(ps & e & _ & -> & ? & ?)];
      [by left|]. right. by exists (pset_experiment ps), e.
  - destruct Hkind as [Hk|Hk].
    { by rewrite (has_key_true _ _ Hk) in Htitle. }
    rewrite (has_key_true _ _ Hk).
    unfold ExperimentAppResource.uploader_query.
    destruct (getitem (GET req) "uploader") as [uploader_uuid|]; [|done].
    cbn [mbind result_bind].
    destruct (ExperimentAppResource.bind_locals _ _ _ _) as [L|]; [|done].
    cbn [mbind result_bind].
    destruct (ExperimentAppResource.get_default_schema db) as [schema|];
      [|done].
    cbn [mbind result_bind]. intros Hscan.
    apply uploader_scan_accessible in Hscan as [?|(ps & e & _ & -> & ? & ?)];
      [by left|]. right. by exists (pset_experiment ps), e.
Qed.

Lemma queries_return_accessible_witness :
  [(2, {| title := "G" |})] = ([] : list (Z * Experiment)) ∨
  ∃ id e, [(2, {| title := "G" |})] = [(id, e)] ∧
          experiments sample_db !! id = Some e ∧
          id ∈ safe_all sample_db manager.
Proof.
  apply (queries_return_accessible (text := ascii_text) (H := bare_host)
           (query [("uploader", "u-1"); ("group_folder_name", "lab-a")])
           sample_db).
  - right. by eexists.
  - right. by eexists.
  - vm_compute. reflexivity.
Defined.

(** ** String methods *)

Lemma prefix_append (p s : string) :
  String.prefix p s = true ↔ ∃ b, s = p +:+ b.
Proof.
  revert s. induction p as [|c p IH]; intros s.
  - split; [intros _; by exists s|]. by destruct s.
  - destruct s as [|d s]; cbn [String.prefix].
    + split; [done|]. by intros [b [= ]].
    + destruct (ascii_dec c d) as [<-|Hcd].
      * rewrite IH. split.
        -- intros [b ->]. by exists b.
        -- intros [b [= ->]]. by exists b.
      * split; [done|]. intros [b [= ? _]]. done.
Qed.

(** X21.  [contains p s], the model of Python's [p in s], holds exactly
    when [p] occurs in [s]: when [s] is some string, then [p], then
    some string. *)
Theorem contains_substring (p s : string) :
  contains p s = true ↔ ∃ a b, s = a +:+ p +:+ b.
Proof.
  induction s as [|c s IH]; cbn [contains].
  - rewrite orb_false_r, prefix_append. split.
    + intros [b ->]. by exists "", b.
    + intros ([|? a] & b & Heq); [by exists b|done].
  - rewrite orb_true_iff, prefix_append, IH. split.
    + intros [[b ->]|(a & b & ->)]; [by exists "", b|].
      by exists (String c a), b.
    + intros ([|d a] & b & Heq).
      * left. by exists b.
      * right. injection Heq as _ ->. by exists a, b.
Qed.

(** ** Saving rows *)

Section SaveRows.
Context {R : Type} `{ModelLaws R}.

Lemma clashes_true (key : R → list pyval) (r r' : R) (others : list R) :
  key ∈ unique_indexes → r' ∈ others → key r' = key r →
  clashes r others = true.
Proof.
  intros Hkey Hr' Heq. unfold clashes.
  apply existsb_exists. exists key. split; [by apply list_elem_of_In|].
  apply existsb_exists. exists r'. split; [by apply list_elem_of_In|].
  by apply bool_decide_eq_true_2.
Qed.

Lemma save_row_in (r r' : R) (tbl tbl' : list R) :
  save r tbl = Ok (r', tbl') → r' ∈ tbl' ∧ is_Some (pk r').
Proof.
  unfold save. destruct (pk r) as [i|] eqn:Hpk.
  - destruct (existsb (has_pk i) tbl) eqn:Hthere.
    + destruct (clashes r _); [done|]. intros [= <- <-].
      split; [|by rewrite Hpk].
      apply existsb_exists in Hthere as (x & Hx & Hpx).
      apply list_elem_of_In in Hx.
      apply list_elem_of_fmap. exists x. by rewrite Hpx.
    + destruct (clashes r tbl); [done|]. intros [= <- <-].
      split; [|by rewrite Hpk]. apply elem_of_app. right. by left.
  - destruct (clashes _ tbl); [done|]. intros [= <- <-].
    split; [|by rewrite pk_set_pk]. apply elem_of_app. right. by left.
Qed.

Lemma filter_by_pk (i : Z) (r : R) (tbl : list R) :
  NoDup (pk <$> tbl) → r ∈ tbl → pk r = Some i →
  filter (λ x, has_pk i x = true) tbl = [r].
Proof.
  induction tbl as [|x tbl IH]; intros Hnd Hr Hpk;
    [by apply elem_of_nil in Hr|].
  rewrite fmap_cons in Hnd. apply NoDup_cons in Hnd as [Hx Hnd].
  rewrite filter_cons.
  apply elem_of_cons in Hr as [<-|Hr].
  - rewrite decide_True by (by apply bool_decide_eq_true_2).
    f_equal. apply filter_none. apply Forall_forall. intros y Hy Hpy.
    apply bool_decide_eq_true_1 in Hpy. apply Hx.
    apply list_elem_of_fmap. exists y. split; [congruence|done].
  - rewrite decide_False; [by apply IH|].
    intros Hpx. apply bool_decide_eq_true_1 in Hpx. apply Hx.
    apply list_elem_of_fmap. exists r. split; [congruence|done].
Qed.
End SaveRows.

(** X23.  What was saved is found again: after a save that succeeds on
    a table the database keeps, the saved row has a primary key and
    [objects.get] with that key returns it. *)
Theorem saved_row_found_by_pk {R : Type} `{ModelLaws R} (r r' : R)
    (tbl tbl' : list R) :
  table_ok tbl → save r tbl = Ok (r', tbl') →
  ∃ i, pk r' = Some i ∧ objects_get (has_pk i) tbl' = Ok r'.
Proof.
  intros Hok Hsave.
  destruct (save_row_in _ _ _ _ Hsave) as [Hin [i Hi]].
  exists i. split; [done|]. unfold objects_get.
  rewrite (filter_by_pk i r'); [done| |done|done].
  by destruct (save_table_ok _ _ _ _ Hok Hsave) as (_ & ? & _).
Qed.

Lemma saved_row_found_by_pk_witness :
  ∃ i, pk (sample_uploader (Some 1) "00:11") = Some i ∧
       objects_get (has_pk i) [sample_uploader (Some 1) "00:11"]
       = Ok (sample_uploader (Some 1) "00:11").
Proof.
  apply (saved_row_found_by_pk (sample_uploader None "00:11") _ []).
  - split; [constructor|]. split; [constructor|]. repeat constructor.
  - reflexivity.
Defined.

(** X24.  The MAC address of an uploader cannot be taken twice: saving
    an uploader whose MAC address is that of another row of the table
    is refused with the duplicate-key integrity error. *)
Theorem uploader_mac_address_taken (u other : Uploader)
    (tbl : list Uploader) :
  other ∈ tbl → mac_address other = mac_address u →
  uploader_id other ≠ uploader_id u →
  save u tbl = Raise duplicate_key.
Proof.
  intros Hin Hmac Hpk. unfold save.
  destruct (pk u) as [i|] eqn:Hi.
  - destruct (existsb (has_pk i) tbl).
    + rewrite (clashes_true (λ u, [VStr (mac_address u)]) u other);
        [done|by left| |by rewrite Hmac].
      apply list_elem_of_filter. split; [|done].
      apply bool_decide_eq_false_2. simpl in *. congruence.
    + by rewrite (clashes_true (λ u, [VStr (mac_address u)]) u other);
        [|by left|done|by rewrite Hmac].
  - rewrite (clashes_true (λ u, [VStr (mac_address u)]) _ other);
      [done|by left|done|].
    rewrite Hmac. by destruct u.
Qed.

Lemma uploader_mac_address_taken_witness :
  save (sample_uploader None "00:11")
       [sample_uploader (Some 1) "00:11"]
  = Raise duplicate_key.
Proof.
  apply (uploader_mac_address_taken _ (sample_uploader (Some 1) "00:11")).
  - by left.
  - reflexivity.
  - done.
Defined.

(** X25.  A registration request cannot be stored twice for an
    uploader and a key fingerprint: saving a request whose uploader and
    fingerprint are those of another row is refused with the
    duplicate-key integrity error. *)
Theorem registration_request_pair_taken
    (r other : UploaderRegistrationRequest)
    (tbl : list UploaderRegistrationRequest) :
  other ∈ tbl → uploader other = uploader r →
  requester_key_fingerprint other = requester_key_fingerprint r →
  request_id other ≠ request_id r →
  save r tbl = Raise duplicate_key.
Proof.
  intros Hin Hu Hf Hpk. unfold save.
  pose (key := λ r : UploaderRegistrationRequest,
                 [VInt (uploader r); VStr (requester_key_fingerprint r)]).
  destruct (pk r) as [i|] eqn:Hi.
  - destruct (existsb (has_pk i) tbl).
    + rewrite (clashes_true key r other);
        [done|by left| |unfold key; by rewrite Hu, Hf].
      apply list_elem_of_filter. split; [|done].
      apply bool_decide_eq_false_2. simpl in *. congruence.
    + by rewrite (clashes_true key r other);
        [|by left|done|unfold key; by rewrite Hu, Hf].
  - rewrite (clashes_true key _ other);
      [done|by left|done|].
    unfold key. simpl. by rewrite Hu, Hf.
Qed.

Lemma registration_request_pair_taken_witness :
  save (sample_request (Some 2) 1 "aa:bb") [sample_request (Some 1) 1 "aa:bb"]
  = Raise duplicate_key.
Proof.
  apply (registration_request_pair_taken _ (sample_request (Some 1) 1 "aa:bb")).
  - by left.
  - reflexivity.
  - reflexivity.
  - done.
Defined.

(** ** More on the two queries and on storage *)

(** X26.  The title query comes first and never reads the uploader: a
    request with a title and a folder name is answered the same
    whatever [uploader] it carries. *)
Theorem title_query_ignores_uploader {text : Text} `{Host} (req : Request) (db : Database)
    (sent : string) :
  is_Some (GET req !! "title") →
  is_Some (GET req !! "user_folder_name") ∨
  is_Some (GET req !! "group_folder_name") →
  ExperimentAppResource.obj_get_list
    {| GET := <["uploader" := sent]> (GET req); META := META req;
       user := user req |} db
  = ExperimentAppResource.obj_get_list req db.
Proof.
  intros Htitle Hfolder.
  unfold ExperimentAppResource.obj_get_list. cbn [GET user].
  assert (∀ key, key ≠ "uploader" →
            <["uploader" := sent]> (GET req) !! key = GET req !! key) as Hkey.
  { intros key Hne. by rewrite lookup_insert_ne. }
  unfold ExperimentAppResource.has_key.
  rewrite !Hkey by done.
  rewrite (bool_decide_eq_true_2 _ Htitle).
  fold (ExperimentAppResource.has_key (GET req) "user_folder_name")
       (ExperimentAppResource.has_key (GET req) "group_folder_name").
  rewrite has_folder_key by done. cbn [andb].
  unfold ExperimentAppResource.title_query,
    ExperimentAppResource.guess_folder_structure,
    ExperimentAppResource.bind_locals, getitem. cbn [GET user].
  by rewrite !Hkey.
Qed.

Lemma title_query_ignores_uploader_witness :
  ExperimentAppResource.obj_get_list (text := ascii_text) (H := bare_host)
    {| GET := <["uploader" := "u-9"]>
                (GET (query [("title", "T"); ("user_folder_name", "alice")]));
       META := ∅; user := manager |} sample_db
  = Ok [(1, {| title := "T" |})].
Proof.
  refine (eq_trans
            (title_query_ignores_uploader (text := ascii_text) (H := bare_host)
               (query [("title", "T"); ("user_folder_name", "alice")])
               sample_db "u-9" _ _) _).
  - by eexists.
  - left. by eexists.
  - vm_compute. reflexivity.
Defined.
